(** * antigravity2api-nodejs: converters, transport parser and upstream errors

    A shallow embedding of
    - [src/utils/converters/common.js], [openai.js] and [claude.js]
      (client messages to the upstream message list),
    - the subprocess response handling of [FingerprintRequester.request]
      in [src/requester.js], its timeouts, and the stream handle of
      [antigravity_fetchStream],
    - [handleApiError], the model list with its cache and the signature
      cached by [generateAssistantResponseNoStream] of the API client,
    - [getProxyConfig] of [config/config.js],
    followed by the properties proved about them.

    JavaScript strings are sequences of UTF-16 code units ([list N]),
    Node [Buffer]s are sequences of bytes ([list byte]); the two are related
    by the UTF-8 conversions of [Buffer.toString] and [Buffer.from]. *)

From Stdlib Require Import ZArith NArith List Strings.String Strings.Byte DecimalString Lia.
From stdpp Require Import base option list gmap.

Open Scope N_scope.

(** ** JavaScript strings *)

Module Js.

Definition jsstring := list N.

(** [null] or [undefined] is [None]; the empty string is the only falsy
    string. *)
Definition truthy (v : option jsstring) : bool :=
  match v with
  | Some (_ :: _) => true
  | _ => false
  end.

(** [a || b] *)
Definition js_or (a b : option jsstring) : option jsstring :=
  if truthy a then a else b.

(** [s || d] for a string [s] and a default [d] *)
Definition or_default (s d : jsstring) : jsstring :=
  match s with
  | [] => d
  | _ => s
  end.

(** [a === b] on strings *)
Fixpoint eqb (a b : jsstring) : bool :=
  match a, b with
  | [], [] => true
  | x :: a', y :: b' => (x =? y) && eqb a' b'
  | _, _ => false
  end.

(** *** UTF-8 *)

Definition REPLACEMENT : N := 0xFFFD.

Definition byte_of (n : N) : byte :=
  match Byte.of_N (n mod 256) with
  | Some b => b
  | None => x00
  end.

(** State of the decoder between two bytes: continuation bytes still
    needed, the code point so far, and the range the next byte must be in. *)
Record decoder := {
  needed : nat;
  code_point : N;
  lower : N;
  upper : N
}.

Definition idle : decoder :=
  {| needed := 0; code_point := 0; lower := 0x80; upper := 0xBF |}.

(** Code point to UTF-16 code units. *)
Definition units_of_code_point (cp : N) : jsstring :=
  if cp <? 0x10000 then [cp]
  else [0xD800 + (cp - 0x10000) / 0x400; 0xDC00 + (cp - 0x10000) mod 0x400].

(** A byte met while no sequence is open. *)
Definition decode_lead (b : N) : jsstring * decoder :=
  if b <=? 0x7F then ([b], idle)
  else if (0xC2 <=? b) && (b <=? 0xDF) then
    ([], {| needed := 1; code_point := N.land b 0x1F; lower := 0x80; upper := 0xBF |})
  else if (0xE0 <=? b) && (b <=? 0xEF) then
    ([], {| needed := 2; code_point := N.land b 0xF;
            lower := if b =? 0xE0 then 0xA0 else 0x80;
            upper := if b =? 0xED then 0x9F else 0xBF |})
  else if (0xF0 <=? b) && (b <=? 0xF4) then
    ([], {| needed := 3; code_point := N.land b 0x7;
            lower := if b =? 0xF0 then 0x90 else 0x80;
            upper := if b =? 0xF4 then 0x8F else 0xBF |})
  else ([REPLACEMENT], idle).

(** [buffer.toString('utf8')]: an ill-formed sequence yields U+FFFD and
    decoding resumes at the byte that broke it; a sequence cut by the end of
    the buffer yields U+FFFD. *)
Fixpoint decode_from (st : decoder) (bs : list byte) : jsstring :=
  match bs with
  | [] => match needed st with O => [] | S _ => [REPLACEMENT] end
  | b :: rest =>
      let n := Byte.to_N b in
      match needed st with
      | O => let '(out, st') := decode_lead n in out ++ decode_from st' rest
      | S k =>
          if (lower st <=? n) && (n <=? upper st) then
            let cp := N.lor (N.shiftl (code_point st) 6) (N.land n 0x3F) in
            match k with
            | O => units_of_code_point cp ++ decode_from idle rest
            | S _ => decode_from {| needed := k; code_point := cp;
                                    lower := 0x80; upper := 0xBF |} rest
            end
          else
            let '(out, st') := decode_lead n in
            REPLACEMENT :: out ++ decode_from st' rest
      end
  end.

Definition toString (buffer : list byte) : jsstring := decode_from idle buffer.

Definition encode_code_point (cp : N) : list byte :=
  if cp <? 0x80 then [byte_of cp]
  else if cp <? 0x800 then
    [byte_of (0xC0 + cp / 0x40); byte_of (0x80 + cp mod 0x40)]
  else if cp <? 0x10000 then
    [byte_of (0xE0 + cp / 0x1000); byte_of (0x80 + (cp / 0x40) mod 0x40);
     byte_of (0x80 + cp mod 0x40)]
  else
    [byte_of (0xF0 + cp / 0x40000); byte_of (0x80 + (cp / 0x1000) mod 0x40);
     byte_of (0x80 + (cp / 0x40) mod 0x40); byte_of (0x80 + cp mod 0x40)].

Definition is_high_surrogate (u : N) : bool := (0xD800 <=? u) && (u <=? 0xDBFF).
Definition is_low_surrogate (u : N) : bool := (0xDC00 <=? u) && (u <=? 0xDFFF).

(** [Buffer.from(string)]: surrogate pairs are joined, a lone surrogate is
    written as U+FFFD. *)
Fixpoint bufferFrom (s : jsstring) : list byte :=
  match s with
  | [] => []
  | u :: rest =>
      if is_high_surrogate u then
        match rest with
        | l :: rest' =>
            if is_low_surrogate l then
              encode_code_point (0x10000 + (u - 0xD800) * 0x400 + (l - 0xDC00))
                ++ bufferFrom rest'
            else encode_code_point REPLACEMENT ++ bufferFrom rest
        | [] => encode_code_point REPLACEMENT
        end
      else if is_low_surrogate u then encode_code_point REPLACEMENT ++ bufferFrom rest
      else encode_code_point u ++ bufferFrom rest
  end.

(** A literal of the source, written in this file as UTF-8 text. *)
Definition lit (s : string) : jsstring := toString (list_byte_of_string s).

(** *** String methods *)

Fixpoint startsWith (s pat : jsstring) : bool :=
  match pat, s with
  | [], _ => true
  | p :: pat', c :: s' => (p =? c) && startsWith s' pat'
  | _ :: _, [] => false
  end.

(** [s.indexOf(pat)], with [None] for [-1]. *)
Fixpoint indexOf (s pat : jsstring) : option nat :=
  if startsWith s pat then Some O
  else match s with
       | [] => None
       | _ :: s' => S <$> indexOf s' pat
       end.

Definition includes (s pat : jsstring) : bool :=
  match indexOf s pat with Some _ => true | None => false end.

(** [s.split(sep)] for a non-empty separator: [skip] counts the code units
    of a separator still to be passed over, [cur] is the piece being read,
    last unit first. *)
Fixpoint split_from (sep : jsstring) (skip : nat) (cur s : jsstring) : list jsstring :=
  match s with
  | [] => [rev cur]
  | c :: s' =>
      match skip with
      | S k => split_from sep k cur s'
      | O =>
          if startsWith s sep then rev cur :: split_from sep (length sep - 1) [] s'
          else split_from sep O (c :: cur) s'
      end
  end.

Definition split (s sep : jsstring) : list jsstring := split_from sep O [] s.

(** [parts.join(sep)] *)
Fixpoint join (sep : jsstring) (parts : list jsstring) : jsstring :=
  match parts with
  | [] => []
  | [p] => p
  | p :: ps => p ++ sep ++ join sep ps
  end.

(** White space and line terminators, as [trim] strips them. *)
Definition is_white_space (u : N) : bool :=
  ((9 <=? u) && (u <=? 13)) || (u =? 32) || (u =? 0xA0) || (u =? 0x1680)
  || ((0x2000 <=? u) && (u <=? 0x200A)) || (u =? 0x2028) || (u =? 0x2029)
  || (u =? 0x202F) || (u =? 0x205F) || (u =? 0x3000) || (u =? 0xFEFF).

Fixpoint trimStart (s : jsstring) : jsstring :=
  match s with
  | u :: s' => if is_white_space u then trimStart s' else s
  | [] => []
  end.

Definition trimEnd (s : jsstring) : jsstring := rev (trimStart (rev s)).
Definition trim (s : jsstring) : jsstring := trimStart (trimEnd s).

(** [s.toLowerCase()] as far as the letters A to Z go. JavaScript also
    lowers letters outside ASCII (U+212A becomes [k]); they are kept here,
    so the two agree on every text whose code units are below 128, and what
    is proved of lower-cased names below is proved of such texts. *)
Definition toLowerCase (s : jsstring) : jsstring :=
  map (fun u => if (65 <=? u) && (u <=? 90) then u + 32 else u) s.

(** Regular-expression classes: [\d], [\w], and [.] *)
Definition is_digit (u : N) : bool := (48 <=? u) && (u <=? 57).
Definition is_word (u : N) : bool :=
  is_digit u || ((65 <=? u) && (u <=? 90)) || ((97 <=? u) && (u <=? 122)) || (u =? 95).
Definition is_dot (u : N) : bool :=
  negb ((u =? 10) || (u =? 13) || (u =? 0x2028) || (u =? 0x2029)).

(** The longest prefix of [s] in a class, and what follows it. *)
Fixpoint span (p : N -> bool) (s : jsstring) : jsstring * jsstring :=
  match s with
  | u :: s' => if p u then let '(a, b) := span p s' in (u :: a, b) else ([], s)
  | [] => ([], [])
  end.

(** [s] without the prefix [pat], when it starts with it. *)
Fixpoint strip (pat s : jsstring) : option jsstring :=
  match pat, s with
  | [], _ => Some s
  | p :: pat', c :: s' => if p =? c then strip pat' s' else None
  | _ :: _, [] => None
  end.

(** [parseInt] of a string of decimal digits, as an exact integer
    (JavaScript rounds to a double beyond 2^53). *)
Definition parseDigits (s : jsstring) : Z :=
  fold_left (fun acc u => (10 * acc + Z.of_N (u - 48))%Z) s 0%Z.

End Js.

(** ** The JavaScript runtime and the modules the converters import

    Values the converters only pass along (tool arguments that are not
    strings, tool inputs) are values of the runtime; [JSON.parse] returns
    [None] where it throws a [SyntaxError], and [getProperty v k] is [None]
    where reading [v.k] throws (a [null] value), [Some None] where the
    property is [undefined]. *)

Class JsRuntime := {
  JsValue : Type;
  JSON_stringify : JsValue -> Js.jsstring;
  JSON_parse : Js.jsstring -> option JsValue;
  ToBoolean : JsValue -> bool;
  ToString : JsValue -> Js.jsstring;
  getProperty : JsValue -> Js.jsstring -> option (option JsValue);
  emptyObject : JsValue
}.

(** [config/config.js]: the switches read by the converters. *)
Record Config := {
  useCachedSignature : bool;
  useFallbackSignature : bool;
  cacheOnlyToolSignatures : bool
}.

(** [config], [thoughtSignatureCache.js] and [utils.js] as the converters
    see them. *)
Class Collaborators := {
  config : Config;
  getReasoningSignature : Js.jsstring -> Js.jsstring -> option Js.jsstring;
  getToolSignature : Js.jsstring -> Js.jsstring -> option Js.jsstring;
  getThoughtSignatureForModel : Js.jsstring -> option Js.jsstring;
  getToolSignatureForModel : Js.jsstring -> option Js.jsstring;
  sanitizeToolName : Js.jsstring -> Js.jsstring
}.

(** A call either completes with a value or throws. *)
Inductive Completion (A : Type) :=
| Normal (value : A)
| Throw (error : Js.jsstring).
Arguments Normal {A} value.
Arguments Throw {A} error.

(** ** converters/common.js *)

Module Common.
Import Js.

Inductive Role := user | model.

Definition is_model (r : Role) : bool :=
  match r with model => true | user => false end.

Definition is_user (r : Role) : bool :=
  match r with user => true | model => false end.

Section Parts.
Context (Raw Output : Type).

(** [functionCall.args]: [{ query: s }] for a string, the value itself
    otherwise. *)
Inductive FunctionArgs :=
| QueryArgs (query : jsstring)
| RawArgs (args : Raw).

(** The part objects the converters build. *)
Inductive Part :=
| TextPart (text : jsstring)
| ThoughtPart (text : jsstring) (thoughtSignature : option jsstring)
| FunctionCallPart (id name : jsstring) (args : FunctionArgs)
    (thoughtSignature : option jsstring)
| FunctionResponsePart (id name : jsstring) (output : Output)
| InlineDataPart (mimeType data : jsstring).

Record Message := { role : Role; parts : list Part }.

End Parts.

Arguments QueryArgs {Raw} query.
Arguments RawArgs {Raw} args.
Arguments TextPart {Raw Output} text.
Arguments ThoughtPart {Raw Output} text thoughtSignature.
Arguments FunctionCallPart {Raw Output} id name args thoughtSignature.
Arguments FunctionResponsePart {Raw Output} id name output.
Arguments InlineDataPart {Raw Output} mimeType data.
Arguments Build_Message {Raw Output} role parts.
Arguments role {Raw Output} m.
Arguments parts {Raw Output} m.

Record SignatureContext := {
  reasoningSignature : option jsstring;
  toolSignature : option jsstring
}.

(** Modelled from the spec: [setToolNameMapping] of [toolNameCache.js] is
    not among the sources; it is the tool-name-mapping collaborator of the
    specification, [register(model, sanitizedName, originalName)]. A
    [ToolNameMapping] is one call of it with its three arguments, and a list
    of them is the calls made so far, the oldest first. What the
    collaborator keeps of its calls is not modelled. *)
Record ToolNameMapping := {
  mapping_model : jsstring;
  mapping_safeName : jsstring;
  mapping_originalName : jsstring
}.

(** [{ text, images }] as the extract functions return it. *)
Record Extracted (Raw Output : Type) := {
  extracted_text : jsstring;
  extracted_images : list (Part Raw Output)
}.
Arguments Build_Extracted {Raw Output} _ _.
Arguments extracted_text {Raw Output} e.
Arguments extracted_images {Raw Output} e.

Section Functions.
Context `{Collaborators} {Raw Output : Type}.

Definition getSignatureContext (sessionId actualModelName : jsstring) (hasTools : bool)
  : SignatureContext :=
  let cachedReasoningSig :=
    if useCachedSignature config then getReasoningSignature sessionId actualModelName
    else None in
  let shouldGetCachedToolSig :=
    useCachedSignature config && (negb (cacheOnlyToolSignatures config) || hasTools) in
  let cachedToolSig :=
    if shouldGetCachedToolSig then getToolSignature sessionId actualModelName else None in
  let shouldUseFallbackToolSig :=
    useFallbackSignature config && (negb (cacheOnlyToolSignatures config) || hasTools) in
  {| reasoningSignature :=
       js_or cachedReasoningSig
         (if useFallbackSignature config then getThoughtSignatureForModel actualModelName
          else None);
     toolSignature :=
       js_or cachedToolSig
         (if shouldUseFallbackToolSig then getToolSignatureForModel actualModelName
          else None) |}.

Definition pushUserMessage (extracted : Extracted Raw Output)
    (antigravityMessages : list (Message Raw Output)) : list (Message Raw Output) :=
  antigravityMessages ++
    [ {| role := user;
         parts := TextPart (or_default (extracted_text extracted) [32])
                    :: extracted_images extracted |} ].

Definition is_functionCall (toolCallId : jsstring) (part : Part Raw Output)
  : option jsstring :=
  match part with
  | FunctionCallPart id name _ _ => if eqb id toolCallId then Some name else None
  | _ => None
  end.

(** The inner loop of [findFunctionNameById]: the first part of the
    message that is a call with this id. *)
Fixpoint find_in_parts (toolCallId : jsstring) (ps : list (Part Raw Output))
  : option jsstring :=
  match ps with
  | [] => None
  | part :: rest =>
      match is_functionCall toolCallId part with
      | Some name => Some name
      | None => find_in_parts toolCallId rest
      end
  end.

(** The outer loop, over the messages from the last to the first. *)
Fixpoint find_backwards (toolCallId : jsstring) (reversed : list (Message Raw Output))
  : jsstring :=
  match reversed with
  | [] => []
  | m :: earlier =>
      if is_model (role m) then
        match find_in_parts toolCallId (parts m) with
        | Some name => name
        | None => find_backwards toolCallId earlier
        end
      else find_backwards toolCallId earlier
  end.

Definition findFunctionNameById (toolCallId : jsstring)
    (antigravityMessages : list (Message Raw Output)) : jsstring :=
  find_backwards toolCallId (rev antigravityMessages).

Definition is_functionResponse (p : Part Raw Output) : bool :=
  match p with FunctionResponsePart _ _ _ => true | _ => false end.

Definition pushFunctionResponse (toolCallId functionName : jsstring)
    (resultContent : Output) (antigravityMessages : list (Message Raw Output))
  : list (Message Raw Output) :=
  let functionResponse := FunctionResponsePart toolCallId functionName resultContent in
  match last antigravityMessages with
  | Some lastMessage =>
      if is_user (role lastMessage) && existsb is_functionResponse (parts lastMessage)
      then removelast antigravityMessages ++
             [ {| role := role lastMessage;
                  parts := parts lastMessage ++ [functionResponse] |} ]
      else antigravityMessages ++ [ {| role := user; parts := [functionResponse] |} ]
  | None => antigravityMessages ++ [ {| role := user; parts := [functionResponse] |} ]
  end.

Definition createThoughtPart (text : jsstring) (signature : option jsstring)
  : Part Raw Output :=
  ThoughtPart (or_default text [32]) (if truthy signature then signature else None).

Definition createFunctionCallPart (id name : jsstring) (args : jsstring + Raw)
    (signature : option jsstring) : Part Raw Output :=
  FunctionCallPart id name
    (match args with inl s => QueryArgs s | inr v => RawArgs v end)
    (if truthy signature then signature else None).

(** Returns the safe name, and the calls of [setToolNameMapping] made so
    far with the call of this one, if it makes one, at the end. *)
Definition processToolName (originalName sessionId actualModelName : jsstring)
    (toolNameCache : list ToolNameMapping) : jsstring * list ToolNameMapping :=
  let safeName := sanitizeToolName originalName in
  if truthy (Some actualModelName) && negb (eqb safeName originalName)
  then (safeName,
        toolNameCache ++ [ {| mapping_model := actualModelName;
                              mapping_safeName := safeName;
                              mapping_originalName := originalName |} ])
  else (safeName, toolNameCache).

Definition pushModelMessage (parts_ toolCalls : list (Part Raw Output))
    (hasContent : bool) (antigravityMessages : list (Message Raw Output))
  : list (Message Raw Output) :=
  let hasToolCalls := negb (Nat.eqb (length toolCalls) 0) in
  match last antigravityMessages with
  | Some lastMessage =>
      if is_model (role lastMessage) && hasToolCalls && negb hasContent
      then removelast antigravityMessages ++
             [ {| role := role lastMessage; parts := parts lastMessage ++ toolCalls |} ]
      else antigravityMessages ++ [ {| role := model; parts := parts_ ++ toolCalls |} ]
  | None => antigravityMessages ++ [ {| role := model; parts := parts_ ++ toolCalls |} ]
  end.

(** [delete part.thoughtSignature] *)
Definition delete_thoughtSignature (part : Part Raw Output) : Part Raw Output :=
  match part with
  | ThoughtPart text _ => ThoughtPart text None
  | FunctionCallPart id name args _ => FunctionCallPart id name args None
  | _ => part
  end.

(** [if (!enableThinking && parts[0]) delete parts[0].thoughtSignature] *)
Definition delete_first_signature (enableThinking : bool) (ps : list (Part Raw Output))
  : list (Part Raw Output) :=
  match ps with
  | p :: rest => if enableThinking then ps else delete_thoughtSignature p :: rest
  | [] => []
  end.

End Functions.

(** *** The system instruction *)

(** The fields of [config] read for the system instruction. *)
Record PromptConfig := {
  useContextSystemPrompt : bool;
  systemInstruction : jsstring
}.

(** A system prompt as a client sends it: absent, a string, or another
    truthy value (the Claude protocol also allows an array of blocks). *)
Inductive SystemPrompt :=
| PromptAbsent
| PromptString (s : jsstring)
| PromptOther.

Definition prompt_truthy (p : SystemPrompt) : bool :=
  match p with
  | PromptString (_ :: _) | PromptOther => true
  | _ => false
  end.

(** [baseSystem] is a string at every call in the repository, so that
    [baseSystem || ''] is [baseSystem]. *)
Definition mergeSystemInstruction (cfg : PromptConfig) (baseSystem : jsstring)
    (contextSystem : SystemPrompt) : jsstring :=
  if negb (useContextSystemPrompt cfg) || negb (prompt_truthy contextSystem)
  then baseSystem
  else
    let parts0 := match trim baseSystem with [] => [] | t => [t] end in
    let parts1 :=
      match contextSystem with
      | PromptString s => match trim s with [] => parts0 | t => parts0 ++ [t] end
      | _ => parts0
      end in
    join [10; 10] parts1.

End Common.

(** ** converters/openai.js *)

Module OpenAI.
Import Js Common.

Inductive ContentItem :=
| TextItem (text : option jsstring)
| ImageUrlItem (url : option jsstring)
| OtherItem.

(** [message.content]: a string, an array of content items, or absent. *)
Inductive Content :=
| ContentString (s : jsstring)
| ContentArray (items : list ContentItem)
| ContentAbsent.

Inductive MessageRole := RoleUser | RoleSystem | RoleAssistant | RoleTool | RoleOther.

Section Converter.
Context `{JsRuntime} `{Collaborators}.

Record ToolCall := {
  tc_id : jsstring;
  tc_function_name : jsstring;
  tc_function_arguments : jsstring + JsValue;
  tc_thoughtSignature : option jsstring
}.

Record ChatMessage := {
  role : MessageRole;
  content : Content;
  tool_calls : list ToolCall;
  reasoning_content : option jsstring;
  thoughtSignature : option jsstring;
  tool_call_id : jsstring
}.

Definition CanonicalPart := Part JsValue Content.
Definition CanonicalMessage := Message JsValue Content.

(** [imageUrl.match(/^data:image\/(\w+);base64,(.+)$/)]: the two groups. *)
Definition match_data_uri (imageUrl : jsstring) : option (jsstring * jsstring) :=
  match strip (lit "data:image/") imageUrl with
  | None => None
  | Some rest =>
      let '(format, rest1) := span is_word rest in
      match format, strip (lit ";base64,") rest1 with
      | _ :: _, Some rest2 =>
          let '(data, rest3) := span is_dot rest2 in
          match data, rest3 with
          | _ :: _, [] => Some (format, data)
          | _, _ => None
          end
      | _, _ => None
      end
  end.

Definition extract_item (result : Extracted JsValue Content) (item : ContentItem)
  : Extracted JsValue Content :=
  match item with
  | TextItem text =>
      {| extracted_text :=
           extracted_text result ++ match text with Some t => t | None => lit "undefined" end;
         extracted_images := extracted_images result |}
  | ImageUrlItem url =>
      let imageUrl := match js_or url (Some []) with Some u => u | None => [] end in
      match match_data_uri imageUrl with
      | Some (format, data) =>
          {| extracted_text := extracted_text result;
             extracted_images :=
               extracted_images result ++ [InlineDataPart (lit "image/" ++ format) data] |}
      | None => result
      end
  | OtherItem => result
  end.

Definition extractImagesFromContent (content : Content) : Extracted JsValue Content :=
  let result := {| extracted_text := []; extracted_images := [] |} in
  match content with
  | ContentString s => {| extracted_text := s; extracted_images := [] |}
  | ContentArray items => fold_left extract_item items result
  | ContentAbsent => result
  end.

(** The [map] over [message.tool_calls], with the calls of
    [setToolNameMapping] made so far passed from one tool call to the
    next. *)
Fixpoint convert_tool_calls (message : ChatMessage) (enableThinking : bool)
    (actualModelName sessionId : jsstring) (context : SignatureContext)
    (toolCalls : list ToolCall) (toolNameCache : list ToolNameMapping)
  : list CanonicalPart * list ToolNameMapping :=
  match toolCalls with
  | [] => ([], toolNameCache)
  | toolCall :: rest =>
      let '(safeName, cache1) :=
        processToolName (tc_function_name toolCall) sessionId actualModelName toolNameCache in
      let signature :=
        if enableThinking
        then js_or (js_or (js_or (tc_thoughtSignature toolCall) (toolSignature context))
                      (thoughtSignature message))
               (reasoningSignature context)
        else None in
      let part :=
        createFunctionCallPart (tc_id toolCall) safeName (tc_function_arguments toolCall)
          signature in
      let '(parts_, cache2) :=
        convert_tool_calls message enableThinking actualModelName sessionId context rest cache1 in
      (part :: parts_, cache2)
  end.

(** [message.content && message.content.trim() !== ''] ; an array has no
    [trim]. *)
Definition hasContent_of (content : Content) : Completion bool :=
  match content with
  | ContentAbsent => Normal false
  | ContentString [] => Normal false
  | ContentString s => Normal (negb (eqb (trim s) []))
  | ContentArray _ => Throw (lit "message.content.trim is not a function")
  end.

Definition content_text (content : Content) : jsstring :=
  match content with
  | ContentString s => s
  | _ => []
  end.

Definition handleAssistantMessage (message : ChatMessage)
    (antigravityMessages : list CanonicalMessage) (enableThinking : bool)
    (actualModelName sessionId : jsstring) (hasTools : bool)
    (toolNameCache : list ToolNameMapping)
  : Completion (list CanonicalMessage * list ToolNameMapping) :=
  match hasContent_of (content message) with
  | Throw e => Throw e
  | Normal hasContent =>
      let context := getSignatureContext sessionId actualModelName hasTools in
      let '(toolCalls, cache1) :=
        convert_tool_calls message enableThinking actualModelName sessionId context
          (tool_calls message) toolNameCache in
      let thought : list CanonicalPart :=
        if enableThinking then
          let reasoningText :=
            match reasoning_content message with
            | Some (u :: t) => u :: t
            | _ => [32]
            end in
          let signature :=
            js_or (js_or (thoughtSignature message) (reasoningSignature context))
              (toolSignature context) in
          if truthy signature then [createThoughtPart reasoningText signature] else []
        else [] in
      let text : list CanonicalPart :=
        if hasContent then [TextPart (trimEnd (content_text (content message)))] else [] in
      let parts_ := delete_first_signature enableThinking (thought ++ text) in
      Normal (pushModelMessage parts_ toolCalls hasContent antigravityMessages, cache1)
  end.

Definition handleToolCall (message : ChatMessage)
    (antigravityMessages : list CanonicalMessage) : list CanonicalMessage :=
  let functionName := findFunctionNameById (tool_call_id message) antigravityMessages in
  pushFunctionResponse (tool_call_id message) functionName (content message)
    antigravityMessages.

(** The loop body of [openaiMessageToAntigravity]. *)
Definition convert_message (enableThinking : bool) (actualModelName sessionId : jsstring)
    (hasTools : bool) (message : ChatMessage)
    (state : list CanonicalMessage * list ToolNameMapping)
  : Completion (list CanonicalMessage * list ToolNameMapping) :=
  let '(antigravityMessages, toolNameCache) := state in
  match role message with
  | RoleUser | RoleSystem =>
      Normal (pushUserMessage (extractImagesFromContent (content message))
                antigravityMessages, toolNameCache)
  | RoleAssistant =>
      handleAssistantMessage message antigravityMessages enableThinking actualModelName
        sessionId hasTools toolNameCache
  | RoleTool => Normal (handleToolCall message antigravityMessages, toolNameCache)
  | RoleOther => Normal state
  end.

Fixpoint convert_messages (enableThinking : bool) (actualModelName sessionId : jsstring)
    (hasTools : bool) (messages : list ChatMessage)
    (state : list CanonicalMessage * list ToolNameMapping)
  : Completion (list CanonicalMessage * list ToolNameMapping) :=
  match messages with
  | [] => Normal state
  | message :: rest =>
      match convert_message enableThinking actualModelName sessionId hasTools message state with
      | Normal state' =>
          convert_messages enableThinking actualModelName sessionId hasTools rest state'
      | Throw e => Throw e
      end
  end.

(** Starts from an empty message array; [toolNameCache] is the calls of
    [setToolNameMapping] made before this one. *)
Definition openaiMessageToAntigravity (openaiMessages : list ChatMessage)
    (enableThinking : bool) (actualModelName sessionId : jsstring) (hasTools : bool)
    (toolNameCache : list ToolNameMapping)
  : Completion (list CanonicalMessage * list ToolNameMapping) :=
  convert_messages enableThinking actualModelName sessionId hasTools openaiMessages
    ([], toolNameCache).

Definition is_system (r : MessageRole) : bool :=
  match r with RoleSystem => true | _ => false end.

(** The loop of [generateRequestBody] over the leading system messages:
    [messages] is what is left of [openaiMessages] from the index of the
    loop on; the result is [filteredMessages] when the loop ends, the
    conversation that [openaiMessageToAntigravity] is given. *)
Fixpoint skip_system (openaiMessages messages : list ChatMessage) (startIndex : nat)
  : list ChatMessage :=
  match messages with
  | [] => openaiMessages
  | message :: rest =>
      if is_system (role message) then skip_system openaiMessages rest (S startIndex)
      else drop startIndex openaiMessages
  end.

Definition filteredMessages (cfg : PromptConfig) (openaiMessages : list ChatMessage)
  : list ChatMessage :=
  if useContextSystemPrompt cfg then skip_system openaiMessages openaiMessages 0
  else openaiMessages.

End Converter.
End OpenAI.

(** ** converters/claude.js *)

Module Claude.
Import Js Common.

(** [item.source] of an image block. *)
Record ImageSource := {
  source_type : jsstring;
  media_type : option jsstring;
  source_data : option jsstring
}.

(** An element of a tool result's content array. *)
Inductive ResultItem :=
| ResultText (text : option jsstring)
| ResultOther.

Inductive ResultContent :=
| ResultString (s : jsstring)
| ResultArray (items : list ResultItem)
| ResultAbsent.

Section Converter.
Context `{JsRuntime} `{Collaborators}.

Inductive ContentBlock :=
| TextBlock (text : option jsstring)
| ThinkingBlock (signature : option jsstring)
| ToolUseBlock (id name : jsstring) (input : option JsValue) (signature : option jsstring)
| ToolResultBlock (tool_use_id : jsstring) (content : ResultContent)
| ImageBlock (source : option ImageSource)
| OtherBlock.

Inductive Content :=
| ContentString (s : jsstring)
| ContentArray (items : list ContentBlock)
| ContentAbsent.

Inductive MessageRole := RoleUser | RoleAssistant | RoleOther.

Record ClaudeMessage := { role : MessageRole; content : Content }.

Definition CanonicalPart := Part JsValue jsstring.
Definition CanonicalMessage := Message JsValue jsstring.

Definition extract_block (result : Extracted JsValue jsstring) (item : ContentBlock)
  : Extracted JsValue jsstring :=
  match item with
  | TextBlock text =>
      {| extracted_text :=
           extracted_text result ++ match js_or text (Some []) with Some t => t | None => [] end;
         extracted_images := extracted_images result |}
  | ImageBlock (Some source) =>
      if eqb (source_type source) (lit "base64") && truthy (source_data source) then
        {| extracted_text := extracted_text result;
           extracted_images :=
             extracted_images result ++
               [InlineDataPart
                  (match js_or (media_type source) (Some (lit "image/png")) with
                   | Some m => m
                   | None => []
                   end)
                  (match source_data source with Some d => d | None => [] end)] |}
      else result
  | _ => result
  end.

Definition extractImagesFromClaudeContent (content : Content)
  : Extracted JsValue jsstring :=
  let result := {| extracted_text := []; extracted_images := [] |} in
  match content with
  | ContentString s => {| extracted_text := s; extracted_images := [] |}
  | ContentArray items => fold_left extract_block items result
  | ContentAbsent => result
  end.

(** What the loop over the content array of an assistant message carries. *)
Record Scan := {
  textContent : jsstring;
  toolCalls : list CanonicalPart;
  messageSignature : option jsstring;
  toolNameCache : list ToolNameMapping
}.

Definition scan_block (enableThinking : bool) (actualModelName sessionId : jsstring)
    (context : SignatureContext) (acc : Scan) (item : ContentBlock) : Scan :=
  match item with
  | TextBlock text =>
      {| textContent :=
           textContent acc ++ match js_or text (Some []) with Some t => t | None => [] end;
         toolCalls := toolCalls acc;
         messageSignature := messageSignature acc;
         toolNameCache := toolNameCache acc |}
  | ThinkingBlock signature =>
      {| textContent := textContent acc;
         toolCalls := toolCalls acc;
         messageSignature :=
           if negb (truthy (messageSignature acc)) && truthy signature then signature
           else messageSignature acc;
         toolNameCache := toolNameCache acc |}
  | ToolUseBlock id name input signature =>
      let '(safeName, cache1) :=
        processToolName name sessionId actualModelName (toolNameCache acc) in
      let sig :=
        if enableThinking
        then js_or (js_or signature (toolSignature context)) (reasoningSignature context)
        else None in
      let value :=
        match input with
        | Some v => if ToBoolean v then v else emptyObject
        | None => emptyObject
        end in
      {| textContent := textContent acc;
         toolCalls :=
           toolCalls acc ++ [createFunctionCallPart id safeName (inl (JSON_stringify value)) sig];
         messageSignature := messageSignature acc;
         toolNameCache := cache1 |}
  | _ => acc
  end.

(** The first part of [handleClaudeAssistantMessage]: the text, the tool
    calls and the signature read off [message.content]. *)
Definition scan_content (enableThinking : bool) (actualModelName sessionId : jsstring)
    (context : SignatureContext) (toolNameCache0 : list ToolNameMapping)
    (content_ : Content) : Scan :=
  let start :=
    {| textContent := []; toolCalls := []; messageSignature := None;
       toolNameCache := toolNameCache0 |} in
  match content_ with
  | ContentString s =>
      {| textContent := s; toolCalls := []; messageSignature := None;
         toolNameCache := toolNameCache0 |}
  | ContentArray items =>
      fold_left (scan_block enableThinking actualModelName sessionId context) items start
  | ContentAbsent => start
  end.

(** [textContent && textContent.trim() !== ''] *)
Definition has_text (textContent_ : jsstring) : bool :=
  match textContent_ with
  | [] => false
  | s => negb (eqb (trim s) [])
  end.

Definition handleClaudeAssistantMessage (message : ClaudeMessage)
    (antigravityMessages : list CanonicalMessage) (enableThinking : bool)
    (actualModelName sessionId : jsstring) (hasTools : bool)
    (toolNameCache0 : list ToolNameMapping)
  : list CanonicalMessage * list ToolNameMapping :=
  let context := getSignatureContext sessionId actualModelName hasTools in
  let scanned :=
    scan_content enableThinking actualModelName sessionId context toolNameCache0
      (content message) in
  let hasContent := has_text (textContent scanned) in
  let thought : list CanonicalPart :=
    if enableThinking then
      let signature :=
        js_or (js_or (messageSignature scanned) (reasoningSignature context))
          (toolSignature context) in
      if truthy signature then [createThoughtPart [32] signature] else []
    else [] in
  let text : list CanonicalPart :=
    if hasContent then [TextPart (trimEnd (textContent scanned))] else [] in
  let parts_ := delete_first_signature enableThinking (thought ++ text) in
  (pushModelMessage parts_ (toolCalls scanned) hasContent antigravityMessages,
   toolNameCache scanned).

Definition result_text (c : ResultContent) : jsstring :=
  match c with
  | ResultString s => s
  | ResultArray items =>
      join [] (omap (fun c => match c with
                              | ResultText text => Some (match text with Some t => t | None => [] end)
                              | ResultOther => None
                              end) items)
  | ResultAbsent => []
  end.

Definition handle_result_block (antigravityMessages : list CanonicalMessage)
    (item : ContentBlock) : list CanonicalMessage :=
  match item with
  | ToolResultBlock toolUseId c =>
      let functionName := findFunctionNameById toolUseId antigravityMessages in
      pushFunctionResponse toolUseId functionName (result_text c) antigravityMessages
  | _ => antigravityMessages
  end.

Definition handleClaudeToolResult (message : ClaudeMessage)
    (antigravityMessages : list CanonicalMessage) : list CanonicalMessage :=
  match content message with
  | ContentArray items => fold_left handle_result_block items antigravityMessages
  | _ => antigravityMessages
  end.

Definition is_tool_result (item : ContentBlock) : bool :=
  match item with ToolResultBlock _ _ => true | _ => false end.

(** The loop body of [claudeMessageToAntigravity]. *)
Definition convert_message (enableThinking : bool) (actualModelName sessionId : jsstring)
    (hasTools : bool) (state : list CanonicalMessage * list ToolNameMapping)
    (message : ClaudeMessage) : list CanonicalMessage * list ToolNameMapping :=
  let '(antigravityMessages, cache) := state in
  match role message with
  | RoleUser =>
      match content message with
      | ContentArray items =>
          if existsb is_tool_result items
          then (handleClaudeToolResult message antigravityMessages, cache)
          else (pushUserMessage (extractImagesFromClaudeContent (content message))
                  antigravityMessages, cache)
      | _ => (pushUserMessage (extractImagesFromClaudeContent (content message))
                antigravityMessages, cache)
      end
  | RoleAssistant =>
      handleClaudeAssistantMessage message antigravityMessages enableThinking
        actualModelName sessionId hasTools cache
  | RoleOther => state
  end.

Definition claudeMessageToAntigravity (claudeMessages : list ClaudeMessage)
    (enableThinking : bool) (actualModelName sessionId : jsstring) (hasTools : bool)
    (toolNameCache0 : list ToolNameMapping)
  : list CanonicalMessage * list ToolNameMapping :=
  fold_left (convert_message enableThinking actualModelName sessionId hasTools)
    claudeMessages ([], toolNameCache0).

(** [mergedSystem] of [generateClaudeRequestBody]. *)
Definition mergedSystem (cfg : PromptConfig) (systemPrompt : SystemPrompt) : jsstring :=
  mergeSystemInstruction cfg (systemInstruction cfg) systemPrompt.

End Converter.
End Claude.

(** ** requester.js: the response of the transport subprocess *)

Module Requester.
Import Js.

(** [zlib.gunzip]: the inflated buffer, or the message of the error. *)
Class Zlib := { gunzip : list byte -> list byte + jsstring }.

Definition CRLF : jsstring := [13; 10].
Definition CRLFCRLF : jsstring := [13; 10; 13; 10].

(** A number in a template literal. *)
Definition number_to_string (z : Z) : jsstring :=
  lit (NilZero.string_of_int (Z.to_int z)).

(** The variables of [request] that the stdout handler reads and writes. *)
Record Parser := {
  headersParsed : bool;
  responseHeaders : gmap jsstring jsstring;
  responseStatus : Z;
  responseStatusText : jsstring;
  headerBuffer : jsstring;
  bodyChunks : list (list byte);
  totalLoaded : nat
}.

Definition start : Parser :=
  {| headersParsed := false;
     responseHeaders := ∅;
     responseStatus := 200;
     responseStatusText := lit "OK";
     headerBuffer := [];
     bodyChunks := [];
     totalLoaded := 0 |}.

(** [/HTTP\/[\d.]+ (\d+) (.+)/] tried at the start of [s]: the two groups. *)
Definition match_status_here (s : jsstring) : option (jsstring * jsstring) :=
  match strip (lit "HTTP/") s with
  | None => None
  | Some rest =>
      let '(version, rest1) := span (fun u => is_digit u || (u =? 46)) rest in
      match version, rest1 with
      | _ :: _, 32 :: rest2 =>
          let '(code, rest3) := span is_digit rest2 in
          match code, rest3 with
          | _ :: _, 32 :: rest4 =>
              match fst (span is_dot rest4) with
              | [] => None
              | reason => Some (code, reason)
              end
          | _, _ => None
          end
      | _, _ => None
      end
  end.

(** [line.match(...)]: the leftmost place where the expression matches. *)
Fixpoint match_status (line : jsstring) : option (jsstring * jsstring) :=
  match match_status_here line with
  | Some groups => Some groups
  | None => match line with
            | [] => None
            | _ :: line' => match_status line'
            end
  end.

(** One turn of the loop over the header lines. [responseHeaders] is a
    plain object; the map holds its own properties. Assigning a string to
    the name [__proto__] reaches the setter that the object inherits, which
    ignores a value that is no object: no property is stored. *)
Definition add_header (headers : gmap jsstring jsstring) (line : jsstring)
  : gmap jsstring jsstring :=
  match split line (lit ": ") with
  | key :: valueParts =>
      match key with
      | [] => headers
      | _ =>
          if eqb (toLowerCase key) (lit "__proto__") then headers
          else <[toLowerCase key := join (lit ": ") valueParts]> headers
      end
  | [] => headers
  end.

(** [proc.stdout.on('data', chunk => ...)], without the calls of the
    caller's [validateStatus] and [onDownloadProgress], which read these
    variables and change none. *)
Definition on_data (st : Parser) (chunk : list byte) : Parser :=
  if headersParsed st then
    {| headersParsed := true;
       responseHeaders := responseHeaders st;
       responseStatus := responseStatus st;
       responseStatusText := responseStatusText st;
       headerBuffer := headerBuffer st;
       bodyChunks := bodyChunks st ++ [chunk];
       totalLoaded := totalLoaded st + length chunk |}
  else
    let buffer := headerBuffer st ++ toString chunk in
    match indexOf buffer CRLFCRLF with
    | None =>
        {| headersParsed := false;
           responseHeaders := responseHeaders st;
           responseStatus := responseStatus st;
           responseStatusText := responseStatusText st;
           headerBuffer := buffer;
           bodyChunks := bodyChunks st;
           totalLoaded := totalLoaded st |}
    | Some headerEndIndex =>
        let headerPart := take headerEndIndex buffer in
        let bodyPart := drop (headerEndIndex + 4) buffer in
        let lines := split headerPart CRLF in
        let statusMatch := match_status (hd [] lines) in
        {| headersParsed := true;
           responseHeaders := fold_left add_header (tl lines) (responseHeaders st);
           responseStatus :=
             match statusMatch with Some (code, _) => parseDigits code | None => 200%Z end;
           responseStatusText :=
             match statusMatch with Some (_, reason) => reason | None => lit "OK" end;
           headerBuffer := buffer;
           bodyChunks :=
             match bodyPart with
             | [] => bodyChunks st
             | _ => bodyChunks st ++ [bufferFrom bodyPart]
             end;
           totalLoaded :=
             match bodyPart with
             | [] => totalLoaded st
             | _ => (totalLoaded st + length bodyPart)%nat
             end |}
    end.

(** The chunks of one response, in the order they arrive. *)
Definition feed (chunks : list (list byte)) : Parser := fold_left on_data chunks start.

(** [responseType]: ['json'], or any other value, which is treated as
    text. *)
Inductive ResponseType := text | json.

(** The fields of the request [config] read when the process closes. *)
Record RequestConfig := {
  responseType : ResponseType;
  validateStatus : Z -> bool;
  skipGzipDecompress : bool
}.

(** The default [validateStatus]. *)
Definition status_is_2xx (status : Z) : bool := ((200 <=? status) && (status <? 300))%Z.

Inductive ErrorCode :=
| ECONNABORTED
| ERR_CONFIG
| ERR_NETWORK
| ERR_BAD_RESPONSE
| ERR_BAD_REQUEST.

Section Close.
Context `{JsRuntime} `{Zlib}.

Inductive ResponseData :=
| TextData (body : jsstring)
| JsonData (value : JsValue).

Record Response := {
  data : ResponseData;
  status : Z;
  statusText : jsstring;
  headers : gmap jsstring jsstring
}.

(** [error.errorType]: the text of the default, or the [error_type]
    property of the parsed error stream. *)
Inductive ErrorType :=
| DefaultType (name : jsstring)
| ParsedType (value : option JsValue).

Record RequestError := {
  message : jsstring;
  code : ErrorCode;
  errorType : option ErrorType;
  exitCode : option (option Z);
  response : option Response
}.

(** How the promise of [request] stands when the close handler returns:
    [Pending] when the handler itself threw, which settles nothing. *)
Inductive Settlement :=
| Resolved (r : Response)
| Rejected (e : RequestError)
| Pending (thrown : jsstring).

Record Closed := {
  settlement : Settlement;
  console_warn : list (jsstring * jsstring)
}.

(** [`Process exited with code ${code}`]; the code is [null] when a signal
    ended the process. *)
Definition exit_message (exit : option Z) : jsstring :=
  lit "Process exited with code " ++
    match exit with Some c => number_to_string c | None => lit "null" end.

Definition error_code (exit : option Z) : ErrorCode :=
  match exit with
  | Some 3%Z => ECONNABORTED
  | Some 4%Z => ERR_CONFIG
  | _ => ERR_NETWORK
  end.

(** The branch [code !== 0] of the close handler. *)
Definition close_failed (exit : option Z) (stderrData : jsstring) : Settlement :=
  let reject msg type :=
    Rejected {| message := msg; code := error_code exit; errorType := Some type;
                exitCode := Some exit; response := None |} in
  match stderrData with
  | [] => reject (exit_message exit) (DefaultType (lit "UNKNOWN_ERROR"))
  | _ =>
      match JSON_parse stderrData with
      | None => reject stderrData (DefaultType (lit "UNKNOWN_ERROR"))
      | Some errorInfo =>
          match getProperty errorInfo (lit "error"),
                getProperty errorInfo (lit "error_type") with
          | Some error, Some error_type =>
              reject (match error with Some v => ToString v | None => [] end)
                (ParsedType error_type)
          | _, _ => Pending (lit "TypeError: Cannot read properties of null")
          end
      end
  end.

(** The branch of a process that exited with code 0. Nothing in it throws
    once [gunzip] is guarded and [validateStatus] is a total function, so
    the outer [catch] (ERR_RESPONSE_PROCESSING) is never entered. *)
Definition close_succeeded (cfg : RequestConfig) (st : Parser) : Closed :=
  let bodyBuffer := concat (bodyChunks st) in
  let contentEncoding :=
    match responseHeaders st !! lit "content-encoding" with
    | Some v => v
    | None => []
    end in
  let '(bodyBuffer', warnings) :=
    if negb (skipGzipDecompress cfg) && includes (toLowerCase contentEncoding) (lit "gzip")
    then match gunzip bodyBuffer with
         | inl inflated => (inflated, [])
         | inr gzipErr =>
             (bodyBuffer, [(lit "Gzip decompression failed, using raw data:", gzipErr)])
         end
    else (bodyBuffer, []) in
  let body := toString bodyBuffer' in
  let parsedData :=
    match responseType cfg with
    | json => match JSON_parse body with Some v => JsonData v | None => TextData body end
    | text => TextData body
    end in
  let response_ :=
    {| data := parsedData; status := responseStatus st;
       statusText := responseStatusText st; headers := responseHeaders st |} in
  {| settlement :=
       if validateStatus cfg (responseStatus st) then Resolved response_
       else Rejected
              {| message :=
                   lit "Request failed with status code " ++ number_to_string (responseStatus st);
                 code := if (500 <=? responseStatus st)%Z then ERR_BAD_RESPONSE
                         else ERR_BAD_REQUEST;
                 errorType := None; exitCode := None; response := Some response_ |};
     console_warn := warnings |}.

(** [proc.on('close', async code => ...)] *)
Definition on_close (cfg : RequestConfig) (st : Parser) (stderrData : jsstring)
    (exit : option Z) : Closed :=
  match exit with
  | Some 0%Z => close_succeeded cfg st
  | _ => {| settlement := close_failed exit stderrData; console_warn := [] |}
  end.

End Close.

(** *** Progress events *)

(** [chunk] and [status] of the call of [onDownloadProgress] that the
    stdout handler makes for a chunk, if it makes one; [st] is the state
    before the chunk. *)
Definition progress (st : Parser) (chunk : list byte) : option (jsstring * Z) :=
  if headersParsed st then Some (toString chunk, responseStatus st)
  else
    let buffer := headerBuffer st ++ toString chunk in
    match indexOf buffer CRLFCRLF with
    | None => None
    | Some headerEndIndex =>
        match drop (headerEndIndex + 4) buffer with
        | [] => None
        | bodyPart => Some (bodyPart, responseStatus (on_data st chunk))
        end
    end.

(** The status [validateStatus] is called with when a chunk completes the
    headers. *)
Definition announced (st : Parser) (chunk : list byte) : option Z :=
  if headersParsed st then None
  else if headersParsed (on_data st chunk) then Some (responseStatus (on_data st chunk))
       else None.

(** *** Timeouts of antigravity_fetch and antigravity_fetchStream *)

(** [Math.ceil(ms / 1000)] for an integer [ms] below 2^53 in absolute
    value. The quotient is a double in JavaScript; it is below 2^44, so
    that the division rounds it by at most 2^-10, which is less than the
    1/1000 between a quotient that is no integer and the integers next to
    it: its ceiling is the one of the exact quotient. *)
Definition ceil_seconds (ms : Z) : Z := (- ((- ms) / 1000))%Z.

(** [options.timeout_ms ? Math.ceil(options.timeout_ms / 1000)
    : this.defaults.timeout] *)
Definition fetch_timeout (defaults_timeout : Z) (timeout_ms : option Z) : Z :=
  match timeout_ms with
  | Some ms => if (ms =? 0)%Z then defaults_timeout else ceil_seconds ms
  | None => defaults_timeout
  end.

(** [timeout || this.defaults.timeout] in [request]: the seconds written
    to the payload and, times 1000, the delay asked of the timer that kills
    the subprocess. *)
Definition timeoutSec (defaults_timeout : Z) (timeout : Z) : Z :=
  if (timeout =? 0)%Z then defaults_timeout else timeout.

(** The longest delay of a Node timer, in milliseconds: 2^31 - 1. *)
Definition TIMEOUT_MAX : Z := 2147483647.

(** The delay after which Node runs the callback of
    [setTimeout(callback, delay)], for an integer [delay]: a delay below 1
    or above [TIMEOUT_MAX] is replaced by 1. *)
Definition setTimeout_delay (delay : Z) : Z :=
  if ((1 <=? delay) && (delay <=? TIMEOUT_MAX))%Z then delay else 1%Z.

(** The milliseconds after which the timer of [request] kills the
    subprocess and rejects the call with [Request timeout], unless the
    head of the response has arrived: [setTimeout(..., timeoutSec * 1000)]. *)
Definition kill_timer_delay (timeoutSec_ : Z) : Z := setTimeout_delay (timeoutSec_ * 1000).

(** *** antigravity_fetchStream and StreamResponse *)

Section Stream.
Context `{JsRuntime} `{Zlib}.

(** A call of a callback registered on the stream handle, or the settling
    of the promise that [text()] returned while the stream was open. *)
Inductive Call :=
| OnStart (status : Z) (headers : gmap jsstring jsstring)
| OnData (chunk : jsstring)
| OnEnd
| OnError (error : RequestError)
| TextResolved (text : jsstring)
| TextRejected (error : RequestError).

(** The fields of a [StreamResponse]; a callback field tells whether the
    callback is set, and [calls] records the calls made, oldest first. *)
Record StreamResponse := {
  stream_status : option Z;
  stream_headers : gmap jsstring jsstring;
  chunks : list jsstring;
  _onStart : bool;
  _onData : bool;
  _onEnd : bool;
  _onError : bool;
  _ended : bool;
  _error : option RequestError;
  _started : bool;
  _textPromise : bool;
  _finalText : option jsstring;
  calls : list Call
}.

(** [new StreamResponse()] followed by the registrations the caller makes
    before the first chunk arrives. *)
Definition new_StreamResponse (onStart onData onEnd onError : bool) : StreamResponse :=
  {| stream_status := None; stream_headers := ∅; chunks := [];
     _onStart := onStart; _onData := onData; _onEnd := onEnd; _onError := onError;
     _ended := false; _error := None; _started := false; _textPromise := false;
     _finalText := None; calls := [] |}.

(** The [validateStatus] of the stream configuration; it returns [true]. *)
Definition stream_validateStatus (h : StreamResponse) (status_ : Z) : StreamResponse :=
  {| stream_status := Some status_; stream_headers := stream_headers h; chunks := chunks h;
     _onStart := _onStart h; _onData := _onData h; _onEnd := _onEnd h;
     _onError := _onError h; _ended := _ended h; _error := _error h;
     _started := _started h; _textPromise := _textPromise h;
     _finalText := _finalText h; calls := calls h |}.

(** The [onDownloadProgress] of the stream configuration. *)
Definition stream_onDownloadProgress (h : StreamResponse) (event : jsstring * Z)
  : StreamResponse :=
  let '(chunk, status_) := event in
  {| stream_status := if _started h then stream_status h else Some status_;
     stream_headers := stream_headers h;
     chunks := chunks h ++ [chunk];
     _onStart := _onStart h; _onData := _onData h; _onEnd := _onEnd h;
     _onError := _onError h; _ended := _ended h; _error := _error h;
     _started := true; _textPromise := _textPromise h;
     _finalText := _finalText h;
     calls :=
       calls h
       ++ (if negb (_started h) && _onStart h then [OnStart status_ (stream_headers h)]
           else [])
       ++ (if _onData h then [OnData chunk] else []) |}.

(** The [then] callback. *)
Definition stream_resolved (h : StreamResponse) (response_ : Response) : StreamResponse :=
  let finalText := join [] (chunks h) in
  {| stream_status := stream_status h; stream_headers := headers response_; chunks := [];
     _onStart := _onStart h; _onData := _onData h; _onEnd := _onEnd h;
     _onError := _onError h; _ended := true; _error := _error h;
     _started := _started h; _textPromise := _textPromise h;
     _finalText := Some finalText;
     calls :=
       calls h
       ++ (if _textPromise h then [TextResolved finalText] else [])
       ++ (if _onEnd h then [OnEnd] else []) |}.

(** The [catch] callback. *)
Definition stream_rejected (h : StreamResponse) (error : RequestError) : StreamResponse :=
  {| stream_status := stream_status h; stream_headers := stream_headers h; chunks := [];
     _onStart := _onStart h; _onData := _onData h; _onEnd := _onEnd h;
     _onError := _onError h; _ended := true; _error := Some error;
     _started := _started h; _textPromise := _textPromise h;
     _finalText := _finalText h;
     calls :=
       calls h
       ++ (if _textPromise h then [TextRejected error] else [])
       ++ (if _onError h then [OnError error] else []) |}.

(** The outcome of a call of [text()]: a value, an exception, or a promise
    left open. *)
Inductive TextResult :=
| TextReturns (text : jsstring)
| TextThrows (error : RequestError)
| TextWaits.

Definition stream_text (h : StreamResponse) : TextResult * StreamResponse :=
  if _ended h then
    (match _error h with
     | Some error => TextThrows error
     | None => TextReturns (match _finalText h with Some t => t | None => [] end)
     end, h)
  else
    (TextWaits,
     {| stream_status := stream_status h; stream_headers := stream_headers h;
        chunks := chunks h;
        _onStart := _onStart h; _onData := _onData h; _onEnd := _onEnd h;
        _onError := _onError h; _ended := _ended h; _error := _error h;
        _started := _started h; _textPromise := true;
        _finalText := _finalText h; calls := calls h |}).

(** The configuration [antigravity_fetchStream] passes to [request], as
    far as the close handler reads it. *)
Definition stream_config : RequestConfig :=
  {| responseType := text; validateStatus := fun _ => true; skipGzipDecompress := true |}.

(** One chunk of the subprocess output during a streamed call: the stdout
    handler with the two callbacks of the stream configuration. *)
Definition stream_data (state : Parser * StreamResponse) (chunk : list byte)
  : Parser * StreamResponse :=
  let '(st, h) := state in
  let h1 := match announced st chunk with
            | Some status_ => stream_validateStatus h status_
            | None => h
            end in
  let h2 := match progress st chunk with
            | Some event => stream_onDownloadProgress h1 event
            | None => h1
            end in
  (on_data st chunk, h2).

(** The close handler of a streamed call and the callback that the
    settled promise runs; a handler that throws leaves the handle as it
    is. *)
Definition stream_close (state : Parser * StreamResponse) (stderrData : jsstring)
    (exit : option Z) : StreamResponse :=
  let '(st, h) := state in
  let h1 := match exit with
            | Some 0%Z => stream_validateStatus h (responseStatus st)
            | _ => h
            end in
  match settlement (on_close stream_config st stderrData exit) with
  | Resolved response_ => stream_resolved h1 response_
  | Rejected error => stream_rejected h1 error
  | Pending _ => h1
  end.

(** A streamed call whose subprocess writes [output] chunk by chunk and
    then exits. The timer, the abort signal and a subprocess that cannot
    be spawned settle the promise on other paths, which are no part of such
    a run. *)
Definition antigravity_fetchStream (h : StreamResponse) (output : list (list byte))
    (stderrData : jsstring) (exit : option Z) : StreamResponse :=
  stream_close (fold_left stream_data output (start, h)) stderrData exit.

End Stream.
End Requester.

(** ** The API client: handleApiError *)

Module ApiClient.
Import Js.

(** [upstreamError.js], [tokenManager] and the token type, which the client
    imports: the status is a number or [undefined]; [body_text] is the
    conversion a template literal applies to the body. *)
Class Upstream := {
  RequestFailure : Type;
  ErrorBody : Type;
  Token : Type;
  DumpId : Type;
  getUpstreamStatus : RequestFailure -> option Z;
  readUpstreamErrorBody : RequestFailure -> ErrorBody;
  isCallerDoesNotHavePermission : ErrorBody -> bool;
  body_is_nullish : ErrorBody -> bool;
  body_text : ErrorBody -> jsstring
}.

Section Client.
Context `{Upstream}.

(** The error [createApiError(message, status, errorBody)] builds, by the
    arguments of the call. *)
Record ApiError := createApiError {
  message : jsstring;
  status : option Z;
  body : ErrorBody
}.

(** What the calls of [tokenManager.disableCurrentToken] and
    [dumpFinalRawResponse] leave behind, oldest first. *)
Record Effects := {
  disabledTokens : list Token;
  rawResponseDumps : list (DumpId * jsstring)
}.

Definition status_text (status : option Z) : jsstring :=
  match status with
  | Some z => Requester.number_to_string z
  | None => lit "undefined"
  end.

Definition CONTEXT_TOO_LARGE : jsstring := lit "超出模型最大上下文。错误详情: ".
Definition ACCOUNT_DISABLED : jsstring := lit "该账号没有使用权限，已自动禁用。错误详情: ".

(** Every path ends in [throw]: the result is the error thrown and the
    effects performed before it. The calls of the collaborators are taken
    to return; [dumpFinalRawResponse] is called only with a [dumpId]. *)
Definition handleApiError (error : RequestFailure) (token : Token)
    (dumpId : option DumpId) (effects : Effects) : ApiError * Effects :=
  let status_ := getUpstreamStatus error in
  let errorBody := readUpstreamErrorBody error in
  let dumped :=
    match dumpId with
    | Some id =>
        {| disabledTokens := disabledTokens effects;
           rawResponseDumps :=
             rawResponseDumps effects ++
               [(id, if body_is_nullish errorBody then [] else body_text errorBody)] |}
    | None => effects
    end in
  match status_ with
  | Some 403%Z =>
      if isCallerDoesNotHavePermission errorBody then
        (createApiError (CONTEXT_TOO_LARGE ++ body_text errorBody) status_ errorBody, dumped)
      else
        (createApiError (ACCOUNT_DISABLED ++ body_text errorBody) status_ errorBody,
         {| disabledTokens := disabledTokens dumped ++ [token];
            rawResponseDumps := rawResponseDumps dumped |})
  | _ =>
      (createApiError
         (lit "API请求失败 (" ++ status_text status_ ++ lit "): " ++ body_text errorBody)
         status_ errorBody,
       dumped)
  end.

(** *** The model list and its cache *)

Definition DEFAULT_MODELS : list jsstring :=
  [ lit "claude-opus-4-5"; lit "claude-opus-4-5-thinking"; lit "claude-sonnet-4-5-thinking";
    lit "claude-sonnet-4-5"; lit "gemini-3-pro-high"; lit "gemini-2.5-flash-lite";
    lit "gemini-3-pro-image"; lit "gemini-3-pro-image-4K"; lit "gemini-3-pro-image-2K";
    lit "gemini-2.5-flash-thinking"; lit "gemini-2.5-pro"; lit "gemini-2.5-flash";
    lit "gemini-3-pro-low"; lit "chat_20706"; lit "rev19-uic3-1p";
    lit "gpt-oss-120b-medium"; lit "chat_23310" ].

(** An entry of the list: [{ id, object: 'model', created, owned_by:
    'google' }]. *)
Record Model := {
  id : jsstring;
  object_ : jsstring;
  created : Z;
  owned_by : jsstring
}.

Definition model_entry (created_ : Z) (id_ : jsstring) : Model :=
  {| id := id_; object_ := lit "model"; created := created_; owned_by := lit "google" |}.

(** [modelListCache] and [modelListCacheTime]. *)
Record ModelCache := {
  modelListCache : option (list Model);
  modelListCacheTime : Z
}.

Definition no_cache : ModelCache := {| modelListCache := None; modelListCacheTime := 0 |}.

(** [now] is a reading of [Date.now()], in milliseconds. *)
Definition getDefaultModelList (now : Z) : list Model :=
  map (model_entry (now / 1000)) DEFAULT_MODELS.

(** [now] and [later] are the two readings of the clock, [ttl] is
    [getModelCacheTTL()], [token] what [tokenManager.getToken()] resolves
    to, and [fetched] the outcome of [fetchRawModels]: the error it
    rejects with, or the keys of [data.models || {}] for a truthy [data].
    The result is the [data] field of the list returned. *)
Definition getAvailableModels (now later ttl : Z) (token : option Token)
    (fetched : ApiError + option (list jsstring)) (cache : ModelCache)
  : (ApiError + list Model) * ModelCache :=
  let refreshed :=
    match token with
    | None => (inr (getDefaultModelList later), cache)
    | Some _ =>
        match fetched with
        | inl error => (inl error, cache)
        | inr None => (inr (getDefaultModelList later), cache)
        | inr (Some keys) =>
            let created_ := (later / 1000)%Z in
            let modelList :=
              map (model_entry created_) keys
              ++ map (model_entry created_)
                   (filter (fun defaultModel => negb (existsb (eqb defaultModel) keys))
                      DEFAULT_MODELS) in
            (inr modelList, {| modelListCache := Some modelList; modelListCacheTime := now |})
        end
    end in
  match modelListCache cache with
  | Some cached =>
      if (now - modelListCacheTime cache <? ttl)%Z then (inr cached, cache) else refreshed
  | None => refreshed
  end.

Definition clearModelListCache (cache : ModelCache) : ModelCache := no_cache.

(** The callback [registerMemoryCleanup] hands to the memory manager. *)
Definition cleanup (now ttl : Z) (cache : ModelCache) : ModelCache :=
  match modelListCache cache with
  | Some _ => if (ttl <? now - modelListCacheTime cache)%Z then no_cache else cache
  | None => cache
  end.

End Client.

(** *** generateAssistantResponseNoStream: the signature written to the
    cache *)

Section NoStream.
Context {ToolCall : Type} (thoughtSignature : ToolCall -> option jsstring).
Context (shouldCacheSignature : bool -> bool -> bool) (isImageModel : jsstring -> bool).

(** What [parseGeminiCandidateParts] returns. *)
Record Parsed := {
  content : option jsstring;
  reasoningContent : option jsstring;
  reasoningSignature : option jsstring;
  toolCalls : list ToolCall;
  imageUrls : list jsstring
}.

(** The arguments of a call of [setSignature]. *)
Record SetSignature := {
  set_sessionId : jsstring;
  set_model : jsstring;
  set_signature : jsstring;
  set_content : jsstring;
  set_hasTools : bool;
  set_isImageModel : bool
}.

(** The loop from the last tool call to the first. *)
Fixpoint last_signed (reversed : list ToolCall) : option jsstring :=
  match reversed with
  | [] => None
  | toolCall :: earlier =>
      if truthy (thoughtSignature toolCall) then thoughtSignature toolCall
      else last_signed earlier
  end.

Definition finalSignature (parsed : Parsed) : option jsstring :=
  let hasTools := negb (Nat.eqb (length (toolCalls parsed)) 0) in
  if hasTools then
    match last_signed (rev (toolCalls parsed)) with
    | Some sig => Some sig
    | None => reasoningSignature parsed
    end
  else reasoningSignature parsed.

(** The call of [setSignature] that [generateAssistantResponseNoStream]
    makes, if it makes one. *)
Definition signature_written (sessionId model : option jsstring) (parsed : Parsed)
  : option SetSignature :=
  let hasTools := negb (Nat.eqb (length (toolCalls parsed)) 0) in
  match sessionId, model with
  | Some (s :: sessionId'), Some (m :: model') =>
      let isImage := isImageModel (m :: model') in
      if shouldCacheSignature hasTools isImage then
        match finalSignature parsed with
        | Some (u :: sig) =>
            Some {| set_sessionId := s :: sessionId'; set_model := m :: model';
                    set_signature := u :: sig;
                    set_content :=
                      match reasoningContent parsed with
                      | Some (c :: t) => c :: t
                      | _ => [32]
                      end;
                    set_hasTools := hasTools; set_isImageModel := isImage |}
        | _ => None
        end
      else None
  | _, _ => None
  end.

End NoStream.
End ApiClient.

(** ** config/config.js: the proxy *)

Module ConfigFile.
Import Js.

(** [process.env]: a variable that is not set reads as [undefined]. The
    result is the proxy and the lines written with [log.info]. *)
Definition getProxyConfig (env : gmap jsstring jsstring)
  : option jsstring * list jsstring :=
  if truthy (env !! lit "PROXY") then (env !! lit "PROXY", [])
  else
    let systemProxy :=
      js_or (js_or (js_or (js_or (js_or (env !! lit "HTTPS_PROXY") (env !! lit "https_proxy"))
                             (env !! lit "HTTP_PROXY"))
                      (env !! lit "http_proxy"))
               (env !! lit "ALL_PROXY"))
        (env !! lit "all_proxy") in
    match systemProxy with
    | Some (u :: t) => (Some (u :: t), [lit "使用系统代理: " ++ u :: t])
    | _ => (None, [])
    end.

End ConfigFile.

(** ** Vocabulary of the properties *)

Module Props.
Import Js Common.

Section Parts.
Context {Raw Output : Type}.

(** All parts of a message list, in order. *)
Definition all_parts (msgs : list (Message Raw Output)) : list (Part Raw Output) :=
  concat (map parts msgs).

(** The signature fields of the thought parts of a list, in order. *)
Definition thought_signatures (ps : list (Part Raw Output)) : list (option jsstring) :=
  omap (fun p => match p with ThoughtPart _ s => Some s | _ => None end) ps.

(** The signature fields of the function-call parts of a list, in order. *)
Definition call_signatures (ps : list (Part Raw Output)) : list (option jsstring) :=
  omap (fun p => match p with FunctionCallPart _ _ _ s => Some s | _ => None end) ps.

(** The function-call parts of a list without their signatures, in order. *)
Definition calls_of (ps : list (Part Raw Output))
  : list (jsstring * jsstring * FunctionArgs Raw) :=
  omap (fun p => match p with
                 | FunctionCallPart i n a _ => Some (i, n, a)
                 | _ => None
                 end) ps.

Definition is_call (p : Part Raw Output) : bool :=
  match p with FunctionCallPart _ _ _ _ => true | _ => false end.

Definition last_is_model (msgs : list (Message Raw Output)) : bool :=
  match last msgs with
  | Some lastMessage => is_model (role lastMessage)
  | None => false
  end.

(** The last message is a user message that holds a function response:
    the condition of the merge branch of [pushFunctionResponse]. *)
Definition collects_results (msgs : list (Message Raw Output)) : bool :=
  match last msgs with
  | Some lastMessage =>
      is_user (role lastMessage) && existsb is_functionResponse (parts lastMessage)
  | None => false
  end.

Definition is_inline_data (p : Part Raw Output) : bool :=
  match p with InlineDataPart _ _ => true | _ => false end.

(** The two shapes of the parts of a user message: a text part whose text
    is not empty, followed by images only; or function responses only, at
    least one. *)
Definition user_parts (ps : list (Part Raw Output)) : bool :=
  match ps with
  | TextPart (_ :: _) :: images => forallb is_inline_data images
  | FunctionResponsePart _ _ _ :: results => forallb is_functionResponse results
  | _ => false
  end.

(** Every user message of a conversation has one of the two shapes. *)
Definition user_messages_well_formed (msgs : list (Message Raw Output)) : bool :=
  forallb (fun m => is_model (role m) || user_parts (parts m)) msgs.

(** The condition of the merge branch of [pushModelMessage]. *)
Definition merge_taken (msgs : list (Message Raw Output))
    (toolCalls : list (Part Raw Output)) (hasContent : bool) : bool :=
  match last msgs with
  | Some lastMessage =>
      is_model (role lastMessage) && negb (Nat.eqb (length toolCalls) 0) && negb hasContent
  | None => false
  end.

End Parts.

(** Precedence as the specification words it: the first candidate that is
    a non-empty signature, none when there is no such candidate. *)
Fixpoint first_available (candidates : list (option jsstring)) : option jsstring :=
  match candidates with
  | [] => None
  | c :: rest => if truthy c then c else first_available rest
  end.

(** A source of signatures that a policy switch may close. *)
Definition allowed (policy : bool) (v : option jsstring) : option jsstring :=
  if policy then v else None.

(** Precedence by rank: the signature chosen is one of the first rank that
    has a signature to offer, and there is none when no rank has one. *)
Fixpoint chosen_by_rank (ranks : list (list (option jsstring))) (chosen : option jsstring)
  : Prop :=
  match ranks with
  | [] => truthy chosen = false
  | rank :: lower =>
      if existsb truthy rank then truthy chosen = true /\ In chosen rank
      else chosen_by_rank lower chosen
  end.

Section Candidates.
Context `{Collaborators}.

(** Tool signatures are read only if tools are present or the
    cache-only-tool-signatures switch is off. *)
Definition tool_gate (hasTools : bool) : bool :=
  negb (cacheOnlyToolSignatures config) || hasTools.

(** Cached, then fallback reasoning signature. *)
Definition reasoning_candidates (sessionId actualModelName : jsstring)
  : list (option jsstring) :=
  [ allowed (useCachedSignature config) (getReasoningSignature sessionId actualModelName);
    allowed (useFallbackSignature config) (getThoughtSignatureForModel actualModelName) ].

(** Cached, then fallback tool signature. *)
Definition tool_candidates (sessionId actualModelName : jsstring) (hasTools : bool)
  : list (option jsstring) :=
  [ allowed (useCachedSignature config && tool_gate hasTools)
      (getToolSignature sessionId actualModelName);
    allowed (useFallbackSignature config && tool_gate hasTools)
      (getToolSignatureForModel actualModelName) ].

End Candidates.

Section Turns.
Context `{JsRuntime} `{Collaborators}.

(** An assistant message of the chat protocol that [pushModelMessage]
    merges into the last message: that one is a model message, and this
    one has tool calls and no text but white space. *)
Definition openai_merges (before : list OpenAI.CanonicalMessage)
    (message : OpenAI.ChatMessage) : bool :=
  last_is_model before
  && negb (Nat.eqb (length (OpenAI.tool_calls message)) 0)
  && match OpenAI.hasContent_of (OpenAI.content message) with
     | Normal hasContent => negb hasContent
     | Throw _ => false
     end.

(** The signature explicit on the message, before those of the cache and
    the fallback table: the candidates of a thought part. *)
Definition thought_candidates (explicit : option jsstring)
    (sessionId actualModelName : jsstring) (hasTools : bool) : list (option jsstring) :=
  explicit :: reasoning_candidates sessionId actualModelName
    ++ tool_candidates sessionId actualModelName hasTools.

(** The candidates of the function-call part of a chat-protocol tool call. *)
Definition openai_call_candidates (message : OpenAI.ChatMessage)
    (toolCall : OpenAI.ToolCall) (sessionId actualModelName : jsstring) (hasTools : bool)
  : list (option jsstring) :=
  OpenAI.tc_thoughtSignature toolCall :: tool_candidates sessionId actualModelName hasTools
    ++ OpenAI.thoughtSignature message :: reasoning_candidates sessionId actualModelName.

(** The candidates of the function-call part of a [tool_use] block. *)
Definition claude_call_candidates (signature : option jsstring)
    (sessionId actualModelName : jsstring) (hasTools : bool) : list (option jsstring) :=
  signature :: tool_candidates sessionId actualModelName hasTools
    ++ reasoning_candidates sessionId actualModelName.

(** The text of the [text] blocks of a message content, concatenated. *)
Definition claude_text (content : Claude.Content) : jsstring :=
  match content with
  | Claude.ContentString s => s
  | Claude.ContentArray items =>
      concat (omap (fun item =>
                      match item with
                      | Claude.TextBlock t =>
                          Some (match js_or t (Some []) with Some s => s | None => [] end)
                      | _ => None
                      end) items)
  | Claude.ContentAbsent => []
  end.

(** The signatures of the [thinking] blocks of a message content. *)
Definition claude_thinking_signatures (content : Claude.Content) : list (option jsstring) :=
  match content with
  | Claude.ContentArray items =>
      omap (fun item => match item with
                        | Claude.ThinkingBlock s => Some s
                        | _ => None
                        end) items
  | _ => []
  end.

(** The [tool_use] blocks of a message content: id, name, input, signature. *)
Definition claude_tool_uses (content : Claude.Content)
  : list (jsstring * jsstring * option JsValue * option jsstring) :=
  match content with
  | Claude.ContentArray items =>
      omap (fun item => match item with
                        | Claude.ToolUseBlock i n input s => Some (i, n, input, s)
                        | _ => None
                        end) items
  | _ => []
  end.

(** [JSON.stringify(item.input || {})] as the arguments of a call. *)
Definition claude_args (input : option JsValue) : FunctionArgs JsValue :=
  QueryArgs (JSON_stringify (match input with
                             | Some v => if ToBoolean v then v else emptyObject
                             | None => emptyObject
                             end)).

Definition claude_merges (before : list Claude.CanonicalMessage)
    (message : Claude.ClaudeMessage) : bool :=
  last_is_model before
  && negb (Nat.eqb (length (claude_tool_uses (Claude.content message))) 0)
  && negb (Claude.has_text (claude_text (Claude.content message))).

(** The thought-part property as the specification states it, for the
    chat protocol: with thinking enabled, every assistant message with a
    resolvable signature adds exactly one thought part, which carries it;
    otherwise none. *)
Definition thought_part_for_every_turn : Prop :=
  forall message before enableThinking actualModelName sessionId hasTools cache after cache',
    OpenAI.handleAssistantMessage message before enableThinking actualModelName sessionId
      hasTools cache = Normal (after, cache') ->
    exists emitted,
      all_parts after = all_parts before ++ emitted /\
      thought_signatures emitted =
        if enableThinking
        then match first_available
                     (thought_candidates (OpenAI.thoughtSignature message) sessionId
                        actualModelName hasTools) with
             | Some s => [Some s]
             | None => []
             end
        else [].

(** The precedence of signatures as the specification states it, for the
    chat protocol with thinking enabled: a signature explicit on the message
    or on the tool call, before the cached reasoning or tool signature,
    before the fallback signature of the model; the cached and the fallback
    signatures under their switches. *)
Definition precedence_as_specified : Prop :=
  forall message before actualModelName sessionId hasTools cache after cache',
    OpenAI.handleAssistantMessage message before true actualModelName sessionId hasTools cache
    = Normal (after, cache') ->
    let cached :=
      [ allowed (useCachedSignature config) (getReasoningSignature sessionId actualModelName);
        allowed (useCachedSignature config && tool_gate hasTools)
          (getToolSignature sessionId actualModelName) ] in
    let fallback :=
      [ allowed (useFallbackSignature config) (getThoughtSignatureForModel actualModelName);
        allowed (useFallbackSignature config && tool_gate hasTools)
          (getToolSignatureForModel actualModelName) ] in
    exists emitted,
      all_parts after = all_parts before ++ emitted /\
      Forall (chosen_by_rank [[OpenAI.thoughtSignature message]; cached; fallback])
        (thought_signatures emitted) /\
      Forall2 (fun toolCall chosen =>
                 chosen_by_rank
                   [[OpenAI.tc_thoughtSignature toolCall; OpenAI.thoughtSignature message];
                    cached; fallback] chosen)
        (OpenAI.tool_calls message) (call_signatures emitted).

(** The calls of [setToolNameMapping] that a list of tool names leads to
    for a model, in order: one for each name that sanitizing changes, and
    none when the name of the model is empty. *)
Definition registrations (actualModelName : jsstring) (names : list jsstring)
  : list ToolNameMapping :=
  omap (fun originalName =>
          if truthy (Some actualModelName)
             && negb (eqb (sanitizeToolName originalName) originalName)
          then Some {| mapping_model := actualModelName;
                       mapping_safeName := sanitizeToolName originalName;
                       mapping_originalName := originalName |}
          else None) names.

(** The names of the tool calls of the assistant messages of a
    conversation, in order. *)
Definition openai_tool_names (messages : list OpenAI.ChatMessage) : list jsstring :=
  concat (map (fun message =>
                 match OpenAI.role message with
                 | OpenAI.RoleAssistant =>
                     map OpenAI.tc_function_name (OpenAI.tool_calls message)
                 | _ => []
                 end) messages).

Definition claude_tool_names (messages : list Claude.ClaudeMessage) : list jsstring :=
  concat (map (fun message =>
                 match Claude.role message with
                 | Claude.RoleAssistant =>
                     map (fun use : jsstring * jsstring * option JsValue * option jsstring =>
                            snd (fst (fst use)))
                       (claude_tool_uses (Claude.content message))
                 | _ => []
                 end) messages).

End Turns.

Section Transport.
Context `{JsRuntime} `{Requester.Zlib}.

(** The response a settlement carries, if any. *)
Definition response_of (s : Requester.Settlement) : option Requester.Response :=
  match s with
  | Requester.Resolved r => Some r
  | Requester.Rejected e => Requester.response e
  | Requester.Pending _ => None
  end.

(** The exit-code property as the specification states it: the message is
    the [error] property of the parsed error stream, or the raw text of a
    stream that does not parse. *)
Definition exit_error_as_specified : Prop :=
  forall (exit : option Z) (stderrData : jsstring),
    exit <> Some 0%Z ->
    exists e,
      Requester.close_failed exit stderrData = Requester.Rejected e /\
      Requester.code e = Requester.error_code exit /\
      match JSON_parse stderrData with
      | Some errorInfo =>
          exists error, getProperty errorInfo (lit "error") = Some (Some error) /\
                        Requester.message e = ToString error
      | None => Requester.message e = stderrData
      end.

(** The gzip fallback as the specification states it: the bytes of the
    returned body are the bytes received. *)
Definition gzip_fallback_returns_input_bytes : Prop :=
  forall (cfg : Requester.RequestConfig) (st : Requester.Parser) (encoding gzipErr : jsstring),
    Requester.skipGzipDecompress cfg = false ->
    Requester.responseType cfg = Requester.text ->
    Requester.responseHeaders st !! lit "content-encoding" = Some encoding ->
    includes (toLowerCase encoding) (lit "gzip") = true ->
    Requester.gunzip (concat (Requester.bodyChunks st)) = inr gzipErr ->
    exists r body,
      response_of (Requester.settlement (Requester.on_close cfg st [] (Some 0%Z))) = Some r /\
      Requester.data r = Requester.TextData body /\
      bufferFrom body = concat (Requester.bodyChunks st).

(** The text of the chunks of a head as the stdout handler reads it, each
    chunk decoded by itself. *)
Definition head_text (chunks : list (list byte)) : jsstring := concat (map toString chunks).

(** The chunks end with the head of the response: their text ends with the
    first blank line in it, so that no byte of the body comes with them. *)
Definition ends_with_head (chunks : list (list byte)) : bool :=
  match indexOf (head_text chunks) Requester.CRLFCRLF with
  | Some headerEndIndex => Nat.eqb (headerEndIndex + 4) (length (head_text chunks))
  | None => false
  end.

(** The calls a stream handle makes for a run of progress events: the
    start callback once, for the first event the handle sees, then the data
    callback for every event. *)
Definition stream_calls (h : Requester.StreamResponse) (events : list (jsstring * Z))
  : list Requester.Call :=
  (if Requester._started h || negb (Requester._onStart h) then []
   else match events with
        | (_, status) :: _ => [Requester.OnStart status (Requester.stream_headers h)]
        | [] => []
        end)
  ++ (if Requester._onData h then map (fun event => Requester.OnData (fst event)) events
      else []).

(** A handle on which the four callbacks are registered. *)
Definition listening : Requester.StreamResponse :=
  Requester.new_StreamResponse true true true true.

End Transport.

(** The model list in the cache is served at the time [now]. *)
Definition cache_is_fresh (now ttl : Z) (cache : ApiClient.ModelCache) : bool :=
  match ApiClient.modelListCache cache with
  | Some _ => (now - ApiClient.modelListCacheTime cache <? ttl)%Z
  | None => false
  end.

(** The environment variables that name a proxy, in the order of their
    precedence. *)
Definition proxy_variables : list jsstring :=
  [ lit "PROXY"; lit "HTTPS_PROXY"; lit "https_proxy"; lit "HTTP_PROXY"; lit "http_proxy";
    lit "ALL_PROXY"; lit "all_proxy" ].

(** A text that does not start with white space. *)
Definition starts_clean (s : jsstring) : Prop :=
  match s with
  | u :: _ => is_white_space u = false
  | [] => True
  end.

(** What a caller sees of a parsed response: status, status text, headers
    and the bytes of the body. *)
Definition parsed (st : Requester.Parser)
  : Z * jsstring * gmap jsstring jsstring * list byte :=
  (Requester.responseStatus st, Requester.responseStatusText st,
   Requester.responseHeaders st, concat (Requester.bodyChunks st)).

Definition is_ascii (b : byte) : bool := Byte.to_N b <? 128.

(** The progress events of the chunks of a response, in order, from the
    parser state [st] on: the text and the status of each. *)
Fixpoint progress_events (st : Requester.Parser) (output : list (list byte))
  : list (jsstring * Z) :=
  match output with
  | [] => []
  | chunk :: rest =>
      match Requester.progress st chunk with
      | Some event => [event]
      | None => []
      end ++ progress_events (Requester.on_data st chunk) rest
  end.

End Props.

(** ** Concrete collaborators for the examples *)

Module Demo.
Import Js Common.

(** A runtime whose values are [null], strings and flat objects of
    strings, and whose [JSON.parse] knows the documents of the examples. *)
Inductive Value :=
| VNull
| VString (s : jsstring)
| VObject (fields : list (jsstring * jsstring)).

Definition error_document : jsstring :=
  [123] ++ [34] ++ lit "error" ++ [34; 58; 34] ++ lit "dial tcp: i/o timeout" ++ [34; 44; 34]
  ++ lit "error_type" ++ [34; 58; 34] ++ lit "TIMEOUT" ++ [34; 125].

Definition parse (s : jsstring) : option Value :=
  if eqb s error_document then
    Some (VObject [(lit "error", lit "dial tcp: i/o timeout"); (lit "error_type", lit "TIMEOUT")])
  else if eqb s (lit "null") then Some VNull
  else if eqb s (lit "{}") then Some (VObject [])
  else None.

Definition property (v : Value) (k : jsstring) : option (option Value) :=
  match v with
  | VNull => None
  | VString _ => Some None
  | VObject fields =>
      Some (VString <$> (snd <$> find (fun kv => eqb (fst kv) k) fields))
  end.

Definition to_string (v : Value) : jsstring :=
  match v with
  | VNull => lit "null"
  | VString s => s
  | VObject _ => lit "[object Object]"
  end.

Definition stringify (v : Value) : jsstring :=
  match v with
  | VObject [] => lit "{}"
  | VNull => lit "null"
  | _ => lit "{...}"
  end.

Definition runtime : JsRuntime :=
  {| JsValue := Value;
     JSON_stringify := stringify;
     JSON_parse := parse;
     ToBoolean := fun v => match v with VNull | VString [] => false | _ => true end;
     ToString := to_string;
     getProperty := property;
     emptyObject := VObject [] |}.

(** Collaborators with the given switches, cache entries and fallback
    signatures, the same for every session and model; tool names keep
    their word characters and hyphens. *)
Definition collaborators (cfg : Config)
    (cachedReasoning cachedTool fallbackReasoning fallbackTool : option jsstring)
  : Collaborators :=
  {| config := cfg;
     getReasoningSignature := fun _ _ => cachedReasoning;
     getToolSignature := fun _ _ => cachedTool;
     getThoughtSignatureForModel := fun _ => fallbackReasoning;
     getToolSignatureForModel := fun _ => fallbackTool;
     sanitizeToolName :=
       map (fun u => if is_word u || (u =? 45) then u else 95) |}.

Definition all_on : Config :=
  {| useCachedSignature := true; useFallbackSignature := true;
     cacheOnlyToolSignatures := false |}.

Definition all_off : Config :=
  {| useCachedSignature := false; useFallbackSignature := false;
     cacheOnlyToolSignatures := false |}.

(** A [gunzip] for buffers that are no complete gzip stream. *)
Definition zlib : Requester.Zlib :=
  {| Requester.gunzip := fun buffer =>
       inr (match buffer with
            | x1f :: x8b :: _ => lit "unexpected end of file"
            | _ => lit "incorrect header check"
            end) |}.

(** An upstream failure is a status and a body text; the marker of a
    caller without permission is looked up in the body. *)
Definition upstream : ApiClient.Upstream :=
  {| ApiClient.RequestFailure := option Z * jsstring;
     ApiClient.ErrorBody := jsstring;
     ApiClient.Token := nat;
     ApiClient.DumpId := nat;
     ApiClient.getUpstreamStatus := fst;
     ApiClient.readUpstreamErrorBody := snd;
     ApiClient.isCallerDoesNotHavePermission := fun b =>
       includes b (lit "The caller does not have permission");
     ApiClient.body_is_nullish := fun _ => false;
     ApiClient.body_text := fun b => b |}.

(** Two assistant turns of the chat protocol that carry one tool call
    each and no text; the second has a signature of its own. *)
Definition call_A : @OpenAI.ToolCall runtime :=
  {| OpenAI.tc_id := lit "A"; OpenAI.tc_function_name := lit "get weather";
     OpenAI.tc_function_arguments := inl (lit "{}"); OpenAI.tc_thoughtSignature := None |}.

Definition call_B : @OpenAI.ToolCall runtime :=
  {| OpenAI.tc_id := lit "B"; OpenAI.tc_function_name := lit "lookup";
     OpenAI.tc_function_arguments := inl (lit "{}");
     OpenAI.tc_thoughtSignature := Some (lit "X") |}.

Definition turn_A : @OpenAI.ChatMessage runtime :=
  {| OpenAI.role := OpenAI.RoleAssistant; OpenAI.content := OpenAI.ContentString [];
     OpenAI.tool_calls := [call_A]; OpenAI.reasoning_content := None;
     OpenAI.thoughtSignature := None; OpenAI.tool_call_id := [] |}.

Definition turn_B : @OpenAI.ChatMessage runtime :=
  {| OpenAI.role := OpenAI.RoleAssistant; OpenAI.content := OpenAI.ContentAbsent;
     OpenAI.tool_calls := [call_B]; OpenAI.reasoning_content := None;
     OpenAI.thoughtSignature := Some (lit "M"); OpenAI.tool_call_id := [] |}.

(** An assistant turn with a signature of its own and the unsigned tool
    call A. *)
Definition turn_signed : @OpenAI.ChatMessage runtime :=
  {| OpenAI.role := OpenAI.RoleAssistant; OpenAI.content := OpenAI.ContentAbsent;
     OpenAI.tool_calls := [call_A]; OpenAI.reasoning_content := None;
     OpenAI.thoughtSignature := Some (lit "M"); OpenAI.tool_call_id := [] |}.

(** An assistant turn with text and no tool call, and the result of tool
    call A. *)
Definition turn_text : @OpenAI.ChatMessage runtime :=
  {| OpenAI.role := OpenAI.RoleAssistant; OpenAI.content := OpenAI.ContentString (lit "Sure. ");
     OpenAI.tool_calls := []; OpenAI.reasoning_content := Some (lit "because");
     OpenAI.thoughtSignature := None; OpenAI.tool_call_id := [] |}.

Definition result_A : @OpenAI.ChatMessage runtime :=
  {| OpenAI.role := OpenAI.RoleTool; OpenAI.content := OpenAI.ContentString (lit "sunny");
     OpenAI.tool_calls := []; OpenAI.reasoning_content := None;
     OpenAI.thoughtSignature := None; OpenAI.tool_call_id := lit "A" |}.

(** The same two turns in the Claude protocol. *)
Definition use_A : @Claude.ClaudeMessage runtime :=
  {| Claude.role := Claude.RoleAssistant;
     Claude.content :=
       Claude.ContentArray
         [@Claude.ToolUseBlock runtime (lit "A") (lit "get weather") None None] |}.

Definition use_B : @Claude.ClaudeMessage runtime :=
  {| Claude.role := Claude.RoleAssistant;
     Claude.content :=
       Claude.ContentArray
         [@Claude.ThinkingBlock runtime (Some (lit "M"));
          @Claude.ToolUseBlock runtime (lit "B") (lit "lookup") (Some (VObject []))
            (Some (lit "X"))] |}.

(** The head of a plain response, the head of a response that declares a
    gzip body, and the configuration of a buffered call. *)
Definition plain_head : list byte :=
  list_byte_of_string "HTTP/1.1 200 OK" ++ [x0d; x0a]
  ++ list_byte_of_string "Content-Type: text/plain" ++ [x0d; x0a; x0d; x0a].

Definition gzip_head : list byte :=
  list_byte_of_string "HTTP/1.1 200 OK" ++ [x0d; x0a]
  ++ list_byte_of_string "Content-Encoding: gzip" ++ [x0d; x0a; x0d; x0a].

Definition buffered : Requester.RequestConfig :=
  {| Requester.responseType := Requester.text;
     Requester.validateStatus := Requester.status_is_2xx;
     Requester.skipGzipDecompress := false |}.

(** A model message already in the conversation. *)
Definition earlier_answer {Output : Type} : Message Value Output :=
  {| role := model; parts := [TextPart (lit "Hello")] |}.

(** Collaborators with nothing cached and no fallback, and collaborators
    with all four signatures. *)
Definition bare : Collaborators := collaborators all_off None None None None.

Definition stocked : Collaborators :=
  collaborators all_on (Some (lit "R")) (Some (lit "T")) (Some (lit "FR")) (Some (lit "FT")).

(** Collaborators with every signature but the cached reasoning
    signature. *)
Definition no_cached_reasoning : Collaborators :=
  collaborators all_on None (Some (lit "T")) (Some (lit "FR")) (Some (lit "FT")).

(** A configuration that uses the system prompt of the client. *)
Definition with_context : PromptConfig :=
  {| useContextSystemPrompt := true; systemInstruction := lit " Be brief. " |}.

(** A system message and a question of the chat protocol. *)
Definition system_note : @OpenAI.ChatMessage runtime :=
  {| OpenAI.role := OpenAI.RoleSystem; OpenAI.content := OpenAI.ContentString (lit "Be kind.");
     OpenAI.tool_calls := []; OpenAI.reasoning_content := None;
     OpenAI.thoughtSignature := None; OpenAI.tool_call_id := [] |}.

Definition question : @OpenAI.ChatMessage runtime :=
  {| OpenAI.role := OpenAI.RoleUser; OpenAI.content := OpenAI.ContentString (lit "weather?");
     OpenAI.tool_calls := []; OpenAI.reasoning_content := None;
     OpenAI.thoughtSignature := None; OpenAI.tool_call_id := [] |}.

(** A Claude user message with the result of tool call A and a remark. *)
Definition answer_A : @Claude.ClaudeMessage runtime :=
  {| Claude.role := Claude.RoleUser;
     Claude.content :=
       Claude.ContentArray
         [@Claude.TextBlock runtime (Some (lit "here you go"));
          @Claude.ToolResultBlock runtime (lit "A") (Claude.ResultString (lit "sunny"))] |}.

(** An assistant message of the Claude protocol with a thinking block
    that has no signature, as in the test suite. *)
Definition thinking_aloud : @Claude.ClaudeMessage runtime :=
  {| Claude.role := Claude.RoleAssistant;
     Claude.content :=
       Claude.ContentArray
         [@Claude.ThinkingBlock runtime None;
          @Claude.TextBlock runtime (Some (lit "Response text"))] |}.

(** A model message that calls tool A. *)
Definition asked_A : Message Value jsstring :=
  {| role := model;
     parts := [FunctionCallPart (lit "A") (lit "get_weather") (QueryArgs (lit "{}")) None] |}.

(** A response in three chunks: the head cut inside the status line, and
    the body. *)
Definition three_chunks : list (list byte) :=
  [take 7 plain_head; drop 7 plain_head; list_byte_of_string "hello"].

(** A parsed response with two tool calls, the first of them signed; a
    tool call is represented by its signature. *)
Definition two_calls : @ApiClient.Parsed (option jsstring) :=
  {| ApiClient.content := Some (lit "done"); ApiClient.reasoningContent := None;
     ApiClient.reasoningSignature := Some (lit "R");
     ApiClient.toolCalls := [Some (lit "S1"); None];
     ApiClient.imageUrls := [] |}.

(** The call of [setSignature] that this response leads to. *)
Definition written_S1 : ApiClient.SetSignature :=
  {| ApiClient.set_sessionId := lit "s"; ApiClient.set_model := lit "m";
     ApiClient.set_signature := lit "S1"; ApiClient.set_content := [32];
     ApiClient.set_hasTools := true; ApiClient.set_isImageModel := false |}.

End Demo.

(** * Properties *)

Import Js Common Props.

(** ** Facts about common.js *)

Section CommonFacts.
Context {Raw Output : Type}.
Implicit Types (msgs : list (Message Raw Output)) (ps : list (Part Raw Output)).

Lemma all_parts_app msgs1 msgs2 :
  all_parts (msgs1 ++ msgs2) = all_parts msgs1 ++ all_parts msgs2.
Proof. unfold all_parts. now rewrite map_app, concat_app. Qed.

Lemma all_parts_snoc msgs (m : Message Raw Output) :
  all_parts (msgs ++ [m]) = all_parts msgs ++ parts m.
Proof. rewrite all_parts_app. unfold all_parts. simpl. now rewrite app_nil_r. Qed.

Lemma last_split msgs (m : Message Raw Output) :
  last msgs = Some m -> msgs = removelast msgs ++ [m].
Proof.
  intros Hlast. apply last_Some in Hlast as [front ->].
  now rewrite removelast_last.
Qed.

Lemma eqb_eq (a b : jsstring) : eqb a b = true <-> a = b.
Proof.
  revert b. induction a as [|x a IH]; intros [|y b]; simpl; try easy.
  rewrite andb_true_iff, N.eqb_eq, IH. split; [intros [-> ->] | intros [= -> ->]]; easy.
Qed.

Lemma truthy_eqb_refl (s : jsstring) : eqb s s = true.
Proof. now apply eqb_eq. Qed.

Lemma eqb_neq (a b : jsstring) : eqb a b = false <-> a <> b.
Proof. rewrite <- eqb_eq. now destruct (eqb a b). Qed.

(** Whichever branch [pushModelMessage] takes, it adds parts at the end of
    the conversation: the tool calls alone when it merges. *)
Lemma pushModelMessage_all_parts ps toolCalls hasContent msgs :
  all_parts (pushModelMessage ps toolCalls hasContent msgs) =
  all_parts msgs ++ (if merge_taken msgs toolCalls hasContent then toolCalls
                     else ps ++ toolCalls).
Proof.
  unfold pushModelMessage, merge_taken.
  destruct (last msgs) as [lastMessage|] eqn:Hlast.
  - destruct (is_model (role lastMessage) && negb (Nat.eqb (length toolCalls) 0)
              && negb hasContent).
    + rewrite all_parts_snoc. simpl.
      rewrite (last_split _ _ Hlast) at 2. rewrite all_parts_snoc.
      now rewrite app_assoc.
    + now rewrite all_parts_snoc.
  - now rewrite all_parts_snoc.
Qed.

Lemma pushModelMessage_merge ps toolCalls hasContent front (lastMessage : Message Raw Output) :
  role lastMessage = model -> toolCalls <> [] -> hasContent = false ->
  pushModelMessage ps toolCalls hasContent (front ++ [lastMessage]) =
  front ++ [ {| role := model; parts := parts lastMessage ++ toolCalls |} ].
Proof.
  intros Hrole Hcalls ->. unfold pushModelMessage.
  rewrite last_snoc, removelast_last, Hrole. simpl.
  destruct toolCalls; [congruence | reflexivity].
Qed.

Lemma pushModelMessage_fresh ps toolCalls hasContent msgs :
  merge_taken msgs toolCalls hasContent = false ->
  pushModelMessage ps toolCalls hasContent msgs =
  msgs ++ [ {| role := model; parts := ps ++ toolCalls |} ].
Proof.
  unfold pushModelMessage, merge_taken. intros Hno.
  destruct (last msgs); [now rewrite Hno | reflexivity].
Qed.

Lemma pushFunctionResponse_all_parts id name (output : Output) msgs :
  all_parts (pushFunctionResponse id name output msgs) =
  all_parts msgs ++ [FunctionResponsePart id name output].
Proof.
  unfold pushFunctionResponse.
  destruct (last msgs) as [lastMessage|] eqn:Hlast.
  - destruct (is_user (role lastMessage) && existsb is_functionResponse (parts lastMessage)).
    + rewrite all_parts_snoc. simpl.
      rewrite (last_split _ _ Hlast) at 2. rewrite all_parts_snoc.
      now rewrite app_assoc.
    + now rewrite all_parts_snoc.
  - now rewrite all_parts_snoc.
Qed.

Lemma pushUserMessage_all_parts (extracted : Extracted Raw Output) msgs :
  all_parts (pushUserMessage extracted msgs) =
  all_parts msgs ++ TextPart (or_default (extracted_text extracted) [32])
                      :: extracted_images extracted.
Proof. unfold pushUserMessage. now rewrite all_parts_snoc. Qed.

Lemma thought_signatures_app ps1 ps2 :
  thought_signatures (ps1 ++ ps2) = thought_signatures ps1 ++ thought_signatures ps2.
Proof. apply omap_app. Qed.

Lemma call_signatures_app ps1 ps2 :
  call_signatures (ps1 ++ ps2) = call_signatures ps1 ++ call_signatures ps2.
Proof. apply omap_app. Qed.

(** *** findFunctionNameById *)

Lemma find_in_parts_found id name args signature ps1 ps2 :
  find_in_parts id ps1 = None ->
  find_in_parts id (ps1 ++ FunctionCallPart id name args signature :: ps2)
  = Some name.
Proof.
  induction ps1 as [|p ps1 IH]; simpl; intros Hnone.
  - now rewrite truthy_eqb_refl.
  - destruct (is_functionCall id p); [discriminate | now apply IH].
Qed.

Lemma find_in_parts_none_iff id ps :
  find_in_parts id ps = None <->
  Forall (fun p => is_functionCall id p = None) ps.
Proof.
  induction ps as [|p ps IH]; simpl.
  - split; [constructor | reflexivity].
  - destruct (is_functionCall id p) eqn:Hp.
    + split; [discriminate | intros Hall; inversion Hall; congruence].
    + rewrite IH. split; [now constructor | now inversion 1].
Qed.

End CommonFacts.

(** ** Signature resolution *)

Section Resolution.
Context `{Collaborators}.

Lemma js_or_assoc a b c : js_or (js_or a b) c = js_or a (js_or b c).
Proof. unfold js_or. destruct (truthy a) eqn:Ha; [now rewrite Ha | reflexivity]. Qed.

Lemma first_available_cons a l :
  first_available (a :: l) = if truthy a then a else first_available l.
Proof. reflexivity. Qed.

Lemma first_available_truthy l :
  first_available l = None \/ truthy (first_available l) = true.
Proof.
  induction l as [|a l IH]; simpl; [now left|].
  destruct (truthy a) eqn:Ha; [now right | exact IH].
Qed.

(** A chain of [||] whose value is kept only if it is truthy picks the
    first truthy operand. *)
Lemma truthy_chain a l :
  (if truthy (fold_left js_or l a) then fold_left js_or l a else None)
  = first_available (a :: l).
Proof.
  revert a. induction l as [|b l IH]; intros a; simpl.
  - now destruct (truthy a).
  - rewrite IH. simpl. unfold js_or.
    destruct (truthy a) eqn:Ha; [now rewrite Ha | reflexivity].
Qed.

Lemma context_reasoningSignature sessionId actualModelName hasTools :
  reasoningSignature (getSignatureContext sessionId actualModelName hasTools)
  = fold_left js_or (tl (reasoning_candidates sessionId actualModelName))
      (hd None (reasoning_candidates sessionId actualModelName)).
Proof. reflexivity. Qed.

Lemma context_toolSignature sessionId actualModelName hasTools :
  toolSignature (getSignatureContext sessionId actualModelName hasTools)
  = fold_left js_or (tl (tool_candidates sessionId actualModelName hasTools))
      (hd None (tool_candidates sessionId actualModelName hasTools)).
Proof. reflexivity. Qed.

(** The signature of a thought part: [explicit || reasoningSignature ||
    toolSignature]. *)
Lemma thought_signature_resolution explicit sessionId actualModelName hasTools :
  let context := getSignatureContext sessionId actualModelName hasTools in
  let signature := js_or (js_or explicit (reasoningSignature context)) (toolSignature context) in
  (if truthy signature then signature else None)
  = first_available (thought_candidates explicit sessionId actualModelName hasTools).
Proof.
  intros context signature. subst context signature.
  rewrite context_reasoningSignature, context_toolSignature.
  unfold thought_candidates, reasoning_candidates, tool_candidates.
  rewrite <- (truthy_chain explicit). simpl.
  now rewrite !js_or_assoc.
Qed.

(** The signature of a function-call part of the chat protocol:
    [toolCall.thoughtSignature || toolSignature || message.thoughtSignature
    || reasoningSignature]. *)
Lemma openai_call_signature_resolution own explicit sessionId actualModelName hasTools :
  let context := getSignatureContext sessionId actualModelName hasTools in
  let signature :=
    js_or (js_or (js_or own (toolSignature context)) explicit) (reasoningSignature context) in
  (if truthy signature then signature else None)
  = first_available
      (own :: tool_candidates sessionId actualModelName hasTools
         ++ explicit :: reasoning_candidates sessionId actualModelName).
Proof.
  intros context signature. subst context signature.
  rewrite context_reasoningSignature, context_toolSignature.
  unfold reasoning_candidates, tool_candidates.
  rewrite <- (truthy_chain own). simpl.
  now rewrite !js_or_assoc.
Qed.

(** The signature of the function-call part of a [tool_use] block:
    [item.signature || toolSignature || reasoningSignature]. *)
Lemma claude_call_signature_resolution own sessionId actualModelName hasTools :
  let context := getSignatureContext sessionId actualModelName hasTools in
  let signature := js_or (js_or own (toolSignature context)) (reasoningSignature context) in
  (if truthy signature then signature else None)
  = first_available (claude_call_candidates own sessionId actualModelName hasTools).
Proof.
  intros context signature. subst context signature.
  rewrite context_reasoningSignature, context_toolSignature.
  unfold claude_call_candidates, reasoning_candidates, tool_candidates.
  rewrite <- (truthy_chain own). simpl.
  now rewrite !js_or_assoc.
Qed.

End Resolution.

(** ** Facts about openai.js *)

Section OpenAIFacts.
Context `{JsRuntime} `{Collaborators}.
Implicit Types (message : OpenAI.ChatMessage) (before after : list OpenAI.CanonicalMessage).

Lemma processToolName_name originalName sessionId actualModelName cache :
  fst (processToolName originalName sessionId actualModelName cache)
  = sanitizeToolName originalName.
Proof. unfold processToolName. now destruct (_ && _). Qed.

(** The function-call part built for one tool call. *)
Local Abbreviation call_part message enableThinking actualModelName sessionId hasTools :=
  (fun toolCall : OpenAI.ToolCall =>
     FunctionCallPart (Output := OpenAI.Content)
       (OpenAI.tc_id toolCall) (sanitizeToolName (OpenAI.tc_function_name toolCall))
       (match OpenAI.tc_function_arguments toolCall with
        | inl s => QueryArgs s
        | inr v => RawArgs v
        end)
       (if enableThinking : bool
        then first_available
               (openai_call_candidates message toolCall sessionId actualModelName hasTools)
        else None)).

Lemma convert_tool_calls_parts message enableThinking actualModelName sessionId hasTools
    toolCalls cache :
  fst (OpenAI.convert_tool_calls message enableThinking actualModelName sessionId
         (getSignatureContext sessionId actualModelName hasTools) toolCalls cache)
  = map (call_part message enableThinking actualModelName sessionId hasTools) toolCalls.
Proof.
  revert cache. induction toolCalls as [|toolCall rest IH]; intros cache; simpl; [reflexivity|].
  pose proof (processToolName_name (OpenAI.tc_function_name toolCall) sessionId
                actualModelName cache) as Hname.
  destruct (processToolName _ _ _ cache) as [safeName cache1]. simpl in Hname. subst safeName.
  specialize (IH cache1).
  destruct (OpenAI.convert_tool_calls _ _ _ _ _ rest cache1) as [parts_ cache2].
  simpl in IH. subst parts_. simpl. f_equal.
  unfold createFunctionCallPart. f_equal.
  destruct enableThinking; [|reflexivity].
  apply (openai_call_signature_resolution (OpenAI.tc_thoughtSignature toolCall)
           (OpenAI.thoughtSignature message)).
Qed.

(** The thought part built for a message, if any. *)
Local Abbreviation thought_part message enableThinking actualModelName sessionId hasTools :=
  (if enableThinking : bool then
     match first_available
             (thought_candidates (OpenAI.thoughtSignature message) sessionId actualModelName
                hasTools) with
     | Some s =>
         [ThoughtPart (Raw := JsValue) (Output := OpenAI.Content)
            (match OpenAI.reasoning_content message with
             | Some (u :: t) => u :: t
             | _ => [32]
             end) (Some s)]
     | None => []
     end
   else []).

Local Abbreviation text_part message hasContent :=
  (if hasContent : bool
   then [TextPart (Raw := JsValue) (Output := OpenAI.Content)
           (trimEnd (OpenAI.content_text (OpenAI.content message)))]
   else []).

(** What [handleAssistantMessage] does for a message whose content is no
    array: one call of [pushModelMessage]. *)
Lemma handleAssistantMessage_normal message before enableThinking actualModelName sessionId
    hasTools cache hasContent :
  OpenAI.hasContent_of (OpenAI.content message) = Normal hasContent ->
  exists cache',
    OpenAI.handleAssistantMessage message before enableThinking actualModelName sessionId
      hasTools cache
    = Normal
        (pushModelMessage
           (thought_part message enableThinking actualModelName sessionId hasTools
              ++ text_part message hasContent)
           (map (call_part message enableThinking actualModelName sessionId hasTools)
              (OpenAI.tool_calls message))
           hasContent before,
         cache').
Proof.
  intros Hcontent. unfold OpenAI.handleAssistantMessage. rewrite Hcontent. cbv zeta.
  pose proof (convert_tool_calls_parts message enableThinking actualModelName sessionId
                hasTools (OpenAI.tool_calls message) cache) as Hcalls.
  destruct (OpenAI.convert_tool_calls _ _ _ _ _ _ cache) as [toolCalls cache1].
  simpl in Hcalls. subst toolCalls. exists cache1. do 2 f_equal.
  pose proof (thought_signature_resolution (OpenAI.thoughtSignature message) sessionId
                actualModelName hasTools) as Hsig.
  cbv zeta in Hsig.
  set (context := getSignatureContext sessionId actualModelName hasTools) in *.
  set (signature := js_or (js_or _ (reasoningSignature context)) (toolSignature context)) in *.
  clearbody signature context.
  destruct enableThinking.
  - rewrite <- Hsig. destruct signature as [[|u t]|]; simpl; try now destruct hasContent.
    destruct (OpenAI.reasoning_content message) as [[|u' t']|]; reflexivity.
  - now destruct hasContent.
Qed.

Lemma handleAssistantMessage_throws message before enableThinking actualModelName sessionId
    hasTools cache e :
  OpenAI.hasContent_of (OpenAI.content message) = Throw e ->
  OpenAI.handleAssistantMessage message before enableThinking actualModelName sessionId
    hasTools cache = Throw e.
Proof. intros Hcontent. unfold OpenAI.handleAssistantMessage. now rewrite Hcontent. Qed.

Lemma Normal_inj {A} (a b : A) : Normal a = Normal b -> a = b.
Proof. now injection 1. Qed.

Lemma calls_of_app {Raw Output} (ps1 ps2 : list (Part Raw Output)) :
  calls_of (ps1 ++ ps2) = calls_of ps1 ++ calls_of ps2.
Proof. apply omap_app. Qed.

Lemma merge_taken_length {Raw Output} (msgs : list (Message Raw Output)) toolCalls hasContent :
  merge_taken msgs toolCalls hasContent
  = last_is_model msgs && negb (Nat.eqb (length toolCalls) 0) && negb hasContent.
Proof. unfold merge_taken, last_is_model. now destruct (last msgs). Qed.

Lemma omap_map_some {A B C} (f : A -> B) (g : B -> option C) (h : A -> C) (l : list A) :
  (forall a, g (f a) = Some (h a)) -> omap g (map f l) = map h l.
Proof.
  intros Hg. induction l as [|a l IH]; simpl; [reflexivity|].
  rewrite Hg. simpl. f_equal. exact IH.
Qed.

Lemma omap_map_none {A B C} (f : A -> B) (g : B -> option C) (l : list A) :
  (forall a, g (f a) = None) -> omap g (map f l) = [].
Proof.
  intros Hg. induction l as [|a l IH]; simpl; [reflexivity|].
  rewrite Hg. simpl. exact IH.
Qed.

(** The parts one assistant message adds to the conversation. *)
Lemma handleAssistantMessage_emitted message before enableThinking actualModelName sessionId
    hasTools cache after cache' :
  OpenAI.handleAssistantMessage message before enableThinking actualModelName sessionId
    hasTools cache = Normal (after, cache') ->
  exists emitted,
    all_parts after = all_parts before ++ emitted /\
    thought_signatures emitted =
      (if enableThinking && negb (openai_merges before message)
       then match first_available
                    (thought_candidates (OpenAI.thoughtSignature message) sessionId
                       actualModelName hasTools) with
            | Some s => [Some s]
            | None => []
            end
       else []) /\
    call_signatures emitted =
      map (fun toolCall =>
             if enableThinking
             then first_available
                    (openai_call_candidates message toolCall sessionId actualModelName hasTools)
             else None) (OpenAI.tool_calls message) /\
    calls_of emitted =
      map (fun toolCall =>
             (OpenAI.tc_id toolCall, sanitizeToolName (OpenAI.tc_function_name toolCall),
              match OpenAI.tc_function_arguments toolCall with
              | inl s => QueryArgs s
              | inr v => RawArgs v
              end)) (OpenAI.tool_calls message).
Proof.
  intros Hrun.
  destruct (OpenAI.hasContent_of (OpenAI.content message)) as [hasContent|e] eqn:Hcontent.
  2:{ rewrite (handleAssistantMessage_throws _ _ _ _ _ _ _ e Hcontent) in Hrun. discriminate. }
  destruct (handleAssistantMessage_normal message before enableThinking actualModelName
              sessionId hasTools cache hasContent Hcontent) as [cache1 Heq].
  rewrite Heq in Hrun. apply Normal_inj, pair_equal_spec in Hrun as [<- <-].
  assert (openai_merges before message
          = merge_taken before
              (map (call_part message enableThinking actualModelName sessionId hasTools)
                 (OpenAI.tool_calls message)) hasContent) as ->.
  { rewrite merge_taken_length, length_map. unfold openai_merges. now rewrite Hcontent. }
  assert (thought_signatures
            (map (call_part message enableThinking actualModelName sessionId hasTools)
               (OpenAI.tool_calls message)) = []) as Hno_thought
    by (now apply omap_map_none).
  assert (call_signatures
            (map (call_part message enableThinking actualModelName sessionId hasTools)
               (OpenAI.tool_calls message))
          = map (fun toolCall =>
                   if enableThinking
                   then first_available
                          (openai_call_candidates message toolCall sessionId actualModelName
                             hasTools)
                   else None) (OpenAI.tool_calls message)) as Hsignatures
    by (now apply omap_map_some).
  assert (calls_of
            (map (call_part message enableThinking actualModelName sessionId hasTools)
               (OpenAI.tool_calls message))
          = map (fun toolCall =>
                   (OpenAI.tc_id toolCall, sanitizeToolName (OpenAI.tc_function_name toolCall),
                    match OpenAI.tc_function_arguments toolCall with
                    | inl s => QueryArgs s
                    | inr v => RawArgs v
                    end)) (OpenAI.tool_calls message)) as Hcalls
    by (now apply omap_map_some).
  rewrite pushModelMessage_all_parts.
  destruct (merge_taken before _ hasContent).
  - eexists. split; [reflexivity|].
    change (negb true) with false. rewrite andb_false_r. auto.
  - eexists. split; [reflexivity|].
    change (negb false) with true. rewrite andb_true_r.
    rewrite !thought_signatures_app, !call_signatures_app.
    rewrite !calls_of_app, Hno_thought, Hsignatures, Hcalls, app_nil_r.
    destruct enableThinking; [destruct (first_available (thought_candidates _ _ _ _))|];
      now destruct hasContent.
Qed.

End OpenAIFacts.

Arguments first_available : simpl never.
Arguments getSignatureContext : simpl never.

(** ** Facts about claude.js *)

Section ClaudeFacts.
Context `{JsRuntime} `{Collaborators}.
Implicit Types (message : Claude.ClaudeMessage) (before after : list Claude.CanonicalMessage).

(** The function-call part built for one [tool_use] block. *)
Local Abbreviation use_part enableThinking actualModelName sessionId hasTools :=
  (fun use : jsstring * jsstring * option JsValue * option jsstring =>
     let '(id, name, input, signature) := use in
     FunctionCallPart (Output := jsstring) id (sanitizeToolName name) (claude_args input)
       (if enableThinking : bool
        then first_available
               (claude_call_candidates signature sessionId actualModelName hasTools)
        else None)).

(** What the loop over the content array has read after some blocks. *)
Lemma scan_blocks enableThinking actualModelName sessionId hasTools items acc :
  let scanned :=
    fold_left (Claude.scan_block enableThinking actualModelName sessionId
                 (getSignatureContext sessionId actualModelName hasTools)) items acc in
  Claude.textContent scanned
    = Claude.textContent acc ++ claude_text (Claude.ContentArray items) /\
  Claude.toolCalls scanned
    = Claude.toolCalls acc
        ++ map (use_part enableThinking actualModelName sessionId hasTools)
             (claude_tool_uses (Claude.ContentArray items)) /\
  Claude.messageSignature scanned
    = if truthy (Claude.messageSignature acc) then Claude.messageSignature acc
      else match first_available (claude_thinking_signatures (Claude.ContentArray items)) with
           | Some s => Some s
           | None => Claude.messageSignature acc
           end.
Proof.
  assert (forall own,
            (if truthy (js_or (js_or own (toolSignature
                                            (getSignatureContext sessionId actualModelName
                                               hasTools)))
                          (reasoningSignature
                             (getSignatureContext sessionId actualModelName hasTools)))
             then js_or (js_or own (toolSignature
                                      (getSignatureContext sessionId actualModelName hasTools)))
                    (reasoningSignature
                       (getSignatureContext sessionId actualModelName hasTools))
             else None)
            = first_available (claude_call_candidates own sessionId actualModelName hasTools))
    as Hresolve by (intros own; apply claude_call_signature_resolution).
  set (context := getSignatureContext sessionId actualModelName hasTools) in *.
  clearbody context.
  revert acc. induction items as [|item items IH]; intros acc.
  - simpl. rewrite !app_nil_r. repeat split.
    destruct (truthy (Claude.messageSignature acc)); reflexivity.
  - cbn [fold_left].
    destruct (IH (Claude.scan_block enableThinking actualModelName sessionId context acc item))
      as (Htext & Hcalls & Hsig).
    cbv zeta. rewrite Htext, Hcalls, Hsig. clear IH Htext Hcalls Hsig.
    destruct item as [t|s|id name input s| | |]; cbn [Claude.scan_block].
    + simpl. rewrite <- app_assoc. repeat split.
    + simpl. repeat split. rewrite first_available_cons.
      destruct (truthy (Claude.messageSignature acc)) eqn:Hacc; simpl.
      * now rewrite Hacc.
      * destruct (truthy s) eqn:Hs.
        -- rewrite Hs. now destruct s as [[|u t]|].
        -- rewrite Hacc. reflexivity.
    + pose proof (processToolName_name name sessionId actualModelName
                    (Claude.toolNameCache acc)) as Hname.
      destruct (processToolName name _ _ _) as [safeName cache1]. simpl in Hname.
      subst safeName. cbn [Claude.textContent Claude.toolCalls Claude.messageSignature].
      split; [reflexivity | split; [|reflexivity]].
      rewrite <- app_assoc. f_equal. cbn [app].
      transitivity (use_part enableThinking actualModelName sessionId hasTools
                      (id, name, input, s)
                    :: map (use_part enableThinking actualModelName sessionId hasTools)
                         (claude_tool_uses (Claude.ContentArray items))); [|reflexivity].
      f_equal. unfold createFunctionCallPart, claude_args. f_equal.
      destruct enableThinking; [apply Hresolve | reflexivity].
    + simpl. repeat split.
    + simpl. repeat split.
    + simpl. repeat split.
Qed.

Lemma scan_content_text enableThinking actualModelName sessionId hasTools cache content :
  Claude.textContent
    (Claude.scan_content enableThinking actualModelName sessionId
       (getSignatureContext sessionId actualModelName hasTools) cache content)
  = claude_text content.
Proof.
  destruct content; try reflexivity. unfold Claude.scan_content.
  now rewrite (proj1 (scan_blocks _ _ _ _ _ _)).
Qed.

Lemma scan_content_calls enableThinking actualModelName sessionId hasTools cache content :
  Claude.toolCalls
    (Claude.scan_content enableThinking actualModelName sessionId
       (getSignatureContext sessionId actualModelName hasTools) cache content)
  = map (use_part enableThinking actualModelName sessionId hasTools) (claude_tool_uses content).
Proof.
  destruct content; try reflexivity. unfold Claude.scan_content.
  now rewrite (proj1 (proj2 (scan_blocks _ _ _ _ _ _))).
Qed.

Lemma scan_content_signature enableThinking actualModelName sessionId hasTools cache content :
  Claude.messageSignature
    (Claude.scan_content enableThinking actualModelName sessionId
       (getSignatureContext sessionId actualModelName hasTools) cache content)
  = first_available (claude_thinking_signatures content).
Proof.
  destruct content; try reflexivity. unfold Claude.scan_content.
  rewrite (proj2 (proj2 (scan_blocks _ _ _ _ _ _))). simpl.
  now destruct (first_available _).
Qed.

Local Abbreviation claude_thought content enableThinking actualModelName sessionId hasTools :=
  (if enableThinking : bool then
     match first_available
             (thought_candidates (first_available (claude_thinking_signatures content))
                sessionId actualModelName hasTools) with
     | Some s => [ThoughtPart (Raw := JsValue) (Output := jsstring) [32] (Some s)]
     | None => []
     end
   else []).

Local Abbreviation claude_text_part content :=
  (if Claude.has_text (claude_text content)
   then [TextPart (Raw := JsValue) (Output := jsstring) (trimEnd (claude_text content))]
   else []).

(** What [handleClaudeAssistantMessage] does: one call of
    [pushModelMessage]. *)
Lemma handleClaudeAssistantMessage_unfold message before enableThinking actualModelName
    sessionId hasTools cache :
  exists cache',
    Claude.handleClaudeAssistantMessage message before enableThinking actualModelName
      sessionId hasTools cache
    = (pushModelMessage
         (claude_thought (Claude.content message) enableThinking actualModelName sessionId
            hasTools ++ claude_text_part (Claude.content message))
         (map (use_part enableThinking actualModelName sessionId hasTools)
            (claude_tool_uses (Claude.content message)))
         (Claude.has_text (claude_text (Claude.content message))) before,
       cache').
Proof.
  unfold Claude.handleClaudeAssistantMessage. cbv zeta.
  rewrite scan_content_text, scan_content_calls, scan_content_signature.
  eexists. f_equal. f_equal.
  pose proof (thought_signature_resolution
                (first_available (claude_thinking_signatures (Claude.content message)))
                sessionId actualModelName hasTools) as Hsig.
  cbv zeta in Hsig.
  set (context := getSignatureContext sessionId actualModelName hasTools) in *.
  set (signature := js_or (js_or _ (reasoningSignature context)) (toolSignature context)) in *.
  clearbody signature context.
  destruct enableThinking.
  - rewrite <- Hsig.
    destruct signature as [[|u t]|]; simpl;
      now destruct (Claude.has_text (claude_text (Claude.content message))).
  - now destruct (Claude.has_text (claude_text (Claude.content message))).
Qed.

(** The parts one assistant message adds to the conversation. *)
Lemma handleClaudeAssistantMessage_emitted message before enableThinking actualModelName
    sessionId hasTools cache :
  exists emitted,
    all_parts (fst (Claude.handleClaudeAssistantMessage message before enableThinking
                      actualModelName sessionId hasTools cache))
      = all_parts before ++ emitted /\
    thought_signatures emitted =
      (if enableThinking && negb (claude_merges before message)
       then match first_available
                    (thought_candidates
                       (first_available (claude_thinking_signatures (Claude.content message)))
                       sessionId actualModelName hasTools) with
            | Some s => [Some s]
            | None => []
            end
       else []) /\
    call_signatures emitted =
      map (fun use : jsstring * jsstring * option JsValue * option jsstring =>
             if enableThinking
             then first_available
                    (claude_call_candidates (snd use) sessionId actualModelName hasTools)
             else None) (claude_tool_uses (Claude.content message)) /\
    calls_of emitted =
      map (fun use : jsstring * jsstring * option JsValue * option jsstring =>
             let '(id, name, input, _) := use in
             (id, sanitizeToolName name, claude_args input))
        (claude_tool_uses (Claude.content message)).
Proof.
  destruct (handleClaudeAssistantMessage_unfold message before enableThinking actualModelName
              sessionId hasTools cache) as [cache1 ->].
  cbn [fst].
  assert (claude_merges before message
          = merge_taken before
              (map (use_part enableThinking actualModelName sessionId hasTools)
                 (claude_tool_uses (Claude.content message)))
              (Claude.has_text (claude_text (Claude.content message)))) as ->.
  { rewrite merge_taken_length, length_map. reflexivity. }
  assert (thought_signatures
            (map (use_part enableThinking actualModelName sessionId hasTools)
               (claude_tool_uses (Claude.content message))) = []) as Hno_thought.
  { apply omap_map_none. now intros [[[] ]]. }
  assert (call_signatures
            (map (use_part enableThinking actualModelName sessionId hasTools)
               (claude_tool_uses (Claude.content message)))
          = map (fun use : jsstring * jsstring * option JsValue * option jsstring =>
                   if enableThinking
                   then first_available
                          (claude_call_candidates (snd use) sessionId actualModelName hasTools)
                   else None) (claude_tool_uses (Claude.content message))) as Hsignatures.
  { apply omap_map_some. now intros [[[] ]]. }
  assert (calls_of
            (map (use_part enableThinking actualModelName sessionId hasTools)
               (claude_tool_uses (Claude.content message)))
          = map (fun use : jsstring * jsstring * option JsValue * option jsstring =>
                   let '(id, name, input, _) := use in
                   (id, sanitizeToolName name, claude_args input))
              (claude_tool_uses (Claude.content message))) as Hcalls.
  { apply omap_map_some. now intros [[[] ]]. }
  rewrite pushModelMessage_all_parts.
  destruct (merge_taken before _ _).
  - eexists. split; [reflexivity|].
    change (negb true) with false. rewrite andb_false_r. auto.
  - eexists. split; [reflexivity|].
    change (negb false) with true. rewrite andb_true_r.
    rewrite !thought_signatures_app, !call_signatures_app.
    rewrite !calls_of_app, Hno_thought, Hsignatures, Hcalls, app_nil_r.
    destruct enableThinking; [destruct (first_available (thought_candidates _ _ _ _))|];
      now destruct (Claude.has_text (claude_text (Claude.content message))).
Qed.

End ClaudeFacts.

(** ** Tool results: the name of the call *)

Section ToolResults.
Context {Raw Output : Type}.
Implicit Types (msgs : list (Message Raw Output)) (ps : list (Part Raw Output)).

Lemma find_in_parts_absent id ps :
  (forall name args signature, ~ In (FunctionCallPart id name args signature) ps) ->
  find_in_parts id ps = None.
Proof.
  intros Habsent. apply find_in_parts_none_iff, Forall_forall. intros p Hp.
  destruct p as [|?|id' name args signature| |]; try reflexivity. simpl.
  destruct (eqb id' id) eqn:Hid; [|reflexivity].
  apply eqb_eq in Hid as ->. apply list_elem_of_In in Hp. now apply Habsent in Hp.
Qed.

Lemma findFunctionNameById_snoc_skip id msgs (m : Message Raw Output) :
  role m = user \/ find_in_parts id (parts m) = None ->
  findFunctionNameById id (msgs ++ [m]) = findFunctionNameById id msgs.
Proof.
  intros Hskip. unfold findFunctionNameById. rewrite rev_unit. simpl.
  destruct Hskip as [-> | ->]; [reflexivity | now destruct (is_model (role m))].
Qed.

Lemma findFunctionNameById_snoc_found id msgs (m : Message Raw Output) name :
  role m = model -> find_in_parts id (parts m) = Some name ->
  findFunctionNameById id (msgs ++ [m]) = name.
Proof.
  intros Hrole Hfound. unfold findFunctionNameById. rewrite rev_unit. simpl.
  now rewrite Hrole, Hfound.
Qed.


End ToolResults.


(** ** Assistant turns *)

Section AssistantTurns.
Context `{JsRuntime} `{Collaborators}.

Lemma openai_turn_merges (message : OpenAI.ChatMessage)
    (front : list OpenAI.CanonicalMessage) lastMessage enableThinking actualModelName
    sessionId hasTools cache :
  role lastMessage = model ->
  OpenAI.tool_calls message <> [] ->
  OpenAI.hasContent_of (OpenAI.content message) = Normal false ->
  exists toolCalls cache',
    OpenAI.handleAssistantMessage message (front ++ [lastMessage]) enableThinking
      actualModelName sessionId hasTools cache
    = Normal (front ++ [ {| role := model; parts := parts lastMessage ++ toolCalls |} ],
              cache') /\
    forallb is_call toolCalls = true /\
    calls_of toolCalls
    = map (fun toolCall =>
             (OpenAI.tc_id toolCall, sanitizeToolName (OpenAI.tc_function_name toolCall),
              match OpenAI.tc_function_arguments toolCall with
              | inl s => QueryArgs s
              | inr v => RawArgs v
              end)) (OpenAI.tool_calls message).
Proof.
  intros Hrole Hcalls Hcontent.
  destruct (handleAssistantMessage_normal message (front ++ [lastMessage]) enableThinking
              actualModelName sessionId hasTools cache false Hcontent) as [cache' ->].
  eexists _, cache'. split; [|split].
  - f_equal. f_equal. apply pushModelMessage_merge; try done.
    now destruct (OpenAI.tool_calls message).
  - apply forallb_forall. intros p Hp. apply in_map_iff in Hp as (toolCall & <- & _).
    reflexivity.
  - now apply omap_map_some.
Qed.

Lemma claude_turn_merges (message : Claude.ClaudeMessage)
    (front : list Claude.CanonicalMessage) lastMessage enableThinking actualModelName
    sessionId hasTools cache :
  role lastMessage = model ->
  claude_tool_uses (Claude.content message) <> [] ->
  Claude.has_text (claude_text (Claude.content message)) = false ->
  exists toolCalls,
    fst (Claude.handleClaudeAssistantMessage message (front ++ [lastMessage])
           enableThinking actualModelName sessionId hasTools cache)
    = front ++ [ {| role := model; parts := parts lastMessage ++ toolCalls |} ] /\
    forallb is_call toolCalls = true /\
    calls_of toolCalls
    = map (fun use : jsstring * jsstring * option JsValue * option jsstring =>
             let '(id, name, input, _) := use in
             (id, sanitizeToolName name, claude_args input))
        (claude_tool_uses (Claude.content message)).
Proof.
  intros Hrole Hcalls Hcontent.
  destruct (handleClaudeAssistantMessage_unfold message (front ++ [lastMessage])
              enableThinking actualModelName sessionId hasTools cache) as [cache' ->].
  rewrite Hcontent. eexists. split; [|split].
  - cbn [fst]. apply pushModelMessage_merge; try done.
    now destruct (claude_tool_uses (Claude.content message)).
  - apply forallb_forall. intros p Hp.
    apply in_map_iff in Hp as ([[[id name] input] s] & <- & _). reflexivity.
  - apply omap_map_some. now intros [[[] ]].
Qed.

(** C10. When the merge branch is taken (the conversation ends with a model
    message, the incoming assistant message has tool calls and no text but
    white space), the last message gets the function-call parts of the
    incoming message appended and nothing else: the parts it had stay in
    place, and a thought part built for the incoming message is dropped,
    whatever signature was resolved for it. *)
Theorem merge_appends_tool_calls_only :
  (forall (message : OpenAI.ChatMessage) (front : list OpenAI.CanonicalMessage) lastMessage
          enableThinking actualModelName sessionId hasTools cache,
     role lastMessage = model ->
     OpenAI.tool_calls message <> [] ->
     OpenAI.hasContent_of (OpenAI.content message) = Normal false ->
     exists toolCalls cache',
       OpenAI.handleAssistantMessage message (front ++ [lastMessage]) enableThinking
         actualModelName sessionId hasTools cache
       = Normal (front ++ [ {| role := model; parts := parts lastMessage ++ toolCalls |} ],
                 cache') /\
       forallb is_call toolCalls = true /\
       calls_of toolCalls
       = map (fun toolCall =>
                (OpenAI.tc_id toolCall, sanitizeToolName (OpenAI.tc_function_name toolCall),
                 match OpenAI.tc_function_arguments toolCall with
                 | inl s => QueryArgs s
                 | inr v => RawArgs v
                 end)) (OpenAI.tool_calls message)) /\
  (forall (message : Claude.ClaudeMessage) (front : list Claude.CanonicalMessage) lastMessage
          enableThinking actualModelName sessionId hasTools cache,
     role lastMessage = model ->
     claude_tool_uses (Claude.content message) <> [] ->
     Claude.has_text (claude_text (Claude.content message)) = false ->
     exists toolCalls,
       fst (Claude.handleClaudeAssistantMessage message (front ++ [lastMessage])
              enableThinking actualModelName sessionId hasTools cache)
       = front ++ [ {| role := model; parts := parts lastMessage ++ toolCalls |} ] /\
       forallb is_call toolCalls = true /\
       calls_of toolCalls
       = map (fun use : jsstring * jsstring * option JsValue * option jsstring =>
                let '(id, name, input, _) := use in
                (id, sanitizeToolName name, claude_args input))
           (claude_tool_uses (Claude.content message))).
Proof.
  split.
  - intros. now apply openai_turn_merges.
  - intros. now apply claude_turn_merges.
Qed.

(** C3. Two assistant messages in a row, each with one tool call and no
    text, become one model message; its function-call parts are those of
    call A and call B, in this order. *)
Theorem consecutive_tool_call_turns_merge :
  (forall (m1 m2 : OpenAI.ChatMessage) A B enableThinking actualModelName sessionId hasTools
          cache,
     OpenAI.role m1 = OpenAI.RoleAssistant -> OpenAI.role m2 = OpenAI.RoleAssistant ->
     OpenAI.hasContent_of (OpenAI.content m1) = Normal false ->
     OpenAI.hasContent_of (OpenAI.content m2) = Normal false ->
     OpenAI.tool_calls m1 = [A] -> OpenAI.tool_calls m2 = [B] ->
     exists ps cache',
       OpenAI.openaiMessageToAntigravity [m1; m2] enableThinking actualModelName sessionId
         hasTools cache
       = Normal ([ {| role := model; parts := ps |} ], cache') /\
       calls_of ps
       = map (fun toolCall =>
                (OpenAI.tc_id toolCall, sanitizeToolName (OpenAI.tc_function_name toolCall),
                 match OpenAI.tc_function_arguments toolCall with
                 | inl s => QueryArgs s
                 | inr v => RawArgs v
                 end)) [A; B]) /\
  (forall (m1 m2 : Claude.ClaudeMessage) A B enableThinking actualModelName sessionId hasTools
          cache,
     Claude.role m1 = Claude.RoleAssistant -> Claude.role m2 = Claude.RoleAssistant ->
     Claude.has_text (claude_text (Claude.content m1)) = false ->
     Claude.has_text (claude_text (Claude.content m2)) = false ->
     claude_tool_uses (Claude.content m1) = [A] ->
     claude_tool_uses (Claude.content m2) = [B] ->
     exists ps,
       fst (Claude.claudeMessageToAntigravity [m1; m2] enableThinking actualModelName
              sessionId hasTools cache)
       = [ {| role := model; parts := ps |} ] /\
       calls_of ps
       = map (fun use : jsstring * jsstring * option JsValue * option jsstring =>
                let '(id, name, input, _) := use in
                (id, sanitizeToolName name, claude_args input)) [A; B]).
Proof.
  split.
  - intros m1 m2 A B enableThinking actualModelName sessionId hasTools cache
      Hrole1 Hrole2 Hcontent1 Hcontent2 HA HB.
    unfold OpenAI.openaiMessageToAntigravity, OpenAI.convert_messages, OpenAI.convert_message.
    rewrite Hrole1, Hrole2.
    destruct (handleAssistantMessage_normal m1 [] enableThinking actualModelName sessionId
                hasTools cache false Hcontent1) as [cache1 ->].
    rewrite pushModelMessage_fresh by reflexivity. rewrite app_nil_l.
    match goal with
    | |- context [OpenAI.handleAssistantMessage m2 [?m] _ _ _ _ ?c] =>
        destruct (openai_turn_merges m2 [] m enableThinking actualModelName sessionId
                    hasTools c eq_refl) as (toolCalls & cache2 & Hrun & _ & Hcalls);
          [now rewrite HB | exact Hcontent2 |]
    end.
    rewrite app_nil_l in Hrun. cbv beta iota. rewrite Hrun.
    eexists _, cache2. split; [reflexivity|].
    cbn [parts]. rewrite !calls_of_app, Hcalls, HA, HB.
    destruct enableThinking; [destruct (first_available (thought_candidates _ _ _ _))|];
      reflexivity.
  - intros m1 m2 A B enableThinking actualModelName sessionId hasTools cache
      Hrole1 Hrole2 Htext1 Htext2 HA HB.
    unfold Claude.claudeMessageToAntigravity. cbn [fold_left].
    unfold Claude.convert_message. rewrite Hrole1, Hrole2.
    destruct (handleClaudeAssistantMessage_unfold m1 [] enableThinking actualModelName
                sessionId hasTools cache) as [cache1 ->].
    rewrite pushModelMessage_fresh by reflexivity. rewrite app_nil_l.
    match goal with
    | |- context [Claude.handleClaudeAssistantMessage m2 [?m] _ _ _ _ ?c] =>
        destruct (claude_turn_merges m2 [] m enableThinking actualModelName sessionId
                    hasTools c eq_refl) as (toolCalls & Hrun & _ & Hcalls);
          [now rewrite HB | exact Htext2 |]
    end.
    rewrite app_nil_l in Hrun. rewrite Hrun.
    eexists. split; [reflexivity|].
    cbn [parts]. rewrite !calls_of_app, Hcalls, Htext1, HA, HB.
    destruct A as [[[idA nameA] inputA] sA].
    destruct enableThinking; [destruct (first_available (thought_candidates _ _ _ _))|];
      reflexivity.
Qed.

(** C1, amended. Without thinking an assistant message adds no thought
    part. With thinking, a message that [pushModelMessage] does not merge
    into the preceding model message adds exactly one thought part when a
    signature resolves, carrying that signature, and none when no
    signature resolves; a message that is merged adds no thought part. *)
Theorem thought_part_unless_merged :
  (forall (message : OpenAI.ChatMessage) before enableThinking actualModelName sessionId
          hasTools cache after cache',
     OpenAI.handleAssistantMessage message before enableThinking actualModelName sessionId
       hasTools cache = Normal (after, cache') ->
     exists emitted,
       all_parts after = all_parts before ++ emitted /\
       thought_signatures emitted =
         if enableThinking && negb (openai_merges before message)
         then match first_available
                      (thought_candidates (OpenAI.thoughtSignature message) sessionId
                         actualModelName hasTools) with
              | Some s => [Some s]
              | None => []
              end
         else []) /\
  (forall (message : Claude.ClaudeMessage) before enableThinking actualModelName sessionId
          hasTools cache,
     exists emitted,
       all_parts (fst (Claude.handleClaudeAssistantMessage message before enableThinking
                         actualModelName sessionId hasTools cache))
       = all_parts before ++ emitted /\
       thought_signatures emitted =
         if enableThinking && negb (claude_merges before message)
         then match first_available
                      (thought_candidates
                         (first_available (claude_thinking_signatures (Claude.content message)))
                         sessionId actualModelName hasTools) with
              | Some s => [Some s]
              | None => []
              end
         else []).
Proof.
  split.
  - intros message before enableThinking actualModelName sessionId hasTools cache after cache'
      Hrun.
    destruct (handleAssistantMessage_emitted _ _ _ _ _ _ _ _ _ Hrun)
      as (emitted & Hparts & Hthought & _).
    now exists emitted.
  - intros message before enableThinking actualModelName sessionId hasTools cache.
    destruct (handleClaudeAssistantMessage_emitted message before enableThinking
                actualModelName sessionId hasTools cache)
      as (emitted & Hparts & Hthought & _).
    now exists emitted.
Qed.

(** C2, amended. The signature of an emitted thought part is the first
    available of: the signature explicit on the message, the cached
    reasoning signature (if the cache may be read), the fallback reasoning
    signature (if the fallback may be used), and after these the cached and
    the fallback tool signature. The signature of an emitted function-call
    part is, with thinking enabled, the first available of: the signature
    explicit on the tool call, the cached tool signature, the fallback tool
    signature, after these in the chat protocol the signature explicit on
    the message, and last the cached and the fallback reasoning signature.
    Cached and fallback tool signatures are closed when the
    cache-only-tool-signatures switch is on and the request has no tools. *)
Theorem signature_precedence :
  (forall (message : OpenAI.ChatMessage) before enableThinking actualModelName sessionId
          hasTools cache after cache',
     OpenAI.handleAssistantMessage message before enableThinking actualModelName sessionId
       hasTools cache = Normal (after, cache') ->
     exists emitted,
       all_parts after = all_parts before ++ emitted /\
       Forall (fun s => s = first_available
                              (thought_candidates (OpenAI.thoughtSignature message) sessionId
                                 actualModelName hasTools))
         (thought_signatures emitted) /\
       call_signatures emitted =
         map (fun toolCall =>
                if enableThinking
                then first_available
                       (openai_call_candidates message toolCall sessionId actualModelName
                          hasTools)
                else None) (OpenAI.tool_calls message)) /\
  (forall (message : Claude.ClaudeMessage) before enableThinking actualModelName sessionId
          hasTools cache,
     exists emitted,
       all_parts (fst (Claude.handleClaudeAssistantMessage message before enableThinking
                         actualModelName sessionId hasTools cache))
       = all_parts before ++ emitted /\
       Forall (fun s => s = first_available
                              (thought_candidates
                                 (first_available
                                    (claude_thinking_signatures (Claude.content message)))
                                 sessionId actualModelName hasTools))
         (thought_signatures emitted) /\
       call_signatures emitted =
         map (fun use : jsstring * jsstring * option JsValue * option jsstring =>
                if enableThinking
                then first_available
                       (claude_call_candidates (snd use) sessionId actualModelName hasTools)
                else None) (claude_tool_uses (Claude.content message))) /\
  (forall sessionId actualModelName,
     cacheOnlyToolSignatures config = true ->
     tool_candidates sessionId actualModelName false = [None; None] /\
     toolSignature (getSignatureContext sessionId actualModelName false) = None).
Proof.
  assert (Hall : forall (cond : bool) (candidates : list (option jsstring)),
            Forall (fun s => s = first_available candidates)
              (if cond
               then match first_available candidates with
                    | Some s => [Some s]
                    | None => []
                    end
               else [])).
  { intros cond candidates. destruct cond; [|constructor].
    destruct (first_available candidates); repeat constructor. }
  split; [|split].
  - intros message before enableThinking actualModelName sessionId hasTools cache after cache'
      Hrun.
    destruct (handleAssistantMessage_emitted _ _ _ _ _ _ _ _ _ Hrun)
      as (emitted & Hparts & Hthought & Hsignatures & _).
    exists emitted. rewrite Hthought. auto.
  - intros message before enableThinking actualModelName sessionId hasTools cache.
    destruct (handleClaudeAssistantMessage_emitted message before enableThinking
                actualModelName sessionId hasTools cache)
      as (emitted & Hparts & Hthought & Hsignatures & _).
    exists emitted. rewrite Hthought. auto.
  - intros sessionId actualModelName Hswitch.
    assert (Hclosed : tool_candidates sessionId actualModelName false = [None; None]).
    { unfold tool_candidates, tool_gate. rewrite Hswitch. simpl. now rewrite !andb_false_r. }
    split; [exact Hclosed|].
    rewrite context_toolSignature, Hclosed. reflexivity.
Qed.

End AssistantTurns.

(** ** Whole conversations without thinking *)

Section WithoutThinking.
Context `{JsRuntime} `{Collaborators}.

Lemma openai_images_no_calls content :
  call_signatures (extracted_images (OpenAI.extractImagesFromContent content)) = [].
Proof.
  destruct content as [s|items|]; try reflexivity. unfold OpenAI.extractImagesFromContent.
  assert (Hfold : forall (acc : Extracted JsValue OpenAI.Content),
            call_signatures (extracted_images acc) = [] ->
            call_signatures (extracted_images (fold_left OpenAI.extract_item items acc)) = []).
  { induction items as [|item items IH]; intros acc Hacc; [exact Hacc|].
    cbn [fold_left]. apply IH. destruct item as [t|url|]; simpl; try exact Hacc.
    destruct (OpenAI.match_data_uri _) as [[format data]|]; simpl; [|exact Hacc].
    now rewrite call_signatures_app, Hacc. }
  now apply Hfold.
Qed.

Lemma claude_images_no_calls content :
  call_signatures (extracted_images (Claude.extractImagesFromClaudeContent content)) = [].
Proof.
  destruct content as [s|items|]; try reflexivity.
  unfold Claude.extractImagesFromClaudeContent.
  assert (Hfold : forall (acc : Extracted JsValue jsstring),
            call_signatures (extracted_images acc) = [] ->
            call_signatures (extracted_images (fold_left Claude.extract_block items acc)) = []).
  { induction items as [|item items IH]; intros acc Hacc; [exact Hacc|].
    cbn [fold_left]. apply IH. destruct item as [t|s|id name input s|id c|[source|]|];
      simpl; try exact Hacc.
    destruct (_ && _); simpl; [|exact Hacc].
    now rewrite call_signatures_app, Hacc. }
  now apply Hfold.
Qed.

Lemma all_none_app (l1 l2 : list (option jsstring)) :
  Forall (fun s => s = None) l1 -> Forall (fun s => s = None) l2 ->
  Forall (fun s => s = None) (l1 ++ l2).
Proof. intros. now apply Forall_app. Qed.

Lemma all_none_map {A} (l : list A) :
  Forall (fun s : option jsstring => s = None) (map (fun _ => None) l).
Proof. induction l; now constructor. Qed.

(** One message of the chat protocol keeps the conversation free of
    signed function calls. *)
Lemma openai_step_unsigned message actualModelName sessionId hasTools
    (state state' : list OpenAI.CanonicalMessage * list ToolNameMapping) :
  OpenAI.convert_message false actualModelName sessionId hasTools message state
    = Normal state' ->
  Forall (fun s => s = None) (call_signatures (all_parts (fst state))) ->
  Forall (fun s => s = None) (call_signatures (all_parts (fst state'))).
Proof.
  destruct state as [before cache]. unfold OpenAI.convert_message. cbn [fst].
  intros Hstep Hbefore.
  destruct (OpenAI.role message).
  - apply Normal_inj in Hstep as <-. cbn [fst].
    rewrite pushUserMessage_all_parts, call_signatures_app. apply all_none_app; [exact Hbefore|].
    simpl. rewrite openai_images_no_calls. constructor.
  - apply Normal_inj in Hstep as <-. cbn [fst].
    rewrite pushUserMessage_all_parts, call_signatures_app. apply all_none_app; [exact Hbefore|].
    simpl. rewrite openai_images_no_calls. constructor.
  - destruct state' as [after cache'].
    destruct (handleAssistantMessage_emitted _ _ _ _ _ _ _ _ _ Hstep)
      as (emitted & Hparts & _ & Hsignatures & _).
    cbn [fst]. rewrite Hparts, call_signatures_app, Hsignatures.
    apply all_none_app; [exact Hbefore | apply all_none_map].
  - apply Normal_inj in Hstep as <-. cbn [fst]. unfold OpenAI.handleToolCall.
    rewrite pushFunctionResponse_all_parts, call_signatures_app.
    apply all_none_app; [exact Hbefore | constructor].
  - apply Normal_inj in Hstep as <-. exact Hbefore.
Qed.

Lemma claude_results_unsigned items (before : list Claude.CanonicalMessage) :
  Forall (fun s => s = None) (call_signatures (all_parts before)) ->
  Forall (fun s => s = None)
    (call_signatures (all_parts (fold_left Claude.handle_result_block items before))).
Proof.
  revert before. induction items as [|item items IH]; intros before Hbefore; [exact Hbefore|].
  cbn [fold_left]. apply IH. destruct item; simpl; try exact Hbefore.
  rewrite pushFunctionResponse_all_parts, call_signatures_app.
  apply all_none_app; [exact Hbefore | constructor].
Qed.

Lemma claude_step_unsigned message actualModelName sessionId hasTools
    (state : list Claude.CanonicalMessage * list ToolNameMapping) :
  Forall (fun s => s = None) (call_signatures (all_parts (fst state))) ->
  Forall (fun s => s = None)
    (call_signatures
       (all_parts (fst (Claude.convert_message false actualModelName sessionId hasTools
                          state message)))).
Proof.
  destruct state as [before cache]. unfold Claude.convert_message. cbn [fst].
  intros Hbefore.
  assert (Huser : Forall (fun s => s = None)
                    (call_signatures
                       (all_parts (pushUserMessage
                                     (Claude.extractImagesFromClaudeContent
                                        (Claude.content message)) before)))).
  { rewrite pushUserMessage_all_parts, call_signatures_app.
    apply all_none_app; [exact Hbefore|]. simpl. rewrite claude_images_no_calls. constructor. }
  destruct (Claude.role message).
  - destruct (Claude.content message) as [s|items|] eqn:Hcontent; try exact Huser.
    destruct (existsb Claude.is_tool_result items); [|exact Huser].
    cbn [fst]. unfold Claude.handleClaudeToolResult. rewrite Hcontent.
    now apply claude_results_unsigned.
  - destruct (handleClaudeAssistantMessage_emitted message before false actualModelName
                sessionId hasTools cache) as (emitted & Hparts & _ & Hsignatures & _).
    rewrite Hparts, call_signatures_app, Hsignatures.
    apply all_none_app; [exact Hbefore | apply all_none_map].
  - exact Hbefore.
Qed.

(** C9. With thinking disabled no function-call part of an encoded
    conversation has a signature, whatever the cache and the fallback table
    hold: a signature on a function-call part requires thinking to be
    enabled. *)
Theorem call_signature_requires_thinking :
  (forall (openaiMessages : list OpenAI.ChatMessage) actualModelName sessionId hasTools cache
          contents cache',
     OpenAI.openaiMessageToAntigravity openaiMessages false actualModelName sessionId
       hasTools cache = Normal (contents, cache') ->
     Forall (fun s => s = None) (call_signatures (all_parts contents))) /\
  (forall (claudeMessages : list Claude.ClaudeMessage) actualModelName sessionId hasTools cache,
     Forall (fun s => s = None)
       (call_signatures
          (all_parts (fst (Claude.claudeMessageToAntigravity claudeMessages false
                             actualModelName sessionId hasTools cache))))).
Proof.
  split.
  - intros openaiMessages actualModelName sessionId hasTools cache contents cache'.
    unfold OpenAI.openaiMessageToAntigravity.
    assert (Hloop : forall state state',
              OpenAI.convert_messages false actualModelName sessionId hasTools openaiMessages
                state = Normal state' ->
              Forall (fun s => s = None) (call_signatures (all_parts (fst state))) ->
              Forall (fun s => s = None) (call_signatures (all_parts (fst state')))).
    { induction openaiMessages as [|message rest IH]; intros state state' Hrun Hstate.
      - apply Normal_inj in Hrun as <-. exact Hstate.
      - cbn [OpenAI.convert_messages] in Hrun.
        destruct (OpenAI.convert_message false actualModelName sessionId hasTools message state)
          as [state1|e] eqn:Hstep; [|discriminate].
        apply (IH state1 state' Hrun). now apply (openai_step_unsigned _ _ _ _ _ _ Hstep). }
    intros Hrun. apply (Hloop _ _ Hrun). constructor.
  - intros claudeMessages actualModelName sessionId hasTools cache.
    unfold Claude.claudeMessageToAntigravity.
    assert (Hloop : forall state,
              Forall (fun s => s = None) (call_signatures (all_parts (fst state))) ->
              Forall (fun s => s = None)
                (call_signatures
                   (all_parts (fst (fold_left
                                      (Claude.convert_message false actualModelName sessionId
                                         hasTools) claudeMessages state))))).
    { induction claudeMessages as [|message rest IH]; intros state Hstate; [exact Hstate|].
      cbn [fold_left]. apply IH. now apply claude_step_unsigned. }
    apply Hloop. constructor.
Qed.

End WithoutThinking.

(** ** The converter properties on a concrete conversation *)

Section ConverterExamples.
#[local] Existing Instance Demo.runtime.
#[local] Existing Instance Demo.stocked.

(** An instance of C10: turn B arrives after a model message. *)
Lemma merge_appends_tool_calls_only_witness :
  role (Demo.earlier_answer (Output := OpenAI.Content)) = model /\
  OpenAI.tool_calls Demo.turn_B <> [] /\
  OpenAI.hasContent_of (OpenAI.content Demo.turn_B) = Normal false /\
  exists toolCalls cache',
    OpenAI.handleAssistantMessage Demo.turn_B ([] ++ [Demo.earlier_answer]) true (lit "m")
      (lit "s") false []
    = Normal ([] ++ [ {| role := model;
                         parts := parts Demo.earlier_answer ++ toolCalls |} ], cache') /\
    forallb is_call toolCalls = true /\
    calls_of toolCalls
    = map (fun toolCall =>
             (OpenAI.tc_id toolCall, sanitizeToolName (OpenAI.tc_function_name toolCall),
              match OpenAI.tc_function_arguments toolCall with
              | inl s => QueryArgs s
              | inr v => RawArgs v
              end)) (OpenAI.tool_calls Demo.turn_B).
Proof.
  assert (Hcalls : OpenAI.tool_calls Demo.turn_B <> []) by discriminate.
  split; [reflexivity | split; [exact Hcalls | split; [reflexivity|]]].
  exact (proj1 merge_appends_tool_calls_only Demo.turn_B [] Demo.earlier_answer true (lit "m")
           (lit "s") false [] eq_refl Hcalls eq_refl).
Defined.

(** An instance of C3: turn A, then turn B. *)
Lemma consecutive_tool_call_turns_merge_witness :
  OpenAI.role Demo.turn_A = OpenAI.RoleAssistant /\
  OpenAI.role Demo.turn_B = OpenAI.RoleAssistant /\
  OpenAI.hasContent_of (OpenAI.content Demo.turn_A) = Normal false /\
  OpenAI.hasContent_of (OpenAI.content Demo.turn_B) = Normal false /\
  OpenAI.tool_calls Demo.turn_A = [Demo.call_A] /\
  OpenAI.tool_calls Demo.turn_B = [Demo.call_B] /\
  exists ps cache',
    OpenAI.openaiMessageToAntigravity [Demo.turn_A; Demo.turn_B] true (lit "m") (lit "s")
      false []
    = Normal ([ {| role := model; parts := ps |} ], cache') /\
    calls_of ps
    = map (fun toolCall =>
             (OpenAI.tc_id toolCall, sanitizeToolName (OpenAI.tc_function_name toolCall),
              match OpenAI.tc_function_arguments toolCall with
              | inl s => QueryArgs s
              | inr v => RawArgs v
              end)) [Demo.call_A; Demo.call_B].
Proof.
  repeat (split; [reflexivity|]).
  exact (proj1 consecutive_tool_call_turns_merge Demo.turn_A Demo.turn_B Demo.call_A
           Demo.call_B true (lit "m") (lit "s") false [] eq_refl eq_refl eq_refl eq_refl
           eq_refl eq_refl).
Defined.

(** An instance of C1: an assistant turn with text opens a model message
    with one thought part, signed with the cached reasoning signature. *)
Lemma thought_part_unless_merged_witness :
  exists after cache',
    OpenAI.handleAssistantMessage Demo.turn_text [] true (lit "m") (lit "s") false []
    = Normal (after, cache') /\
    exists emitted,
      all_parts after = all_parts [] ++ emitted /\
      thought_signatures emitted = [Some (lit "R")].
Proof.
  eexists _, _. split; [vm_compute; reflexivity|].
  exact (proj1 thought_part_unless_merged Demo.turn_text [] true (lit "m") (lit "s") false []
           _ _ eq_refl).
Defined.

(** C1 as the specification states it fails: turn B has a signature of its
    own and thinking is enabled, yet after a model message it is merged and
    no thought part is added. *)
Lemma merged_turn_adds_no_thought_part : ~ thought_part_for_every_turn.
Proof.
  intros Hclaim.
  destruct (Hclaim Demo.turn_B [Demo.earlier_answer] true (lit "m") (lit "s") false [] _ _
              eq_refl) as (emitted & Hparts & Hthought).
  vm_compute in Hparts. injection Hparts as <-. vm_compute in Hthought. discriminate.
Qed.

(** C2 as the specification states it fails: the assistant turn has the
    signature M of its own and an unsigned tool call; with the tool
    signature T in the cache, the function-call part is signed T, a cached
    signature, and not M, the explicit one. *)
Lemma cached_tool_signature_precedes_message_signature : ~ precedence_as_specified.
Proof.
  intros Hclaim.
  destruct (Hclaim Demo.turn_signed [] (lit "m") (lit "s") false [] _ _ eq_refl)
    as (emitted & Hparts & _ & Hcalls).
  vm_compute in Hparts. subst emitted.
  vm_compute in Hcalls. inversion Hcalls as [|toolCall chosen rest1 rest2 Hchosen _]; subst.
  destruct Hchosen as [_ [Hin | [Hin | []]]]; discriminate.
Qed.

(** The stated precedence fails for thought parts as well: with no
    reasoning signature in the cache, the thought part of a turn without a
    signature of its own is signed FR, the fallback reasoning signature,
    and not T, the tool signature in the cache. *)
Lemma fallback_reasoning_precedes_cached_tool_signature :
  ~ @precedence_as_specified Demo.runtime Demo.no_cached_reasoning.
Proof.
  intros Hclaim.
  destruct (Hclaim Demo.turn_text [] (lit "m") (lit "s") false [] _ _ eq_refl)
    as (emitted & Hparts & Hthought & _).
  vm_compute in Hparts. subst emitted.
  vm_compute in Hthought. apply Forall_inv in Hthought.
  destruct Hthought as [_ [Hin | [Hin | []]]]; discriminate.
Qed.

(** An instance of C2: the parts of turn B. *)
Lemma signature_precedence_witness :
  exists after cache',
    OpenAI.handleAssistantMessage Demo.turn_B [] true (lit "m") (lit "s") false []
    = Normal (after, cache') /\
    exists emitted,
      all_parts after = all_parts [] ++ emitted /\
      Forall (fun s => s = Some (lit "M")) (thought_signatures emitted) /\
      call_signatures emitted = [Some (lit "X")].
Proof.
  eexists _, _. split; [vm_compute; reflexivity|].
  exact (proj1 signature_precedence Demo.turn_B [] true (lit "m") (lit "s") false [] _ _
           eq_refl).
Defined.

(** An instance of C9: the two turns, some text and the result of call A,
    encoded without thinking. *)
Lemma call_signature_requires_thinking_witness :
  exists contents cache',
    OpenAI.openaiMessageToAntigravity
      [Demo.turn_A; Demo.turn_B; Demo.turn_text; Demo.result_A] false (lit "m") (lit "s")
      true []
    = Normal (contents, cache') /\
    Forall (fun s => s = None) (call_signatures (all_parts contents)).
Proof.
  eexists _, _. split; [vm_compute; reflexivity|].
  exact (proj1 call_signature_requires_thinking
           [Demo.turn_A; Demo.turn_B; Demo.turn_text; Demo.result_A] (lit "m") (lit "s") true
           [] _ _ eq_refl).
Defined.

End ConverterExamples.

(** ** Upstream errors *)

Section UpstreamErrors.
Context `{ApiClient.Upstream}.

(** C5. For an upstream error with status 403: if the body has the marker
    of a caller without permission, the context-too-large error is thrown
    and the token is not disabled; otherwise the token is disabled exactly
    once and the account-disabled error is thrown. Either error carries
    the status 403 and the error body as read, and the two errors differ. *)
Theorem forbidden_upstream_error (error : ApiClient.RequestFailure) (token : ApiClient.Token)
    (dumpId : option ApiClient.DumpId) (effects : ApiClient.Effects) :
  ApiClient.getUpstreamStatus error = Some 403%Z ->
  let errorBody := ApiClient.readUpstreamErrorBody error in
  let thrown := fst (ApiClient.handleApiError error token dumpId effects) in
  let effects' := snd (ApiClient.handleApiError error token dumpId effects) in
  ApiClient.status thrown = Some 403%Z /\
  ApiClient.body thrown = errorBody /\
  (if ApiClient.isCallerDoesNotHavePermission errorBody
   then ApiClient.message thrown
          = ApiClient.CONTEXT_TOO_LARGE ++ ApiClient.body_text errorBody /\
        ApiClient.disabledTokens effects' = ApiClient.disabledTokens effects
   else ApiClient.message thrown
          = ApiClient.ACCOUNT_DISABLED ++ ApiClient.body_text errorBody /\
        ApiClient.disabledTokens effects' = ApiClient.disabledTokens effects ++ [token]) /\
  (forall text1 text2,
     ApiClient.CONTEXT_TOO_LARGE ++ text1 <> ApiClient.ACCOUNT_DISABLED ++ text2).
Proof.
  intros Hstatus errorBody thrown effects'. subst errorBody thrown effects'.
  unfold ApiClient.handleApiError. rewrite Hstatus.
  destruct (ApiClient.isCallerDoesNotHavePermission _).
  - repeat split; try (now destruct dumpId); try (intros text1 text2; discriminate).
  - repeat split; try (now destruct dumpId); try (intros text1 text2; discriminate).
Qed.

End UpstreamErrors.

(** An instance of C5: a 403 without the marker disables token 7. *)
Lemma forbidden_upstream_error_witness :
  @ApiClient.getUpstreamStatus Demo.upstream (Some 403%Z, lit "quota") = Some 403%Z /\
  ApiClient.message
    (fst (@ApiClient.handleApiError Demo.upstream (Some 403%Z, lit "quota") 7%nat None
            {| ApiClient.disabledTokens := []; ApiClient.rawResponseDumps := [] |}))
  = ApiClient.ACCOUNT_DISABLED ++ lit "quota" /\
  ApiClient.disabledTokens
    (snd (@ApiClient.handleApiError Demo.upstream (Some 403%Z, lit "quota") 7%nat None
            {| ApiClient.disabledTokens := []; ApiClient.rawResponseDumps := [] |}))
  = [7%nat].
Proof.
  split; [reflexivity|].
  exact (proj1 (proj2 (proj2 (@forbidden_upstream_error Demo.upstream
                                 (Some 403%Z, lit "quota") 7%nat None
                                 {| ApiClient.disabledTokens := [];
                                    ApiClient.rawResponseDumps := [] |} eq_refl)))).
Defined.

(** ** The close handler *)

Section Closing.
Context `{JsRuntime} `{Requester.Zlib}.


(** The close handler on a parser state whose headers declare a gzip body,
    when the body chunks of the state do not inflate: the failure is logged
    and the text of the chunks is the body. *)
Lemma close_after_failed_inflation (cfg : Requester.RequestConfig) (st : Requester.Parser)
    (stderrData encoding gzipErr : jsstring) :
  Requester.skipGzipDecompress cfg = false ->
  Requester.responseHeaders st !! lit "content-encoding" = Some encoding ->
  includes (toLowerCase encoding) (lit "gzip") = true ->
  Requester.gunzip (concat (Requester.bodyChunks st)) = inr gzipErr ->
  let body := toString (concat (Requester.bodyChunks st)) in
  let closed := Requester.on_close cfg st stderrData (Some 0%Z) in
  exists r,
    response_of (Requester.settlement closed) = Some r /\
    Requester.data r
    = match Requester.responseType cfg with
      | Requester.json =>
          match JSON_parse body with
          | Some v => Requester.JsonData v
          | None => Requester.TextData body
          end
      | Requester.text => Requester.TextData body
      end /\
    (Requester.validateStatus cfg (Requester.responseStatus st) = true ->
     Requester.settlement closed = Requester.Resolved r) /\
    Requester.console_warn closed
    = [(lit "Gzip decompression failed, using raw data:", gzipErr)].
Proof.
  intros Hskip Hheader Hgzip Hinflate body closed. subst body closed.
  unfold Requester.on_close, Requester.close_succeeded. unfold jsstring in *.
  rewrite Hskip, Hheader, Hgzip, Hinflate. cbn [negb andb].
  eexists. cbn [Requester.settlement Requester.console_warn].
  destruct (Requester.validateStatus cfg (Requester.responseStatus st));
    cbn [response_of Requester.response]; repeat split.
  discriminate.
Qed.

End Closing.

(** ** The close handler on concrete responses *)

Section TransportExamples.
#[local] Existing Instance Demo.runtime.
#[local] Existing Instance Demo.zlib.




(** C4 at a failing input. The response is the plain head followed by the
    two bytes of the letter U+00E9. Fed whole, the body is that letter; fed
    in two chunks that split the letter, the body is U+FFFD U+FFFD. *)
Theorem split_inside_character_changes_body :
  let whole := Demo.plain_head ++ [xc3; xa9] in
  let offset := S (length Demo.plain_head) in
  Requester.data <$>
    response_of (Requester.settlement
                   (Requester.on_close Demo.buffered (Requester.feed [whole]) [] (Some 0%Z)))
  = Some (Requester.TextData [0xE9]) /\
  Requester.data <$>
    response_of (Requester.settlement
                   (Requester.on_close Demo.buffered
                      (Requester.feed [take offset whole; drop offset whole]) []
                      (Some 0%Z)))
  = Some (Requester.TextData [0xFFFD; 0xFFFD]).
Proof. split; vm_compute; reflexivity. Qed.

End TransportExamples.

(** ** Chunked delivery of a response of ASCII bytes *)

Section AsciiResponses.

Local Abbreviation ascii_bytes bs := (Forall (fun b => is_ascii b = true) bs).

Lemma toString_ascii bs : ascii_bytes bs -> toString bs = map Byte.to_N bs.
Proof.
  unfold toString. induction 1 as [|b bs Hb _ IH]; [reflexivity|].
  cbn [decode_from idle needed map]. unfold is_ascii in Hb. apply N.ltb_lt in Hb.
  unfold decode_lead. destruct (N.leb_spec (Byte.to_N b) 0x7F) as [_|Hbig]; [|lia].
  cbn [app]. f_equal. exact IH.
Qed.

Lemma byte_of_to_N b : byte_of (Byte.to_N b) = b.
Proof.
  unfold byte_of. pose proof (Byte.to_N_bounded b) as Hbound.
  rewrite N.mod_small by lia. now rewrite Byte.of_to_N.
Qed.

Lemma bufferFrom_ascii bs : ascii_bytes bs -> bufferFrom (map Byte.to_N bs) = bs.
Proof.
  induction 1 as [|b bs Hb _ IH]; [reflexivity|].
  cbn [map bufferFrom]. unfold is_ascii in Hb. apply N.ltb_lt in Hb.
  unfold is_high_surrogate, is_low_surrogate, encode_code_point.
  destruct (N.leb_spec 0xD800 (Byte.to_N b)) as [Hbig|_]; [lia|].
  destruct (N.leb_spec 0xDC00 (Byte.to_N b)) as [Hbig|_]; [lia|].
  destruct (N.ltb_spec (Byte.to_N b) 0x80) as [_|Hbig]; [|lia].
  cbn [andb app]. rewrite byte_of_to_N. f_equal. exact IH.
Qed.

Lemma startsWith_app s t pat : startsWith s pat = true -> startsWith (s ++ t) pat = true.
Proof.
  revert s. induction pat as [|p pat IH]; intros [|c s]; simpl; try easy.
  - intros _. now destruct t.
  - destruct (p =? c); [apply IH | easy].
Qed.

Lemma startsWith_app_long s t pat :
  (length pat <= length s)%nat -> startsWith (s ++ t) pat = startsWith s pat.
Proof.
  revert s. induction pat as [|p pat IH]; intros [|c s]; simpl; try easy.
  - intros _. now destruct t.
  - intros Hlen. rewrite IH by lia. reflexivity.
Qed.

Lemma startsWith_length s pat : startsWith s pat = true -> (length pat <= length s)%nat.
Proof.
  revert s. induction pat as [|p pat IH]; intros [|c s]; simpl; try easy; try lia.
  destruct (p =? c); [|easy]. intros Hrest. apply IH in Hrest. lia.
Qed.

Lemma indexOf_bound s pat i : indexOf s pat = Some i -> (i + length pat <= length s)%nat.
Proof.
  revert i. induction s as [|c s IH]; intros i; cbn [indexOf].
  - destruct (startsWith [] pat) eqn:Hstart; [|discriminate].
    intros [= <-]. now apply startsWith_length in Hstart.
  - destruct (startsWith (c :: s) pat) eqn:Hstart.
    + intros [= <-]. now apply startsWith_length in Hstart.
    + destruct (indexOf s pat) as [j|]; [|discriminate].
      intros [= <-]. specialize (IH j eq_refl). simpl. lia.
Qed.

(** The first occurrence in a text is the first occurrence in every
    extension of the text. *)
Lemma indexOf_app s t pat i : indexOf s pat = Some i -> indexOf (s ++ t) pat = Some i.
Proof.
  revert i. induction s as [|c s IH]; intros i; cbn [indexOf].
  - destruct (startsWith [] pat) eqn:Hstart; [|discriminate].
    intros [= <-]. destruct pat; [|discriminate]. now destruct t.
  - destruct (startsWith (c :: s) pat) eqn:Hstart.
    + intros [= <-]. cbn [app indexOf].
      change (c :: s ++ t) with ((c :: s) ++ t).
      now rewrite (startsWith_app (c :: s) t pat Hstart).
    + destruct (indexOf s pat) as [j|] eqn:Hj; [|discriminate].
      intros [= <-]. cbn [app indexOf].
      pose proof (indexOf_bound s pat j Hj) as Hbound.
      change (c :: s ++ t) with ((c :: s) ++ t).
      rewrite startsWith_app_long by (simpl; lia).
      rewrite Hstart. cbn [app]. now rewrite (IH j eq_refl).
Qed.

Lemma concat_snoc {A} (ls : list (list A)) (l : list A) : concat (ls ++ [l]) = concat ls ++ l.
Proof. rewrite concat_app. simpl. now rewrite app_nil_r. Qed.

(** The parser is indifferent to how a response of ASCII bytes is cut in
    two: status, status text, headers and body bytes are those of the
    response fed whole. *)
Theorem ascii_response_split_law (whole : list byte) (offset : nat) :
  ascii_bytes whole ->
  parsed (Requester.feed [take offset whole; drop offset whole])
  = parsed (Requester.feed [whole]).
Proof.
  intros Hascii. rewrite <- (take_drop offset whole) in Hascii |- * at 3.
  apply Forall_app in Hascii as [Hascii1 Hascii2].
  set (c1 := take offset whole) in *. set (c2 := drop offset whole) in *.
  clearbody c1 c2. clear whole offset.
  unfold Requester.feed. cbn [fold_left].
  assert (Hwhole : toString (c1 ++ c2) = toString c1 ++ toString c2).
  { rewrite !toString_ascii by (try apply Forall_app; auto). apply map_app. }
  unfold Requester.on_data at 2 3. cbn [Requester.headersParsed Requester.start
    Requester.headerBuffer app]. rewrite Hwhole.
  destruct (indexOf (toString c1) Requester.CRLFCRLF) as [i|] eqn:Hfound.
  - rewrite (indexOf_app _ (toString c2) _ _ Hfound).
    pose proof (indexOf_bound _ _ _ Hfound) as Hbound. cbn [length Requester.CRLFCRLF] in Hbound.
    rewrite take_app_le, drop_app_le by lia.
    unfold Requester.on_data. cbn [Requester.headersParsed]. unfold parsed.
    cbn [Requester.responseStatus Requester.responseStatusText Requester.responseHeaders
         Requester.bodyChunks Requester.start]. f_equal.
    rewrite concat_snoc, app_nil_l.
    rewrite !toString_ascii by assumption. rewrite !skipn_map, <- map_app.
    assert (ascii_bytes (drop (i + 4) c1)) as Htail by now apply Forall_drop.
    rewrite (bufferFrom_ascii (drop (i + 4) c1 ++ c2)) by (apply Forall_app; auto).
    rewrite (bufferFrom_ascii (drop (i + 4) c1)) by assumption.
    destruct (drop (i + 4) c1) as [|b rest].
    + cbn [map app concat]. destruct c2; [reflexivity|]. cbn [map concat app].
      now rewrite app_nil_r.
    + cbn [map app concat]. now rewrite !app_nil_r.
  - unfold Requester.on_data. cbn [Requester.headersParsed Requester.headerBuffer
      Requester.responseHeaders Requester.responseStatus Requester.responseStatusText
      Requester.bodyChunks Requester.totalLoaded Requester.start app]. reflexivity.
Qed.

End AsciiResponses.

(** An instance of the law: a plain response cut inside its status line. *)
Lemma ascii_response_split_law_witness :
  Forall (fun b => is_ascii b = true) (Demo.plain_head ++ list_byte_of_string "hello") /\
  parsed (Requester.feed [take 7 (Demo.plain_head ++ list_byte_of_string "hello");
                          drop 7 (Demo.plain_head ++ list_byte_of_string "hello")])
  = parsed (Requester.feed [Demo.plain_head ++ list_byte_of_string "hello"]).
Proof.
  assert (Hascii : Forall (fun b => is_ascii b = true)
                     (Demo.plain_head ++ list_byte_of_string "hello")).
  { apply Forall_forall. intros b Hb. apply list_elem_of_In in Hb.
    revert b Hb. apply forallb_forall. vm_compute. reflexivity. }
  split; [exact Hascii|].
  exact (ascii_response_split_law _ 7 Hascii).
Defined.

(** ** Further properties of the converters *)

Section FurtherProperties.
Context `{JsRuntime} `{Collaborators}.

Lemma signed_or_absent (cond : bool) candidates :
  Forall (fun s => truthy s = true)
    (if cond
     then match first_available candidates with
          | Some s => [Some s]
          | None => []
          end
     else []).
Proof.
  destruct cond; [|constructor].
  destruct (first_available_truthy candidates) as [Hnone | Htruthy].
  - rewrite Hnone. constructor.
  - destruct (first_available candidates); repeat constructor. exact Htruthy.
Qed.

(** Every thought part an assistant message adds has a signature that is
    a non-empty string. *)
Theorem thought_parts_are_signed :
  (forall (message : OpenAI.ChatMessage) before enableThinking actualModelName sessionId
          hasTools cache after cache',
     OpenAI.handleAssistantMessage message before enableThinking actualModelName sessionId
       hasTools cache = Normal (after, cache') ->
     exists emitted,
       all_parts after = all_parts before ++ emitted /\
       Forall (fun s => truthy s = true) (thought_signatures emitted)) /\
  (forall (message : Claude.ClaudeMessage) before enableThinking actualModelName sessionId
          hasTools cache,
     exists emitted,
       all_parts (fst (Claude.handleClaudeAssistantMessage message before enableThinking
                         actualModelName sessionId hasTools cache))
       = all_parts before ++ emitted /\
       Forall (fun s => truthy s = true) (thought_signatures emitted)).
Proof.
  split.
  - intros message before enableThinking actualModelName sessionId hasTools cache after cache'
      Hrun.
    destruct (handleAssistantMessage_emitted _ _ _ _ _ _ _ _ _ Hrun)
      as (emitted & Hparts & Hthought & _).
    exists emitted. split; [exact Hparts|]. rewrite Hthought. apply signed_or_absent.
  - intros message before enableThinking actualModelName sessionId hasTools cache.
    destruct (handleClaudeAssistantMessage_emitted message before enableThinking
                actualModelName sessionId hasTools cache)
      as (emitted & Hparts & Hthought & _).
    exists emitted. split; [exact Hparts|]. rewrite Hthought. apply signed_or_absent.
Qed.

(** With the cache and the fallback both switched off, an assistant
    message of the chat protocol without a signature of its own adds no
    thought part, with thinking enabled or not. *)
Theorem no_signature_no_thought_part (message : OpenAI.ChatMessage) before enableThinking
    actualModelName sessionId hasTools cache after cache' :
  useCachedSignature config = false ->
  useFallbackSignature config = false ->
  truthy (OpenAI.thoughtSignature message) = false ->
  OpenAI.handleAssistantMessage message before enableThinking actualModelName sessionId
    hasTools cache = Normal (after, cache') ->
  exists emitted,
    all_parts after = all_parts before ++ emitted /\ thought_signatures emitted = [].
Proof.
  intros Hcache Hfallback Hexplicit Hrun.
  destruct (handleAssistantMessage_emitted _ _ _ _ _ _ _ _ _ Hrun)
    as (emitted & Hparts & Hthought & _).
  exists emitted. split; [exact Hparts|]. rewrite Hthought.
  unfold thought_candidates, reasoning_candidates, tool_candidates.
  rewrite Hcache, Hfallback. cbn [app andb allowed].
  rewrite first_available_cons, Hexplicit.
  now destruct (enableThinking && _).
Qed.

(** Two tool results in a row end up in one user message, the second
    after the first. *)
Theorem consecutive_tool_results_share_a_message {Raw Output : Type}
    (msgs : list (Message Raw Output)) id1 name1 (output1 : Output) id2 name2
    (output2 : Output) :
  exists front ps,
    pushFunctionResponse id2 name2 output2 (pushFunctionResponse id1 name1 output1 msgs)
    = front ++ [ {| role := user;
                    parts := ps ++ [FunctionResponsePart id1 name1 output1;
                                    FunctionResponsePart id2 name2 output2] |} ].
Proof.
  assert (Hsecond : forall (front : list (Message Raw Output)) (ps : list (Part Raw Output)),
            pushFunctionResponse id2 name2 output2
              (front ++ [ {| role := user;
                             parts := ps ++ [FunctionResponsePart id1 name1 output1] |} ])
            = front ++ [ {| role := user;
                            parts := ps ++ [FunctionResponsePart id1 name1 output1;
                                            FunctionResponsePart id2 name2 output2] |} ]).
  { intros front ps. unfold pushFunctionResponse. rewrite last_snoc, removelast_last.
    cbn [role parts is_user andb]. rewrite existsb_app. cbn [existsb is_functionResponse].
    rewrite orb_true_r. now rewrite <- app_assoc. }
  unfold pushFunctionResponse at 2.
  destruct (last msgs) as [lastMessage|] eqn:Hlast.
  - destruct (is_user (role lastMessage) && existsb is_functionResponse (parts lastMessage))
      eqn:Hmerge.
    + apply andb_true_iff in Hmerge as [Huser _].
      destruct (role lastMessage) eqn:Hrole; [|discriminate].
      eexists _, _. apply Hsecond.
    + exists msgs, []. apply (Hsecond msgs []).
  - exists msgs, []. apply (Hsecond msgs []).
Qed.

End FurtherProperties.

(** ** The shape of user messages *)

Section UserMessages.
Context `{JsRuntime} `{Collaborators}.

Lemma well_formed_snoc {Raw Output : Type} (msgs : list (Message Raw Output)) m :
  user_messages_well_formed (msgs ++ [m])
  = user_messages_well_formed msgs && (is_model (role m) || user_parts (parts m)).
Proof.
  unfold user_messages_well_formed. rewrite forallb_app. cbn [forallb].
  now rewrite andb_true_r.
Qed.

Lemma pushUserMessage_well_formed {Raw Output : Type} (extracted : Extracted Raw Output)
    (msgs : list (Message Raw Output)) :
  forallb is_inline_data (extracted_images extracted) = true ->
  user_messages_well_formed msgs = true ->
  user_messages_well_formed (pushUserMessage extracted msgs) = true.
Proof.
  intros Himages Hmsgs. unfold pushUserMessage. rewrite well_formed_snoc, Hmsgs.
  cbn [role parts is_model orb andb user_parts].
  now destruct (extracted_text extracted).
Qed.

Lemma images_hold_no_result {Raw Output : Type} (ps : list (Part Raw Output)) :
  forallb is_inline_data ps = true -> existsb is_functionResponse ps = false.
Proof.
  induction ps as [|p ps IH]; [reflexivity|]. cbn [forallb existsb].
  intros Hps. apply andb_true_iff in Hps as [Hp Hrest].
  rewrite (IH Hrest). now destruct p.
Qed.

Lemma user_parts_with_result {Raw Output : Type} (ps : list (Part Raw Output)) id name
    (output : Output) :
  user_parts ps = true -> existsb is_functionResponse ps = true ->
  user_parts (ps ++ [FunctionResponsePart id name output]) = true.
Proof.
  destruct ps as [|p ps]; [discriminate|].
  destruct p as [text|text s|i n a s|i n o|m d]; try discriminate.
  - destruct text as [|u text]; [discriminate|]. cbn [user_parts existsb is_functionResponse orb].
    intros Himages. now rewrite (images_hold_no_result _ Himages).
  - cbn [user_parts app]. intros Hresults _. rewrite forallb_app, Hresults. reflexivity.
Qed.

Lemma pushFunctionResponse_well_formed {Raw Output : Type} id name (output : Output)
    (msgs : list (Message Raw Output)) :
  user_messages_well_formed msgs = true ->
  user_messages_well_formed (pushFunctionResponse id name output msgs) = true.
Proof.
  intros Hmsgs. unfold pushFunctionResponse.
  assert (Hnew : user_messages_well_formed
                   (msgs ++ [ {| role := user;
                                 parts := [FunctionResponsePart id name output] |} ]) = true)
    by now rewrite well_formed_snoc, Hmsgs.
  destruct (last msgs) as [lastMessage|] eqn:Hlast; [|exact Hnew].
  destruct (is_user (role lastMessage) && existsb is_functionResponse (parts lastMessage))
    eqn:Hmerge; [|exact Hnew].
  apply andb_true_iff in Hmerge as [Huser Hresult].
  rewrite (last_split _ _ Hlast), well_formed_snoc in Hmsgs.
  apply andb_true_iff in Hmsgs as [Hfront Hlast'].
  rewrite well_formed_snoc, Hfront. cbn [role parts andb].
  destruct (role lastMessage); [|discriminate]. cbn [is_model orb] in *.
  now apply user_parts_with_result.
Qed.

Lemma pushModelMessage_well_formed {Raw Output : Type} (parts_ toolCalls : list (Part Raw Output))
    hasContent (msgs : list (Message Raw Output)) :
  user_messages_well_formed msgs = true ->
  user_messages_well_formed (pushModelMessage parts_ toolCalls hasContent msgs) = true.
Proof.
  intros Hmsgs. unfold pushModelMessage.
  assert (Hnew : user_messages_well_formed
                   (msgs ++ [ {| role := model; parts := parts_ ++ toolCalls |} ]) = true)
    by now rewrite well_formed_snoc, Hmsgs.
  destruct (last msgs) as [lastMessage|] eqn:Hlast; [|exact Hnew].
  destruct (is_model (role lastMessage) && negb (Nat.eqb (length toolCalls) 0)
            && negb hasContent) eqn:Hmerge; [|exact Hnew].
  apply andb_true_iff in Hmerge as [Hmerge _]. apply andb_true_iff in Hmerge as [Hmodel _].
  rewrite (last_split _ _ Hlast), well_formed_snoc in Hmsgs.
  apply andb_true_iff in Hmsgs as [Hfront _].
  rewrite well_formed_snoc, Hfront. cbn [role andb]. now rewrite Hmodel.
Qed.

Lemma openai_images_are_inline_data content :
  forallb is_inline_data (extracted_images (OpenAI.extractImagesFromContent content)) = true.
Proof.
  unfold OpenAI.extractImagesFromContent. destruct content as [s|items|]; try reflexivity.
  assert (Hloop : forall result,
            forallb is_inline_data (extracted_images result) = true ->
            forallb is_inline_data
              (extracted_images (fold_left OpenAI.extract_item items result)) = true).
  { induction items as [|item items IH]; intros result Hresult; [exact Hresult|].
    cbn [fold_left]. apply IH. destruct item as [text|url|]; try exact Hresult.
    cbn [OpenAI.extract_item]. destruct (OpenAI.match_data_uri _) as [[format data]|];
      [|exact Hresult].
    cbn [extracted_images]. now rewrite forallb_app, Hresult. }
  now apply Hloop.
Qed.

Lemma claude_images_are_inline_data content :
  forallb is_inline_data
    (extracted_images (Claude.extractImagesFromClaudeContent content)) = true.
Proof.
  unfold Claude.extractImagesFromClaudeContent. destruct content as [s|items|];
    try reflexivity.
  assert (Hloop : forall result,
            forallb is_inline_data (extracted_images result) = true ->
            forallb is_inline_data
              (extracted_images (fold_left Claude.extract_block items result)) = true).
  { induction items as [|item items IH]; intros result Hresult; [exact Hresult|].
    cbn [fold_left]. apply IH.
    destruct item as [t|s|id name input s|id c|[source|]|]; try exact Hresult.
    cbn [Claude.extract_block]. destruct (eqb _ _ && truthy _); [|exact Hresult].
    cbn [extracted_images]. now rewrite forallb_app, Hresult. }
  now apply Hloop.
Qed.

Lemma openai_step_well_formed enableThinking actualModelName sessionId hasTools message
    (state state' : list OpenAI.CanonicalMessage * list ToolNameMapping) :
  OpenAI.convert_message enableThinking actualModelName sessionId hasTools message state
    = Normal state' ->
  user_messages_well_formed (fst state) = true ->
  user_messages_well_formed (fst state') = true.
Proof.
  destruct state as [before cache]. unfold OpenAI.convert_message. cbn [fst].
  destruct (OpenAI.role message);
    try (intros Hstep Hbefore; apply Normal_inj in Hstep as <-; cbn [fst]).
  - apply pushUserMessage_well_formed; [apply openai_images_are_inline_data | exact Hbefore].
  - apply pushUserMessage_well_formed; [apply openai_images_are_inline_data | exact Hbefore].
  - unfold OpenAI.handleAssistantMessage.
    destruct (OpenAI.hasContent_of _) as [hasContent|e]; [|discriminate].
    cbv zeta. destruct (OpenAI.convert_tool_calls _ _ _ _ _ _ cache) as [toolCalls cache1].
    intros Hstep Hbefore. apply Normal_inj in Hstep as <-. cbn [fst].
    now apply pushModelMessage_well_formed.
  - now apply pushFunctionResponse_well_formed.
  - exact Hbefore.
Qed.

Lemma claude_step_well_formed enableThinking actualModelName sessionId hasTools message
    (state : list Claude.CanonicalMessage * list ToolNameMapping) :
  user_messages_well_formed (fst state) = true ->
  user_messages_well_formed
    (fst (Claude.convert_message enableThinking actualModelName sessionId hasTools state
            message)) = true.
Proof.
  destruct state as [before cache]. unfold Claude.convert_message. cbn [fst].
  intros Hbefore.
  assert (Htext : user_messages_well_formed
                    (pushUserMessage (Claude.extractImagesFromClaudeContent
                                        (Claude.content message)) before) = true)
    by (apply pushUserMessage_well_formed; [apply claude_images_are_inline_data | exact Hbefore]).
  destruct (Claude.role message); [| |exact Hbefore].
  - destruct (Claude.content message) as [s|items|] eqn:Hcontent; try exact Htext.
    destruct (existsb _ items); [|exact Htext]. cbn [fst].
    unfold Claude.handleClaudeToolResult. rewrite Hcontent.
    clear Htext Hcontent. revert before Hbefore.
    induction items as [|item items IH]; intros before Hbefore; [exact Hbefore|].
    cbn [fold_left]. apply IH. destruct item as [t|s|id name input s|id c|source|];
      try exact Hbefore.
    now apply pushFunctionResponse_well_formed.
  - unfold Claude.handleClaudeAssistantMessage. cbn [fst].
    now apply pushModelMessage_well_formed.
Qed.

(** In a conversation as either converter encodes it, every user message
    has one of two shapes: a text part whose text is not empty, followed by
    inline images only; or function responses only, at least one. No user
    message is without parts, and none mixes text with tool results. *)
Theorem user_messages_are_text_or_results :
  (forall (openaiMessages : list OpenAI.ChatMessage) enableThinking actualModelName sessionId
          hasTools cache contents cache',
     OpenAI.openaiMessageToAntigravity openaiMessages enableThinking actualModelName sessionId
       hasTools cache = Normal (contents, cache') ->
     user_messages_well_formed contents = true) /\
  (forall (claudeMessages : list Claude.ClaudeMessage) enableThinking actualModelName sessionId
          hasTools cache,
     user_messages_well_formed
       (fst (Claude.claudeMessageToAntigravity claudeMessages enableThinking actualModelName
               sessionId hasTools cache)) = true).
Proof.
  split.
  - intros openaiMessages enableThinking actualModelName sessionId hasTools cache contents
      cache'. unfold OpenAI.openaiMessageToAntigravity.
    assert (Hloop : forall state state',
              OpenAI.convert_messages enableThinking actualModelName sessionId hasTools
                openaiMessages state = Normal state' ->
              user_messages_well_formed (fst state) = true ->
              user_messages_well_formed (fst state') = true).
    { induction openaiMessages as [|message rest IH]; intros state state' Hrun Hstate.
      - apply Normal_inj in Hrun as <-. exact Hstate.
      - cbn [OpenAI.convert_messages] in Hrun.
        destruct (OpenAI.convert_message _ _ _ _ message state) as [state1|e] eqn:Hstep;
          [|discriminate].
        exact (IH _ _ Hrun (openai_step_well_formed _ _ _ _ _ _ _ Hstep Hstate)). }
    intros Hrun. exact (Hloop _ _ Hrun eq_refl).
  - intros claudeMessages enableThinking actualModelName sessionId hasTools cache.
    unfold Claude.claudeMessageToAntigravity.
    assert (Hloop : forall state,
              user_messages_well_formed (fst state) = true ->
              user_messages_well_formed
                (fst (fold_left (Claude.convert_message enableThinking actualModelName
                                   sessionId hasTools) claudeMessages state)) = true).
    { induction claudeMessages as [|message rest IH]; intros state Hstate; [exact Hstate|].
      cbn [fold_left]. apply IH. now apply claude_step_well_formed. }
    exact (Hloop ([], cache) eq_refl).
Qed.

End UserMessages.

Section FurtherExamples.
#[local] Existing Instance Demo.runtime.
#[local] Existing Instance Demo.bare.

Lemma thought_parts_are_signed_witness :
  exists after cache',
    OpenAI.handleAssistantMessage Demo.turn_B [] true (lit "m") (lit "s") false []
    = Normal (after, cache') /\
    exists emitted,
      all_parts after = all_parts [] ++ emitted /\
      Forall (fun s => truthy s = true) (thought_signatures emitted).
Proof.
  eexists _, _. split; [vm_compute; reflexivity|].
  exact (proj1 thought_parts_are_signed Demo.turn_B [] true (lit "m") (lit "s") false [] _ _
           eq_refl).
Defined.

(** The scenario of the test suite: nothing cached, no fallback, an
    assistant message with text and reasoning text. *)
Lemma no_signature_no_thought_part_witness :
  useCachedSignature config = false /\
  useFallbackSignature config = false /\
  truthy (OpenAI.thoughtSignature Demo.turn_text) = false /\
  exists after cache',
    OpenAI.handleAssistantMessage Demo.turn_text [] true (lit "m") (lit "s") false []
    = Normal (after, cache') /\
    exists emitted,
      all_parts after = all_parts [] ++ emitted /\ thought_signatures emitted = [].
Proof.
  repeat (split; [reflexivity|]).
  eexists _, _. split; [vm_compute; reflexivity|].
  exact (no_signature_no_thought_part Demo.turn_text [] true (lit "m") (lit "s") false [] _ _
           eq_refl eq_refl eq_refl eq_refl).
Defined.

End FurtherExamples.

(** ** Tool results: the name looked up *)

Section ToolResultNames.
Context {Raw Output : Type}.
Implicit Types (msgs : list (Message Raw Output)) (ps : list (Part Raw Output)).

Lemma find_in_parts_Some id ps name :
  find_in_parts id ps = Some name ->
  exists args signature, In (FunctionCallPart id name args signature) ps.
Proof.
  induction ps as [|p ps IH]; simpl; [discriminate|].
  destruct (is_functionCall id p) as [name'|] eqn:Hp.
  - intros [= ->]. destruct p as [|?|id' name' args signature| |]; try discriminate.
    simpl in Hp. destruct (eqb id' id) eqn:Hid; [|discriminate].
    apply eqb_eq in Hid as ->. injection Hp as ->. exists args, signature. now left.
  - intros Hrest. destruct (IH Hrest) as (args & signature & Hin).
    exists args, signature. now right.
Qed.

Lemma find_backwards_sound id (reversed : list (Message Raw Output)) :
  find_backwards id reversed <> [] ->
  exists m args signature,
    In m reversed /\ role m = model /\
    In (FunctionCallPart id (find_backwards id reversed) args signature) (parts m).
Proof.
  induction reversed as [|m earlier IH]; simpl; [congruence|].
  assert (Hearlier : find_backwards id earlier <> [] ->
            exists m0 args signature,
              (m = m0 \/ In m0 earlier) /\ role m0 = model /\
              In (FunctionCallPart id (find_backwards id earlier) args signature) (parts m0)).
  { intros Hname. destruct (IH Hname) as (m0 & args & signature & Hin & Hrole & Hpart).
    exists m0, args, signature. auto. }
  destruct (role m) eqn:Hrole; simpl; [exact Hearlier|].
  destruct (find_in_parts id (parts m)) as [name|] eqn:Hfound; [|exact Hearlier].
  intros _. destruct (find_in_parts_Some _ _ _ Hfound) as (args & signature & Hin).
  exists m, args, signature. auto.
Qed.

Lemma find_backwards_absent id (reversed : list (Message Raw Output)) :
  (forall m name args signature,
     In m reversed -> role m = model ->
     ~ In (FunctionCallPart id name args signature) (parts m)) ->
  find_backwards id reversed = [].
Proof.
  induction reversed as [|m earlier IH]; intros Habsent; simpl; [reflexivity|].
  assert (Hearlier : find_backwards id earlier = []).
  { apply IH. intros m0 name args signature Hin. apply Habsent. now right. }
  destruct (role m) eqn:Hrole; simpl; [exact Hearlier|].
  rewrite find_in_parts_absent; [exact Hearlier|].
  intros name args signature. apply (Habsent m); [now left | exact Hrole].
Qed.

(** The name looked up for a tool result is the empty string or the name
    of a function call with the same id in a model message of the
    conversation; it is the empty string when no model message has such a
    call. *)
Theorem tool_result_name_is_a_called_name id msgs :
  (findFunctionNameById id msgs <> [] ->
   exists m args signature,
     In m msgs /\ role m = model /\
     In (FunctionCallPart id (findFunctionNameById id msgs) args signature) (parts m)) /\
  ((forall m name args signature,
      In m msgs -> role m = model ->
      ~ In (FunctionCallPart id name args signature) (parts m)) ->
   findFunctionNameById id msgs = []).
Proof.
  unfold findFunctionNameById. split.
  - intros Hname. destruct (find_backwards_sound _ _ Hname) as (m & args & signature & Hin & H').
    exists m, args, signature. split; [now apply in_rev | exact H'].
  - intros Habsent. apply find_backwards_absent.
    intros m name args signature Hin. apply Habsent. now apply in_rev.
Qed.

End ToolResultNames.

(** ** Tool results of the Claude protocol *)

Section ClaudeToolResults.
Context `{JsRuntime} `{Collaborators}.

Lemma findFunctionNameById_after_response {Raw Output : Type} id' id name (output : Output)
    (msgs : list (Message Raw Output)) :
  findFunctionNameById id' (pushFunctionResponse id name output msgs)
  = findFunctionNameById id' msgs.
Proof.
  unfold pushFunctionResponse.
  destruct (last msgs) as [lastMessage|] eqn:Hlast.
  - destruct (is_user (role lastMessage) && existsb is_functionResponse (parts lastMessage))
      eqn:Hmerge.
    + apply andb_true_iff in Hmerge as [Huser _].
      assert (Hrole : role lastMessage = user) by now destruct (role lastMessage).
      rewrite findFunctionNameById_snoc_skip by (left; exact Hrole).
      rewrite (last_split _ _ Hlast) at 2.
      now rewrite findFunctionNameById_snoc_skip by (left; exact Hrole).
    + now rewrite findFunctionNameById_snoc_skip by now left.
  - now rewrite findFunctionNameById_snoc_skip by now left.
Qed.

Lemma handle_result_blocks_parts items (before msgs : list Claude.CanonicalMessage) :
  (forall id, findFunctionNameById id msgs = findFunctionNameById id before) ->
  all_parts (fold_left Claude.handle_result_block items msgs)
  = all_parts msgs
    ++ omap (fun item =>
               match item with
               | Claude.ToolResultBlock id c =>
                   Some (FunctionResponsePart id (findFunctionNameById id before)
                           (Claude.result_text c))
               | _ => None
               end) items.
Proof.
  revert msgs. induction items as [|item items IH]; intros msgs Hnames.
  - cbn. now rewrite app_nil_r.
  - cbn [fold_left]. destruct item as [t|s|id name input s|id c|source|];
      try (cbn [Claude.handle_result_block omap]; now apply IH).
    cbn [Claude.handle_result_block]. rewrite IH.
    + unfold Claude.CanonicalMessage in *.
      rewrite pushFunctionResponse_all_parts, Hnames, <- app_assoc. reflexivity.
    + intros id'. unfold Claude.CanonicalMessage in *.
      now rewrite findFunctionNameById_after_response.
Qed.

(** Of a Claude user message that has a tool result only the tool
    results are encoded, in order: the text and the images beside them are
    left out. Each result gets the name that the conversation before the
    message gives for its id. *)
Theorem tool_result_message_keeps_only_results (message : Claude.ClaudeMessage)
    (items : list Claude.ContentBlock) (before : list Claude.CanonicalMessage)
    (cache : list ToolNameMapping) (enableThinking : bool)
    (actualModelName sessionId : jsstring) (hasTools : bool) :
  Claude.role message = Claude.RoleUser ->
  Claude.content message = Claude.ContentArray items ->
  existsb Claude.is_tool_result items = true ->
  all_parts (fst (Claude.convert_message enableThinking actualModelName sessionId hasTools
                    (before, cache) message))
  = all_parts before
    ++ omap (fun item =>
               match item with
               | Claude.ToolResultBlock id c =>
                   Some (FunctionResponsePart id (findFunctionNameById id before)
                           (Claude.result_text c))
               | _ => None
               end) items.
Proof.
  intros Hrole Hcontent Hresult. unfold Claude.convert_message.
  rewrite Hrole, Hcontent, Hresult. cbn [fst].
  unfold Claude.handleClaudeToolResult. rewrite Hcontent.
  now apply handle_result_blocks_parts.
Qed.

End ClaudeToolResults.

(** ** The calls of the tool-name collaborator *)

Section ToolNameCache.
Context `{JsRuntime} `{Collaborators}.

Lemma registrations_app actualModelName names1 names2 :
  registrations actualModelName (names1 ++ names2)
  = registrations actualModelName names1 ++ registrations actualModelName names2.
Proof. apply omap_app. Qed.

Lemma processToolName_registers originalName sessionId actualModelName cache :
  processToolName originalName sessionId actualModelName cache
  = (sanitizeToolName originalName,
     cache ++ registrations actualModelName [originalName]).
Proof.
  unfold processToolName, registrations.
  set (call := fun name : jsstring => _).
  change (omap call [originalName])
    with (match call originalName with Some mapping => [mapping] | None => [] end).
  subst call. cbv beta.
  destruct (truthy (Some actualModelName) && negb _); [reflexivity|].
  now rewrite app_nil_r.
Qed.

Lemma convert_tool_calls_registers message enableThinking actualModelName sessionId context
    toolCalls cache :
  snd (OpenAI.convert_tool_calls message enableThinking actualModelName sessionId context
         toolCalls cache)
  = cache ++ registrations actualModelName (map OpenAI.tc_function_name toolCalls).
Proof.
  revert cache. induction toolCalls as [|toolCall rest IH]; intros cache.
  - cbn. now rewrite app_nil_r.
  - cbn [OpenAI.convert_tool_calls map]. rewrite processToolName_registers.
    specialize (IH (cache ++ registrations actualModelName [OpenAI.tc_function_name toolCall])).
    destruct (OpenAI.convert_tool_calls _ _ _ _ _ rest _) as [parts_ cache2].
    cbn [snd] in IH |- *. rewrite IH, <- app_assoc, <- registrations_app. reflexivity.
Qed.

Lemma openai_step_registers enableThinking actualModelName sessionId hasTools message
    (state state' : list OpenAI.CanonicalMessage * list ToolNameMapping) :
  OpenAI.convert_message enableThinking actualModelName sessionId hasTools message state
    = Normal state' ->
  snd state' = snd state ++ registrations actualModelName (openai_tool_names [message]).
Proof.
  destruct state as [before cache]. unfold OpenAI.convert_message, openai_tool_names.
  cbn [snd map concat]. rewrite app_nil_r.
  destruct (OpenAI.role message);
    try (intros Hstep; apply Normal_inj in Hstep as <-; cbn; now rewrite app_nil_r).
  unfold OpenAI.handleAssistantMessage.
  destruct (OpenAI.hasContent_of _) as [hasContent|e]; [|discriminate].
  cbv zeta.
  pose proof (convert_tool_calls_registers message enableThinking actualModelName sessionId
                (getSignatureContext sessionId actualModelName hasTools)
                (OpenAI.tool_calls message) cache) as Hcalls.
  destruct (OpenAI.convert_tool_calls _ _ _ _ _ _ cache) as [toolCalls cache1].
  intros Hstep. apply Normal_inj in Hstep as <-. exact Hcalls.
Qed.

Lemma scan_blocks_register enableThinking actualModelName sessionId context items acc :
  Claude.toolNameCache
    (fold_left (Claude.scan_block enableThinking actualModelName sessionId context) items acc)
  = Claude.toolNameCache acc
    ++ registrations actualModelName
         (map (fun use : jsstring * jsstring * option JsValue * option jsstring =>
                 snd (fst (fst use)))
            (claude_tool_uses (Claude.ContentArray items))).
Proof.
  revert acc. induction items as [|item items IH]; intros acc.
  - cbn. now rewrite app_nil_r.
  - cbn [fold_left]. rewrite IH. cbn [claude_tool_uses] in *.
    destruct item as [t|s|id name input s|id c|source|]; try reflexivity.
    cbn [Claude.scan_block omap]. rewrite processToolName_registers.
    cbn [Claude.toolNameCache mbind option_bind map fst snd].
    rewrite <- app_assoc, <- registrations_app. reflexivity.
Qed.

Lemma claude_step_registers enableThinking actualModelName sessionId hasTools message
    (state : list Claude.CanonicalMessage * list ToolNameMapping) :
  snd (Claude.convert_message enableThinking actualModelName sessionId hasTools state message)
  = snd state ++ registrations actualModelName (claude_tool_names [message]).
Proof.
  destruct state as [before cache]. unfold Claude.convert_message, claude_tool_names.
  cbn [snd map concat]. rewrite app_nil_r.
  destruct (Claude.role message); [| |cbn; now rewrite app_nil_r].
  - destruct (Claude.content message) as [s|items|]; try (cbn; now rewrite app_nil_r).
    destruct (existsb _ items); cbn; now rewrite app_nil_r.
  - unfold Claude.handleClaudeAssistantMessage, Claude.scan_content. cbn [snd].
    destruct (Claude.content message) as [s|items|]; try (cbn; now rewrite app_nil_r).
    apply (scan_blocks_register enableThinking actualModelName sessionId _ items
             {| Claude.textContent := []; Claude.toolCalls := [];
                Claude.messageSignature := None; Claude.toolNameCache := cache |}).
Qed.

Lemma tool_names_app (messages1 messages2 : list OpenAI.ChatMessage) :
  openai_tool_names (messages1 ++ messages2)
  = openai_tool_names messages1 ++ openai_tool_names messages2.
Proof. unfold openai_tool_names. now rewrite map_app, concat_app. Qed.

Lemma claude_tool_names_app (messages1 messages2 : list Claude.ClaudeMessage) :
  claude_tool_names (messages1 ++ messages2)
  = claude_tool_names messages1 ++ claude_tool_names messages2.
Proof. unfold claude_tool_names. now rewrite map_app, concat_app. Qed.

(** Encoding a conversation calls [setToolNameMapping] once for every tool
    call of an assistant message whose name sanitizing changes, in the
    order of the conversation, with the model of the request, the
    sanitized name and the name; it makes no other call, and none at all
    when the name of the model is empty. *)
Theorem tool_names_are_registered_in_order :
  (forall (openaiMessages : list OpenAI.ChatMessage) enableThinking actualModelName sessionId
          hasTools cache contents cache',
     OpenAI.openaiMessageToAntigravity openaiMessages enableThinking actualModelName sessionId
       hasTools cache = Normal (contents, cache') ->
     cache' = cache ++ registrations actualModelName (openai_tool_names openaiMessages)) /\
  (forall (claudeMessages : list Claude.ClaudeMessage) enableThinking actualModelName sessionId
          hasTools cache,
     snd (Claude.claudeMessageToAntigravity claudeMessages enableThinking actualModelName
            sessionId hasTools cache)
     = cache ++ registrations actualModelName (claude_tool_names claudeMessages)).
Proof.
  split.
  - intros openaiMessages enableThinking actualModelName sessionId hasTools cache contents
      cache'. unfold OpenAI.openaiMessageToAntigravity.
    assert (Hloop : forall state state',
              OpenAI.convert_messages enableThinking actualModelName sessionId hasTools
                openaiMessages state = Normal state' ->
              snd state'
              = snd state ++ registrations actualModelName (openai_tool_names openaiMessages)).
    { induction openaiMessages as [|message rest IH]; intros state state' Hrun.
      - apply Normal_inj in Hrun as <-. cbn. now rewrite app_nil_r.
      - cbn [OpenAI.convert_messages] in Hrun.
        destruct (OpenAI.convert_message _ _ _ _ message state) as [state1|e] eqn:Hstep;
          [|discriminate].
        rewrite (IH _ _ Hrun), (openai_step_registers _ _ _ _ _ _ _ Hstep).
        change (message :: rest) with ([message] ++ rest).
        now rewrite tool_names_app, registrations_app, app_assoc. }
    intros Hrun. exact (Hloop _ _ Hrun).
  - intros claudeMessages enableThinking actualModelName sessionId hasTools cache.
    unfold Claude.claudeMessageToAntigravity.
    assert (Hloop : forall state,
              snd (fold_left (Claude.convert_message enableThinking actualModelName
                                sessionId hasTools) claudeMessages state)
              = snd state
                ++ registrations actualModelName (claude_tool_names claudeMessages)).
    { induction claudeMessages as [|message rest IH]; intros state.
      - cbn. now rewrite app_nil_r.
      - cbn [fold_left]. rewrite IH, claude_step_registers.
        change (message :: rest) with ([message] ++ rest).
        now rewrite claude_tool_names_app, registrations_app, app_assoc. }
    exact (Hloop ([], cache)).
Qed.

End ToolNameCache.

(** ** The size of an encoded conversation *)

Section ConversationSize.
Context {Raw Output : Type}.
Implicit Types (msgs : list (Message Raw Output)) (ps : list (Part Raw Output)).

Lemma length_replace_last msgs (m m' : Message Raw Output) :
  last msgs = Some m -> length (removelast msgs ++ [m']) = length msgs.
Proof.
  intros Hlast. rewrite (last_split _ _ Hlast) at 2. now rewrite !length_app.
Qed.

Lemma pushModelMessage_length ps toolCalls hasContent msgs :
  (length (pushModelMessage ps toolCalls hasContent msgs) <= S (length msgs))%nat.
Proof.
  unfold pushModelMessage. destruct (last msgs) as [lastMessage|] eqn:Hlast.
  - destruct (_ && _).
    + rewrite (length_replace_last _ _ _ Hlast). lia.
    + rewrite length_app. simpl. lia.
  - rewrite length_app. simpl. lia.
Qed.

Lemma pushFunctionResponse_collects id name (output : Output) msgs :
  collects_results (pushFunctionResponse id name output msgs) = true.
Proof.
  unfold pushFunctionResponse, collects_results.
  destruct (last msgs) as [lastMessage|] eqn:Hlast.
  - destruct (is_user (role lastMessage) && existsb is_functionResponse (parts lastMessage))
      eqn:Hmerge; rewrite last_snoc; cbn [role parts]; [|reflexivity].
    apply andb_true_iff in Hmerge as [-> _]. rewrite existsb_app. cbn.
    now rewrite orb_true_r.
  - now rewrite last_snoc.
Qed.

Lemma pushFunctionResponse_length id name (output : Output) msgs :
  length (pushFunctionResponse id name output msgs)
  = if collects_results msgs then length msgs else S (length msgs).
Proof.
  unfold pushFunctionResponse, collects_results.
  destruct (last msgs) as [lastMessage|] eqn:Hlast.
  - destruct (_ && _).
    + apply (length_replace_last _ _ _ Hlast).
    + rewrite length_app. simpl. lia.
  - rewrite length_app. simpl. lia.
Qed.

End ConversationSize.

Section ConversationSizes.
Context `{JsRuntime} `{Collaborators}.

Local Ltac sizes :=
  unfold OpenAI.CanonicalMessage, Claude.CanonicalMessage in *; simpl in *; lia.

Lemma openai_step_length enableThinking actualModelName sessionId hasTools message
    (state state' : list OpenAI.CanonicalMessage * list ToolNameMapping) :
  OpenAI.convert_message enableThinking actualModelName sessionId hasTools message state
    = Normal state' ->
  (length (fst state') <= S (length (fst state)))%nat.
Proof.
  destruct state as [before cache]. unfold OpenAI.convert_message. cbn [fst].
  destruct (OpenAI.role message).
  - intros Hstep. apply Normal_inj in Hstep as <-. cbn [fst]. unfold pushUserMessage.
    rewrite length_app. sizes.
  - intros Hstep. apply Normal_inj in Hstep as <-. cbn [fst]. unfold pushUserMessage.
    rewrite length_app. sizes.
  - destruct (OpenAI.hasContent_of (OpenAI.content message)) as [hasContent|e] eqn:Hcontent.
    + destruct (handleAssistantMessage_normal message before enableThinking actualModelName
                  sessionId hasTools cache hasContent Hcontent) as [cache1 ->].
      intros Hstep. apply Normal_inj in Hstep as <-. cbn [fst].
      apply pushModelMessage_length.
    + rewrite (handleAssistantMessage_throws _ _ _ _ _ _ _ e Hcontent). discriminate.
  - intros Hstep. apply Normal_inj in Hstep as <-. cbn [fst]. unfold OpenAI.handleToolCall, OpenAI.CanonicalMessage.
    rewrite pushFunctionResponse_length. destruct (collects_results before); sizes.
  - intros Hstep. apply Normal_inj in Hstep as <-. cbn [fst]. sizes.
Qed.

Lemma claude_results_length items (before : list Claude.CanonicalMessage) :
  (length (fold_left Claude.handle_result_block items before) <= S (length before))%nat /\
  (collects_results before = true ->
   length (fold_left Claude.handle_result_block items before) = length before).
Proof.
  revert before. induction items as [|item items IH]; intros before; [split; [sizes | easy]|].
  cbn [fold_left].
  destruct item as [t|s|id name input s|id c|source|]; try apply IH.
  cbn [Claude.handle_result_block].
  set (after := pushFunctionResponse id _ _ before).
  destruct (IH after) as [_ Hsame].
  specialize (Hsame (pushFunctionResponse_collects _ _ _ _)).
  rewrite Hsame. subst after. unfold Claude.CanonicalMessage in *.
  rewrite pushFunctionResponse_length.
  split; [destruct (collects_results before); sizes | now intros ->].
Qed.

Lemma claude_step_length enableThinking actualModelName sessionId hasTools message
    (state : list Claude.CanonicalMessage * list ToolNameMapping) :
  (length (fst (Claude.convert_message enableThinking actualModelName sessionId hasTools
                  state message)) <= S (length (fst state)))%nat.
Proof.
  destruct state as [before cache]. unfold Claude.convert_message. cbn [fst].
  assert (Huser : forall extracted,
            (length (pushUserMessage (Raw := JsValue) (Output := jsstring) extracted before)
             <= S (length before))%nat).
  { intros extracted. unfold pushUserMessage. rewrite length_app. sizes. }
  destruct (Claude.role message).
  - destruct (Claude.content message) as [s|items|] eqn:Hcontent; cbn [fst]; try apply Huser.
    destruct (existsb Claude.is_tool_result items); cbn [fst]; [|apply Huser].
    unfold Claude.handleClaudeToolResult. rewrite Hcontent. apply claude_results_length.
  - destruct (handleClaudeAssistantMessage_unfold message before enableThinking
                actualModelName sessionId hasTools cache) as [cache1 ->].
    cbn [fst]. apply pushModelMessage_length.
  - cbn [fst]. sizes.
Qed.

(** An encoded conversation has at most as many messages as the
    conversation of the client: every client message adds at most one
    message, the tool results of one Claude message included. *)
Theorem encoded_conversation_is_no_longer :
  (forall (openaiMessages : list OpenAI.ChatMessage) enableThinking actualModelName sessionId
          hasTools cache contents cache',
     OpenAI.openaiMessageToAntigravity openaiMessages enableThinking actualModelName sessionId
       hasTools cache = Normal (contents, cache') ->
     (length contents <= length openaiMessages)%nat) /\
  (forall (claudeMessages : list Claude.ClaudeMessage) enableThinking actualModelName sessionId
          hasTools cache,
     (length (fst (Claude.claudeMessageToAntigravity claudeMessages enableThinking
                     actualModelName sessionId hasTools cache))
      <= length claudeMessages)%nat).
Proof.
  split.
  - intros openaiMessages enableThinking actualModelName sessionId hasTools cache contents
      cache'. unfold OpenAI.openaiMessageToAntigravity.
    assert (Hloop : forall state state',
              OpenAI.convert_messages enableThinking actualModelName sessionId hasTools
                openaiMessages state = Normal state' ->
              (length (fst state') <= length (fst state) + length openaiMessages)%nat).
    { induction openaiMessages as [|message rest IH]; intros state state' Hrun.
      - apply Normal_inj in Hrun as <-. sizes.
      - cbn [OpenAI.convert_messages] in Hrun.
        destruct (OpenAI.convert_message _ _ _ _ message state) as [state1|e] eqn:Hstep;
          [|discriminate].
        apply openai_step_length in Hstep. apply IH in Hrun. sizes. }
    intros Hrun. apply Hloop in Hrun. exact Hrun.
  - intros claudeMessages enableThinking actualModelName sessionId hasTools cache.
    unfold Claude.claudeMessageToAntigravity.
    assert (Hloop : forall state,
              (length (fst (fold_left (Claude.convert_message enableThinking actualModelName
                                         sessionId hasTools) claudeMessages state))
               <= length (fst state) + length claudeMessages)%nat).
    { induction claudeMessages as [|message rest IH]; intros state; [sizes|].
      cbn [fold_left]. specialize (IH (Claude.convert_message enableThinking actualModelName
                                         sessionId hasTools state message)).
      pose proof (claude_step_length enableThinking actualModelName sessionId hasTools message
                    state). sizes. }
    exact (Hloop ([], cache)).
Qed.

(** With thinking disabled an encoded conversation has no thought part. *)
Theorem thinking_disabled_means_no_thought_part :
  (forall (openaiMessages : list OpenAI.ChatMessage) actualModelName sessionId hasTools cache
          contents cache',
     OpenAI.openaiMessageToAntigravity openaiMessages false actualModelName sessionId
       hasTools cache = Normal (contents, cache') ->
     thought_signatures (all_parts contents) = []) /\
  (forall (claudeMessages : list Claude.ClaudeMessage) actualModelName sessionId hasTools cache,
     thought_signatures
       (all_parts (fst (Claude.claudeMessageToAntigravity claudeMessages false
                          actualModelName sessionId hasTools cache))) = []).
Proof.
  assert (Himages_openai : forall content,
            thought_signatures
              (extracted_images (OpenAI.extractImagesFromContent content)) = []).
  { intros [s|items|]; try reflexivity. unfold OpenAI.extractImagesFromContent.
    assert (Hfold : forall (acc : Extracted JsValue OpenAI.Content),
              thought_signatures (extracted_images acc) = [] ->
              thought_signatures (extracted_images (fold_left OpenAI.extract_item items acc))
              = []).
    { induction items as [|item items IH]; intros acc Hacc; [exact Hacc|].
      cbn [fold_left]. apply IH. destruct item as [t|url|]; simpl; try exact Hacc.
      destruct (OpenAI.match_data_uri _) as [[format data]|]; simpl; [|exact Hacc].
      now rewrite thought_signatures_app, Hacc. }
    now apply Hfold. }
  assert (Himages_claude : forall content,
            thought_signatures
              (extracted_images (Claude.extractImagesFromClaudeContent content)) = []).
  { intros [s|items|]; try reflexivity. unfold Claude.extractImagesFromClaudeContent.
    assert (Hfold : forall (acc : Extracted JsValue jsstring),
              thought_signatures (extracted_images acc) = [] ->
              thought_signatures (extracted_images (fold_left Claude.extract_block items acc))
              = []).
    { induction items as [|item items IH]; intros acc Hacc; [exact Hacc|].
      cbn [fold_left]. apply IH.
      destruct item as [t|s|id name input s|id c|[source|]|]; simpl; try exact Hacc.
      destruct (_ && _); simpl; [|exact Hacc].
      now rewrite thought_signatures_app, Hacc. }
    now apply Hfold. }
  split.
  - intros openaiMessages actualModelName sessionId hasTools cache contents cache'.
    unfold OpenAI.openaiMessageToAntigravity.
    assert (Hloop : forall state state',
              OpenAI.convert_messages false actualModelName sessionId hasTools openaiMessages
                state = Normal state' ->
              thought_signatures (all_parts (fst state)) = [] ->
              thought_signatures (all_parts (fst state')) = []).
    { induction openaiMessages as [|message rest IH]; intros state state' Hrun Hstate.
      - apply Normal_inj in Hrun as <-. exact Hstate.
      - cbn [OpenAI.convert_messages] in Hrun.
        destruct (OpenAI.convert_message false actualModelName sessionId hasTools message state)
          as [state1|e] eqn:Hstep; [|discriminate].
        apply (IH state1 state' Hrun). clear IH Hrun.
        destruct state as [before cache0]. unfold OpenAI.convert_message in Hstep.
        cbn [fst] in Hstate.
        destruct (OpenAI.role message).
        + apply Normal_inj in Hstep as <-. cbn [fst].
          rewrite pushUserMessage_all_parts, thought_signatures_app, Hstate. simpl.
          apply Himages_openai.
        + apply Normal_inj in Hstep as <-. cbn [fst].
          rewrite pushUserMessage_all_parts, thought_signatures_app, Hstate. simpl.
          apply Himages_openai.
        + destruct state1 as [after cache1].
          destruct (handleAssistantMessage_emitted _ _ _ _ _ _ _ _ _ Hstep)
            as (emitted & Hparts & Hthought & _).
          cbn [fst]. now rewrite Hparts, thought_signatures_app, Hstate, Hthought.
        + apply Normal_inj in Hstep as <-. cbn [fst]. unfold OpenAI.handleToolCall.
          now rewrite pushFunctionResponse_all_parts, thought_signatures_app, Hstate.
        + apply Normal_inj in Hstep as <-. exact Hstate. }
    intros Hrun. now apply (Hloop _ _ Hrun).
  - intros claudeMessages actualModelName sessionId hasTools cache.
    unfold Claude.claudeMessageToAntigravity.
    assert (Hresults : forall items (before : list Claude.CanonicalMessage),
              thought_signatures (all_parts before) = [] ->
              thought_signatures
                (all_parts (fold_left Claude.handle_result_block items before)) = []).
    { induction items as [|item items IH]; intros before Hbefore; [exact Hbefore|].
      cbn [fold_left]. apply IH. destruct item; simpl; try exact Hbefore.
      now rewrite pushFunctionResponse_all_parts, thought_signatures_app, Hbefore. }
    assert (Hloop : forall state,
              thought_signatures (all_parts (fst state)) = [] ->
              thought_signatures
                (all_parts (fst (fold_left
                                   (Claude.convert_message false actualModelName sessionId
                                      hasTools) claudeMessages state))) = []).
    { induction claudeMessages as [|message rest IH]; intros state Hstate; [exact Hstate|].
      cbn [fold_left]. apply IH. clear IH.
      destruct state as [before cache0]. cbn [fst] in Hstate. unfold Claude.convert_message.
      cbn [fst].
      assert (Huser : thought_signatures
                        (all_parts (pushUserMessage
                                      (Claude.extractImagesFromClaudeContent
                                         (Claude.content message)) before)) = []).
      { rewrite pushUserMessage_all_parts, thought_signatures_app, Hstate. simpl.
        apply Himages_claude. }
      destruct (Claude.role message).
      - destruct (Claude.content message) as [s|items|] eqn:Hcontent; try exact Huser.
        destruct (existsb Claude.is_tool_result items); [|exact Huser].
        cbn [fst]. unfold Claude.handleClaudeToolResult. rewrite Hcontent.
        now apply Hresults.
      - destruct (handleClaudeAssistantMessage_emitted message before false actualModelName
                    sessionId hasTools cache0) as (emitted & Hparts & Hthought & _).
        transitivity (thought_signatures (all_parts before ++ emitted));
          [f_equal; exact Hparts|].
        now rewrite thought_signatures_app, Hstate, Hthought.
      - exact Hstate. }
    now apply Hloop.
Qed.

End ConversationSizes.

(** ** Thinking blocks without a signature *)

Section UnsignedThinking.
Context `{JsRuntime} `{Collaborators}.

Lemma first_available_none (candidates : list (option jsstring)) :
  Forall (fun s => truthy s = false) candidates ->
  truthy (first_available candidates) = false.
Proof.
  induction 1 as [|s candidates Hs _ IH]; [reflexivity|].
  rewrite first_available_cons. now rewrite Hs.
Qed.

(** With the cache and the fallback both switched off, an assistant
    message of the Claude protocol whose thinking blocks have no signature
    adds no thought part, with thinking enabled or not. *)
Theorem unsigned_thinking_adds_no_thought_part (message : Claude.ClaudeMessage) before
    enableThinking actualModelName sessionId hasTools cache :
  useCachedSignature config = false ->
  useFallbackSignature config = false ->
  Forall (fun s => truthy s = false) (claude_thinking_signatures (Claude.content message)) ->
  exists emitted,
    all_parts (fst (Claude.handleClaudeAssistantMessage message before enableThinking
                      actualModelName sessionId hasTools cache))
    = all_parts before ++ emitted /\
    thought_signatures emitted = [].
Proof.
  intros Hcache Hfallback Hunsigned.
  destruct (handleClaudeAssistantMessage_emitted message before enableThinking actualModelName
              sessionId hasTools cache) as (emitted & Hparts & Hthought & _).
  exists emitted. split; [exact Hparts|]. rewrite Hthought.
  unfold thought_candidates, reasoning_candidates, tool_candidates.
  rewrite Hcache, Hfallback. cbn [app andb allowed].
  rewrite first_available_cons, (first_available_none _ Hunsigned).
  now destruct (enableThinking && _).
Qed.

End UnsignedThinking.

Section UnsignedThinkingExample.
#[local] Existing Instance Demo.runtime.
#[local] Existing Instance Demo.bare.

(** The second scenario of the test suite. *)
Lemma unsigned_thinking_adds_no_thought_part_witness :
  useCachedSignature config = false /\
  useFallbackSignature config = false /\
  Forall (fun s => truthy s = false)
    (claude_thinking_signatures (Claude.content Demo.thinking_aloud)) /\
  exists emitted,
    all_parts (fst (Claude.handleClaudeAssistantMessage Demo.thinking_aloud [] true
                      (lit "m") (lit "s") false []))
    = all_parts [] ++ emitted /\
    thought_signatures emitted = [].
Proof.
  assert (Hunsigned : Forall (fun s => truthy s = false)
                        (claude_thinking_signatures (Claude.content Demo.thinking_aloud)))
    by (repeat constructor).
  split; [reflexivity | split; [reflexivity | split; [exact Hunsigned|]]].
  exact (unsigned_thinking_adds_no_thought_part Demo.thinking_aloud [] true (lit "m") (lit "s")
           false [] eq_refl eq_refl Hunsigned).
Defined.

End UnsignedThinkingExample.

(** ** Inline images of the chat protocol *)

Section DataUris.
Context `{JsRuntime} `{Collaborators}.

Lemma strip_app pat s : strip pat (pat ++ s) = Some s.
Proof. induction pat as [|p pat IH]; [reflexivity|]. simpl. now rewrite N.eqb_refl. Qed.

Lemma strip_Some pat s rest : strip pat s = Some rest -> s = pat ++ rest.
Proof.
  revert s. induction pat as [|p pat IH]; intros s; simpl; [now intros [= ->]|].
  destruct s as [|c s]; [discriminate|].
  destruct (N.eqb_spec p c) as [->|]; [|discriminate].
  intros Hrest. now rewrite (IH _ Hrest).
Qed.

Lemma span_spec p s : s = fst (span p s) ++ snd (span p s) /\
                      forallb p (fst (span p s)) = true /\
                      match snd (span p s) with u :: _ => p u = false | [] => True end.
Proof.
  induction s as [|u s IH]; simpl; [easy|].
  destruct (p u) eqn:Hu; [|simpl; easy].
  destruct (span p s) as [a b]. simpl in *. rewrite Hu.
  destruct IH as (-> & Ha & Hb). easy.
Qed.

Lemma span_app p a b :
  forallb p a = true ->
  match b with u :: _ => p u = false | [] => True end ->
  span p (a ++ b) = (a, b).
Proof.
  intros Ha Hb. induction a as [|u a IH]; simpl.
  - destruct b as [|u b]; [reflexivity | simpl; now rewrite Hb].
  - simpl in Ha. apply andb_true_iff in Ha as [-> Ha]. now rewrite (IH Ha).
Qed.

Lemma base64_marker : lit ";base64," = 59 :: [98; 97; 115; 101; 54; 52; 44].
Proof. vm_compute. reflexivity. Qed.

Lemma match_data_uri_spec (imageUrl format data : jsstring) :
  OpenAI.match_data_uri imageUrl = Some (format, data) <->
  imageUrl = lit "data:image/" ++ format ++ lit ";base64," ++ data /\
  format <> [] /\ forallb is_word format = true /\
  data <> [] /\ forallb is_dot data = true.
Proof.
  unfold OpenAI.match_data_uri. split.
  - destruct (strip (lit "data:image/") imageUrl) as [rest|] eqn:Hhead; [|discriminate].
    apply strip_Some in Hhead as ->.
    destruct (span_spec is_word rest) as (Hrest & Hformat & _).
    destruct (span is_word rest) as [format' rest1]. cbn [fst snd] in *.
    destruct format' as [|f format']; [discriminate|].
    destruct (strip (lit ";base64,") rest1) as [rest2|] eqn:Hmarker; [|discriminate].
    apply strip_Some in Hmarker as ->.
    destruct (span_spec is_dot rest2) as (Hrest2 & Hdata & _).
    destruct (span is_dot rest2) as [data' rest3]. cbn [fst snd] in *.
    destruct data' as [|d data']; [discriminate|].
    destruct rest3; [|discriminate]. intros [= <- <-].
    rewrite app_nil_r in Hrest2. subst. easy.
  - intros (-> & Hformat & Hword & Hdata & Hdot).
    rewrite strip_app.
    rewrite (span_app is_word format (lit ";base64," ++ data) Hword)
      by now rewrite base64_marker.
    destruct format as [|f format]; [congruence|].
    rewrite strip_app.
    rewrite <- (app_nil_r data) at 1. rewrite (span_app is_dot data [] Hdot I).
    destruct data as [|d data]; [congruence | reflexivity].
Qed.

(** An image URL is accepted exactly when it is a [data:] URI of an image
    whose format is a non-empty run of word characters and whose data is
    non-empty and has no line terminator; the two groups are the format
    and the data. *)
Theorem data_uri_is_parsed_exactly (imageUrl format data : jsstring) :
  OpenAI.match_data_uri imageUrl = Some (format, data) <->
  imageUrl = lit "data:image/" ++ format ++ lit ";base64," ++ data /\
  format <> [] /\ forallb is_word format = true /\
  data <> [] /\ forallb is_dot data = true.
Proof. apply match_data_uri_spec. Qed.

Lemma extract_items_images items (acc : Extracted JsValue OpenAI.Content) mimeType data :
  In (InlineDataPart mimeType data)
     (extracted_images (fold_left OpenAI.extract_item items acc)) <->
  In (InlineDataPart mimeType data) (extracted_images acc) \/
  exists url format,
    In (OpenAI.ImageUrlItem (Some url)) items /\
    OpenAI.match_data_uri url = Some (format, data) /\
    mimeType = lit "image/" ++ format.
Proof.
  revert acc. induction items as [|item items IH]; intros acc; cbn [fold_left].
  - split; [now left | intros [Hacc | (url & format & [] & _)]; exact Hacc].
  - rewrite IH. clear IH. destruct item as [t|[url|]|]; cbn [OpenAI.extract_item js_or truthy].
    + cbn [extracted_images]. split.
      * intros [Hacc | (url & format & Hin & Hrest)]; [now left|].
        right. exists url, format. split; [now right | exact Hrest].
      * intros [Hacc | (url & format & [Hin | Hin] & Hrest)]; [now left | discriminate |].
        right. exists url, format. easy.
    + assert (Hurl : match (if truthy (Some url) then Some url else Some []) with
                     | Some u => u
                     | None => []
                     end = url) by now destruct url.
      unfold js_or. rewrite Hurl. clear Hurl.
      destruct (OpenAI.match_data_uri url) as [[format' data']|] eqn:Hmatch.
      * cbn [extracted_images]. rewrite in_app_iff. cbn [In]. split.
        -- intros [[Hacc | [[= <- <-] | []]] | (url' & format & Hin & Hrest)].
           ++ now left.
           ++ right. exists url, format'. split; [now left | easy].
           ++ right. exists url', format. split; [now right | exact Hrest].
        -- intros [Hacc | (url' & format & [[= <-] | Hin] & Hrest & ->)].
           ++ left. now left.
           ++ rewrite Hmatch in Hrest. injection Hrest as <- <-. left. right. now left.
           ++ right. exists url', format. easy.
      * split.
        -- intros [Hacc | (url' & format & Hin & Hrest)]; [now left|].
           right. exists url', format. split; [now right | exact Hrest].
        -- intros [Hacc | (url' & format & [[= <-] | Hin] & Hrest & ->)]; [now left | |].
           ++ rewrite Hmatch in Hrest. discriminate.
           ++ right. exists url', format. easy.
    + assert (Hnone : OpenAI.match_data_uri [] = None) by (vm_compute; reflexivity).
      rewrite Hnone. split.
      * intros [Hacc | (url' & format & Hin & Hrest)]; [now left|].
        right. exists url', format. split; [now right | exact Hrest].
      * intros [Hacc | (url' & format & [Hin | Hin] & Hrest)]; [now left | discriminate |].
        right. exists url', format. easy.
    + split.
      * intros [Hacc | (url' & format & Hin & Hrest)]; [now left|].
        right. exists url', format. split; [now right | exact Hrest].
      * intros [Hacc | (url' & format & [Hin | Hin] & Hrest)]; [now left | discriminate |].
        right. exists url', format. easy.
Qed.

(** The inline images taken from the content items of a chat message are
    those of its [image_url] items whose URL is a [data:] URI of an image;
    any other URL adds no part. *)
Theorem inline_images_are_the_data_uris (items : list OpenAI.ContentItem)
    (mimeType data : jsstring) :
  In (InlineDataPart mimeType data)
     (extracted_images (OpenAI.extractImagesFromContent (OpenAI.ContentArray items))) <->
  exists format,
    mimeType = lit "image/" ++ format /\
    In (OpenAI.ImageUrlItem (Some (lit "data:image/" ++ format ++ lit ";base64," ++ data)))
       items /\
    format <> [] /\ forallb is_word format = true /\
    data <> [] /\ forallb is_dot data = true.
Proof.
  unfold OpenAI.extractImagesFromContent. rewrite extract_items_images. cbn [extracted_images In].
  split.
  - intros [[] | (url & format & Hin & Hmatch & ->)].
    apply match_data_uri_spec in Hmatch as (-> & Hrest).
    exists format. easy.
  - intros (format & -> & Hin & Hrest). right.
    exists (lit "data:image/" ++ format ++ lit ";base64," ++ data), format.
    split; [exact Hin | split; [|reflexivity]].
    now apply match_data_uri_spec.
Qed.

End DataUris.

(** ** System messages and the system instruction *)

Section SystemMessages.
Context `{JsRuntime} `{Collaborators}.

Lemma skip_system_leading (openaiMessages leading : list OpenAI.ChatMessage) first rest
    startIndex :
  Forall (fun message => OpenAI.role message = OpenAI.RoleSystem) leading ->
  OpenAI.role first <> OpenAI.RoleSystem ->
  OpenAI.skip_system openaiMessages (leading ++ first :: rest) startIndex
  = drop (startIndex + length leading) openaiMessages.
Proof.
  intros Hleading Hfirst. revert startIndex.
  induction Hleading as [|message leading Hmessage _ IH]; intros startIndex.
  - cbn [app OpenAI.skip_system length]. rewrite Nat.add_0_r.
    destruct (OpenAI.role first); try reflexivity. congruence.
  - cbn [app OpenAI.skip_system length]. rewrite Hmessage. cbn [OpenAI.is_system].
    rewrite IH. f_equal. lia.
Qed.

Lemma skip_system_all (openaiMessages messages : list OpenAI.ChatMessage) startIndex :
  Forall (fun message => OpenAI.role message = OpenAI.RoleSystem) messages ->
  OpenAI.skip_system openaiMessages messages startIndex = openaiMessages.
Proof.
  intros Hall. revert startIndex.
  induction Hall as [|message messages Hmessage _ IH]; intros startIndex; [reflexivity|].
  cbn [OpenAI.skip_system]. rewrite Hmessage. apply IH.
Qed.

(** With the context system prompt switched on, the system messages at
    the head of a chat conversation are left out of the encoded
    conversation, up to the first message of another role; later system
    messages stay. A conversation of system messages only is encoded
    whole. *)
Theorem leading_system_messages_are_left_out (cfg : PromptConfig)
    (openaiMessages : list OpenAI.ChatMessage) :
  useContextSystemPrompt cfg = true ->
  (forall leading first rest,
     openaiMessages = leading ++ first :: rest ->
     Forall (fun message => OpenAI.role message = OpenAI.RoleSystem) leading ->
     OpenAI.role first <> OpenAI.RoleSystem ->
     OpenAI.filteredMessages cfg openaiMessages = first :: rest) /\
  (Forall (fun message => OpenAI.role message = OpenAI.RoleSystem) openaiMessages ->
   OpenAI.filteredMessages cfg openaiMessages = openaiMessages).
Proof.
  intros Hswitch. unfold OpenAI.filteredMessages. rewrite Hswitch. split.
  - intros leading first rest -> Hleading Hfirst.
    rewrite (skip_system_leading _ leading first rest 0 Hleading Hfirst).
    cbn [Nat.add]. now rewrite drop_app_length.
  - apply skip_system_all.
Qed.

End SystemMessages.

Section SystemInstruction.

Local Abbreviation clean s := (starts_clean s%list /\ starts_clean (rev s%list)).

Lemma trimStart_clean s : starts_clean (trimStart s).
Proof.
  induction s as [|u s IH]; [exact I|]. cbn [trimStart].
  destruct (is_white_space u) eqn:Hu; [exact IH | exact Hu].
Qed.

Lemma trimStart_id s : starts_clean s -> trimStart s = s.
Proof. destruct s as [|u s]; [reflexivity|]. cbn [trimStart]. now intros ->. Qed.

Lemma trimStart_suffix s : exists blank, s = blank ++ trimStart s.
Proof.
  induction s as [|u s [blank IH]]; [now exists []|]. cbn [trimStart].
  destruct (is_white_space u); [|now exists []].
  exists (u :: blank). cbn [app]. now rewrite <- IH.
Qed.

Lemma starts_clean_app s t : s <> [] -> starts_clean s -> starts_clean (s ++ t).
Proof. now destruct s. Qed.

Lemma starts_clean_rev_suffix blank s :
  s <> [] -> starts_clean (rev (blank ++ s)) -> starts_clean (rev s).
Proof.
  intros Hs. rewrite rev_app_distr. destruct (rev s) as [|u r] eqn:Hrev; [|easy].
  apply (f_equal (@rev N)) in Hrev. rewrite rev_involutive in Hrev. now subst.
Qed.

Lemma trim_clean s : clean (trim s).
Proof.
  unfold trim. split; [apply trimStart_clean|].
  destruct (trimStart (trimEnd s)) as [|u t] eqn:Htrim; [exact I|].
  destruct (trimStart_suffix (trimEnd s)) as [blank Hsuffix]. rewrite Htrim in Hsuffix.
  apply (starts_clean_rev_suffix blank); [discriminate|].
  rewrite <- Hsuffix. unfold trimEnd. rewrite rev_involutive. apply trimStart_clean.
Qed.

Lemma trim_id s : clean s -> trim s = s.
Proof.
  intros [Hstart Hend]. unfold trim, trimEnd.
  rewrite (trimStart_id (rev s) Hend), rev_involutive. now apply trimStart_id.
Qed.

Lemma clean_join a b : a <> [] -> b <> [] -> clean a -> clean b -> clean (a ++ [10; 10] ++ b).
Proof.
  intros Ha Hb [Hstart _] [_ Hend]. split; [now apply starts_clean_app|].
  rewrite !rev_app_distr, <- app_assoc. apply starts_clean_app; [|exact Hend].
  intros Hrev. apply (f_equal (@rev N)) in Hrev. rewrite rev_involutive in Hrev. now subst.
Qed.

(** When the context system prompt is used, the merged system instruction
    has no white space at either end, and it is empty exactly when the
    base instruction and the prompt of the client are blank, a prompt that
    is no string counting as blank. *)
Theorem merged_instruction_is_trimmed (cfg : PromptConfig) (baseSystem : jsstring)
    (contextSystem : SystemPrompt) :
  useContextSystemPrompt cfg = true ->
  prompt_truthy contextSystem = true ->
  trim (mergeSystemInstruction cfg baseSystem contextSystem)
  = mergeSystemInstruction cfg baseSystem contextSystem /\
  (mergeSystemInstruction cfg baseSystem contextSystem = [] <->
   trim baseSystem = [] /\
   match contextSystem with PromptString s => trim s = [] | _ => True end).
Proof.
  intros Hswitch Hprompt. unfold mergeSystemInstruction. rewrite Hswitch, Hprompt.
  cbn [negb orb].
  pose proof (trim_clean baseSystem) as Hbase.
  assert (Hone : forall t, clean t -> trim t = t /\ (t = [] <-> t = [] /\ True)).
  { intros t Ht. split; [now apply trim_id | tauto]. }
  destruct contextSystem as [|s|]; [discriminate| |].
  - pose proof (trim_clean s) as Hcontext.
    destruct (trim baseSystem) as [|b base] eqn:Hb; destruct (trim s) as [|c context] eqn:Hc;
      cbn [app join].
    + easy.
    + split; [now apply trim_id | easy].
    + split; [now apply trim_id | easy].
    + split; [|easy]. apply trim_id. now apply (clean_join (b :: base) (c :: context)).
  - destruct (trim baseSystem) as [|b base] eqn:Hb; cbn [join]; [easy|].
    split; [now apply trim_id | easy].
Qed.

End SystemInstruction.

(** ** Header lines and the status line *)

Section HeaderLines.

Local Abbreviation ascii_text s := (Forall (fun u => u < 128) s).

Local Abbreviation lower_ascii k :=
  (Forall (fun u => u < 128 /\ (65 <=? u) && (u <=? 90) = false) k).

(** A name under which a header can be stored. *)
Local Abbreviation stored_name k :=
  (k%list <> [] /\ k%list <> lit "__proto__" /\ lower_ascii k%list /\
   toLowerCase k%list = k%list).

Lemma toLowerCase_lower_ascii s : ascii_text s -> lower_ascii (toLowerCase s).
Proof.
  intros Hascii. unfold toLowerCase. apply Forall_map.
  induction Hascii as [|u s Hu _ IH]; constructor; [|exact IH]. cbn.
  destruct (N.leb_spec 65 u), (N.leb_spec u 90); cbn [andb];
    (split; [lia|]);
    destruct (N.leb_spec 65 (u + 32)), (N.leb_spec (u + 32) 90); cbn [andb]; try reflexivity;
    try lia;
    destruct (N.leb_spec 65 u), (N.leb_spec u 90); cbn [andb]; try reflexivity; lia.
Qed.

Lemma toLowerCase_fixed k : lower_ascii k -> toLowerCase k = k.
Proof.
  unfold toLowerCase. induction 1 as [|u k [_ Hu] _ IH]; [reflexivity|].
  cbn [map]. now rewrite Hu, IH.
Qed.

Lemma split_from_pieces (P : N -> Prop) sep skip cur s :
  Forall P cur -> Forall P s -> Forall (Forall P) (split_from sep skip cur s).
Proof.
  intros Hcur Hs. revert skip cur Hcur.
  induction Hs as [|c s Hc Hs IH]; intros skip cur Hcur; cbn [split_from].
  - constructor; [|constructor]. now apply Forall_rev.
  - destruct skip as [|k]; [|now apply IH].
    destruct (startsWith (c :: s) sep).
    + constructor; [now apply Forall_rev | apply IH; constructor].
    + apply IH. now constructor.
Qed.

Lemma add_header_names (headers : gmap jsstring jsstring) line :
  ascii_text line ->
  (forall k v, headers !! k = Some v -> stored_name k) ->
  forall k v, Requester.add_header headers line !! k = Some v -> stored_name k.
Proof.
  intros Hline Hheaders k v. unfold Requester.add_header, split.
  pose proof (split_from_pieces (fun u => u < 128) (lit ": ") 0 [] line
                ltac:(constructor) Hline) as Hpieces.
  destruct (split_from (lit ": ") 0 [] line) as [|key valueParts]; [apply Hheaders|].
  destruct key as [|c key]; [apply Hheaders|].
  apply Forall_inv in Hpieces.
  destruct (eqb (toLowerCase (c :: key)) (lit "__proto__")) eqn:Hproto; [apply Hheaders|].
  unfold jsstring in *. intros Hlookup.
  apply lookup_insert_Some in Hlookup as [[<- _] | [_ Hold]].
  - pose proof (toLowerCase_lower_ascii _ Hpieces) as Hlower.
    split; [discriminate | split; [now apply eqb_neq | split; [exact Hlower|]]].
    now apply toLowerCase_fixed.
  - exact (Hheaders _ _ Hold).
Qed.

Lemma add_headers_names (lines : list jsstring) (headers : gmap jsstring jsstring) :
  Forall (fun line => ascii_text line) lines ->
  (forall k v, headers !! k = Some v -> stored_name k) ->
  forall k v, fold_left Requester.add_header lines headers !! k = Some v -> stored_name k.
Proof.
  intros Hlines. revert headers.
  induction Hlines as [|line lines Hline _ IH]; intros headers Hheaders; [exact Hheaders|].
  cbn [fold_left]. apply IH. now apply add_header_names.
Qed.

(** While the head is read, the header buffer is the text of the bytes
    read, and the names stored are names as above. *)
Lemma on_data_names st chunk :
  Forall (fun b => is_ascii b = true) chunk ->
  ascii_text (Requester.headerBuffer st) ->
  (forall k v, Requester.responseHeaders st !! k = Some v -> stored_name k) ->
  ascii_text (Requester.headerBuffer (Requester.on_data st chunk)) /\
  (forall k v, Requester.responseHeaders (Requester.on_data st chunk) !! k = Some v ->
               stored_name k).
Proof.
  intros Hchunk Hbuffer Hst. unfold Requester.on_data.
  destruct (Requester.headersParsed st); [now split|].
  assert (Htext : ascii_text (Requester.headerBuffer st ++ toString chunk)).
  { apply Forall_app. split; [exact Hbuffer|]. rewrite toString_ascii by exact Hchunk.
    apply Forall_map. eapply Forall_impl; [exact Hchunk|]. intros b Hb. cbn.
    unfold is_ascii in Hb. now apply N.ltb_lt. }
  destruct (indexOf _ Requester.CRLFCRLF) as [headerEndIndex|]; [|now split].
  cbn [Requester.headerBuffer Requester.responseHeaders]. split; [exact Htext|].
  apply add_headers_names; [|exact Hst].
  pose proof (split_from_pieces (fun u => u < 128) Requester.CRLF 0 []
                (take headerEndIndex (Requester.headerBuffer st ++ toString chunk))
                ltac:(constructor) ltac:(now apply Forall_take)) as Hlines.
  unfold split. destruct (split_from _ _ _ _); [constructor|].
  now apply Forall_inv_tail in Hlines.
Qed.

(** Of a response of ASCII bytes, however it spells its header names and
    however it is cut into chunks, every name under which a header is stored
    is not empty, is not [__proto__], and is made of code units below 128
    with no capital letter A to Z among them: it is its own lower-case
    form. *)
Theorem header_names_are_lower_case (chunks : list (list byte)) (k v : jsstring) :
  Forall (fun b => is_ascii b = true) (concat chunks) ->
  Requester.responseHeaders (Requester.feed chunks) !! k = Some v ->
  k <> [] /\ k <> lit "__proto__" /\
  Forall (fun u => u < 128 /\ (65 <=? u) && (u <=? 90) = false) k /\
  toLowerCase k = k.
Proof.
  intros Hascii. unfold Requester.feed.
  assert (Hloop : forall st,
            ascii_text (Requester.headerBuffer st) ->
            (forall k v, Requester.responseHeaders st !! k = Some v -> stored_name k) ->
            forall k v, Requester.responseHeaders (fold_left Requester.on_data chunks st) !! k
                        = Some v -> stored_name k).
  { induction chunks as [|chunk chunks IH]; intros st Hbuffer Hst; [exact Hst|].
    cbn [concat] in Hascii. apply Forall_app in Hascii as [Hchunk Hrest].
    cbn [fold_left].
    destruct (on_data_names st chunk Hchunk Hbuffer Hst) as [Hbuffer' Hst'].
    now apply IH. }
  apply Hloop; [constructor|]. intros k' v'. cbn [Requester.start Requester.responseHeaders].
  unfold jsstring in *. now rewrite lookup_empty.
Qed.

Lemma colon_space : lit ": " = [58; 32].
Proof. vm_compute. reflexivity. Qed.

Lemma startsWith_nil s : startsWith s [] = true.
Proof. now destruct s. Qed.

Lemma split_from_nonempty sep skip cur s : split_from sep skip cur s <> [].
Proof.
  revert skip cur. induction s as [|c s IH]; intros skip cur; cbn [split_from]; [discriminate|].
  destruct skip; [|apply IH]. destruct (startsWith _ _); [discriminate | apply IH].
Qed.

(** What a separator being skipped leaves of the text is the text behind
    it: joining the pieces gives back what was split. *)
Lemma join_split_from sep skip cur s :
  sep <> [] ->
  join sep (split_from sep skip cur s) = rev cur ++ drop skip s.
Proof.
  intros Hsep. revert skip cur. induction s as [|c s IH]; intros skip cur.
  - cbn [split_from join]. now rewrite drop_nil, app_nil_r.
  - cbn [split_from]. destruct skip as [|k]; [|apply IH].
    destruct (startsWith (c :: s) sep) eqn:Hstart.
    + assert (Hpieces : forall p ps, ps <> [] -> join sep (p :: ps) = p ++ sep ++ join sep ps).
      { intros p [|q ps]; [congruence | reflexivity]. }
      rewrite Hpieces by apply split_from_nonempty.
      rewrite IH. cbn [rev app drop]. f_equal.
      destruct sep as [|p sep]; [congruence|]. cbn [startsWith] in Hstart.
      apply andb_true_iff in Hstart as [Hp Hrest]. apply N.eqb_eq in Hp as ->.
      cbn [length app]. replace (S (length sep) - 1)%nat with (length sep) by lia. f_equal.
      clear IH Hsep Hpieces. revert s Hrest. induction sep as [|q sep IHsep]; intros s Hrest.
      * reflexivity.
      * destruct s as [|d s]; [discriminate|]. cbn [startsWith] in Hrest.
        apply andb_true_iff in Hrest as [Hq Hrest]. apply N.eqb_eq in Hq as ->.
        cbn [length app drop]. f_equal. now apply IHsep.
    + rewrite IH. cbn [rev drop]. now rewrite <- app_assoc.
Qed.

Lemma split_header_line name value cur :
  indexOf name [58; 32] = None ->
  split_from [58; 32] 0 cur (name ++ 58 :: 32 :: value)
  = (rev cur ++ name) :: split_from [58; 32] 1 [] (32 :: value).
Proof.
  revert cur. induction name as [|c name IH]; intros cur Hnone.
  - cbn [app split_from].
    assert (startsWith (58 :: 32 :: value) [58; 32] = true) as -> by now destruct value.
    cbn [length Nat.sub]. now rewrite app_nil_r.
  - cbn [indexOf] in Hnone.
    destruct (startsWith (c :: name) [58; 32]) eqn:Hstart; [discriminate|].
    destruct (indexOf name [58; 32]) eqn:Hrest; [discriminate|].
    cbn [app split_from].
    assert (startsWith (c :: name ++ 58 :: 32 :: value) [58; 32] = false) as ->.
    { destruct name as [|d name]; cbn [startsWith app] in Hstart |- *;
        rewrite ?startsWith_nil in *.
      - destruct (58 =? c); reflexivity.
      - exact Hstart. }
    rewrite (IH _ eq_refl). cbn [rev]. now rewrite <- app_assoc.
Qed.

(** A header line [Name: value] whose name is not empty, is made of code
    units below 128 and has no colon followed by a space, is stored under
    the lower-case name with the value as it stands, further colons followed
    by a space included; it is then found under that name. The one
    exception is a name that reads [__proto__] in lower case: such a line
    stores nothing. *)
Theorem header_line_is_stored_whole (headers : gmap jsstring jsstring)
    (name value : jsstring) :
  name <> [] ->
  Forall (fun u => u < 128) name ->
  includes name (lit ": ") = false ->
  (toLowerCase name <> lit "__proto__" ->
   Requester.add_header headers (name ++ lit ": " ++ value)
   = <[toLowerCase name := value]> headers /\
   Requester.add_header headers (name ++ lit ": " ++ value) !! toLowerCase name
   = Some value) /\
  (toLowerCase name = lit "__proto__" ->
   Requester.add_header headers (name ++ lit ": " ++ value) = headers).
Proof.
  intros Hname _ Hincludes.
  assert (Hline : Requester.add_header headers (name ++ lit ": " ++ value)
                  = if eqb (toLowerCase name) (lit "__proto__") then headers
                    else <[toLowerCase name := value]> headers).
  { unfold Requester.add_header, split, includes in *.
    rewrite colon_space in *. cbn [app].
    destruct (indexOf name [58; 32]) eqn:Hnone; [discriminate|].
    rewrite (split_header_line name value [] Hnone). cbn [rev app].
    destruct name as [|c name]; [congruence|].
    rewrite join_split_from by discriminate. reflexivity. }
  rewrite Hline. split.
  - intros Hproto. apply eqb_neq in Hproto. rewrite Hproto.
    split; [reflexivity|]. unfold jsstring in *. apply lookup_insert_eq.
  - intros Hproto. apply eqb_eq in Hproto. now rewrite Hproto.
Qed.

Lemma status_prefix : lit "HTTP/" = [72; 84; 84; 80; 47].
Proof. vm_compute. reflexivity. Qed.

Lemma match_status_nowhere s :
  Forall (fun u => u <> 72) s -> Requester.match_status s = None.
Proof.
  assert (Hend : Requester.match_status_here [] = None) by (vm_compute; reflexivity).
  induction 1 as [|u s Hu _ IH]; cbn [Requester.match_status]; [now rewrite Hend|].
  assert (Requester.match_status_here (u :: s) = None) as ->; [|exact IH].
  unfold Requester.match_status_here. rewrite status_prefix. cbn [strip].
  destruct (N.eqb_spec 72 u); [congruence | reflexivity].
Qed.


End HeaderLines.

(** ** A response of ASCII bytes in any number of chunks *)

Section AsciiChunks.

Local Abbreviation ascii_bytes bs := (Forall (fun b => is_ascii b = true) bs).

Lemma toString_ascii_app bs1 bs2 :
  ascii_bytes bs1 -> ascii_bytes bs2 -> toString (bs1 ++ bs2) = toString bs1 ++ toString bs2.
Proof.
  intros H1 H2. rewrite !toString_ascii by (try apply Forall_app; auto). apply map_app.
Qed.

(** A chunk that arrives while the head is incomplete: the state is the
    one the two pieces give when they arrive as one chunk. *)
Lemma on_data_waiting c1 c2 :
  ascii_bytes c1 -> ascii_bytes c2 ->
  indexOf (toString c1) Requester.CRLFCRLF = None ->
  Requester.on_data (Requester.on_data Requester.start c1) c2
  = Requester.on_data Requester.start (c1 ++ c2).
Proof.
  intros Hascii1 Hascii2 Hnone.
  unfold Requester.on_data at 2 3.
  cbn [Requester.headersParsed Requester.start Requester.headerBuffer app].
  rewrite (toString_ascii_app _ _ Hascii1 Hascii2), Hnone.
  unfold Requester.on_data.
  cbn [Requester.headersParsed Requester.headerBuffer Requester.responseHeaders
       Requester.responseStatus Requester.responseStatusText Requester.bodyChunks
       Requester.totalLoaded Requester.start app].
  reflexivity.
Qed.

(** A chunk that arrives after the head: the head is kept and the chunk is
    added to the body, as when the two pieces arrive as one chunk. *)
Lemma on_data_parsed c1 c2 i :
  ascii_bytes c1 -> ascii_bytes c2 ->
  indexOf (toString c1) Requester.CRLFCRLF = Some i ->
  let st := Requester.on_data Requester.start c1 in
  let st' := Requester.on_data Requester.start (c1 ++ c2) in
  Requester.headersParsed st = true /\
  Requester.headersParsed st' = true /\
  parsed st' = (Requester.responseStatus st, Requester.responseStatusText st,
                Requester.responseHeaders st, concat (Requester.bodyChunks st) ++ c2).
Proof.
  intros Hascii1 Hascii2 Hfound.
  unfold Requester.on_data.
  cbn [Requester.headersParsed Requester.start Requester.headerBuffer app].
  rewrite (toString_ascii_app _ _ Hascii1 Hascii2).
  rewrite (indexOf_app _ (toString c2) _ _ Hfound), Hfound.
  pose proof (indexOf_bound _ _ _ Hfound) as Hbound. cbn [length Requester.CRLFCRLF] in Hbound.
  rewrite take_app_le, drop_app_le by lia.
  cbn [Requester.headersParsed]. split; [reflexivity | split; [reflexivity|]].
  unfold parsed.
  cbn [Requester.responseStatus Requester.responseStatusText Requester.responseHeaders
       Requester.bodyChunks Requester.start]. f_equal.
  rewrite !toString_ascii by assumption. rewrite !skipn_map, <- map_app.
  assert (ascii_bytes (drop (i + 4) c1)) as Htail by now apply Forall_drop.
  destruct (drop (i + 4) c1) as [|b rest] eqn:Hdrop.
  - cbn [map app concat]. destruct c2 as [|b2 c2]; [reflexivity|].
    cbn [map app concat]. rewrite app_nil_r.
    change (Byte.to_N b2 :: map Byte.to_N c2) with (map Byte.to_N (b2 :: c2)).
    now rewrite bufferFrom_ascii.
  - cbn [map app concat]. rewrite !app_nil_r.
    change (Byte.to_N b :: map Byte.to_N (rest ++ c2))
      with (map Byte.to_N ((b :: rest) ++ c2)).
    change (Byte.to_N b :: map Byte.to_N rest) with (map Byte.to_N (b :: rest)).
    rewrite !bufferFrom_ascii by (try apply Forall_app; auto). reflexivity.
Qed.

Lemma headersParsed_found c :
  Requester.headersParsed (Requester.on_data Requester.start c)
  = match indexOf (toString c) Requester.CRLFCRLF with Some _ => true | None => false end.
Proof.
  unfold Requester.on_data.
  cbn [Requester.headersParsed Requester.start Requester.headerBuffer app].
  now destruct (indexOf _ _).
Qed.

Lemma feed_snoc chunks c :
  Requester.feed (chunks ++ [c]) = Requester.on_data (Requester.feed chunks) c.
Proof. unfold Requester.feed. now rewrite fold_left_app. Qed.

Lemma on_data_body st c :
  Requester.headersParsed st = true ->
  Requester.headersParsed (Requester.on_data st c) = true /\
  parsed (Requester.on_data st c)
  = (Requester.responseStatus st, Requester.responseStatusText st,
     Requester.responseHeaders st, concat (Requester.bodyChunks st) ++ c).
Proof.
  intros Hparsed. unfold Requester.on_data, parsed. rewrite Hparsed.
  cbn [Requester.headersParsed Requester.responseStatus Requester.responseStatusText
       Requester.responseHeaders Requester.bodyChunks].
  now rewrite concat_snoc.
Qed.

(** Either the head is incomplete and the state is the one the bytes give
    as one chunk, or the head is parsed and what a caller sees is the
    same. *)
Lemma feed_ascii_chunks chunks :
  Forall (fun chunk => ascii_bytes chunk) chunks ->
  Requester.feed chunks = Requester.feed [concat chunks] \/
  (Requester.headersParsed (Requester.feed chunks) = true /\
   Requester.headersParsed (Requester.feed [concat chunks]) = true /\
   parsed (Requester.feed chunks) = parsed (Requester.feed [concat chunks])).
Proof.
  induction chunks as [|c chunks IH] using rev_ind; intros Hascii.
  - left. vm_compute. reflexivity.
  - apply Forall_app in Hascii as [Hchunks Hc]. apply Forall_inv in Hc.
    assert (Hwhole : ascii_bytes (concat chunks)).
    { clear IH. induction Hchunks as [|chunk chunks Hchunk _ IH']; [constructor|].
      cbn [concat]. now apply Forall_app. }
    rewrite feed_snoc, concat_snoc.
    change (Requester.feed [?w]) with (Requester.on_data Requester.start w) in *.
    destruct (indexOf (toString (concat chunks)) Requester.CRLFCRLF) as [i|] eqn:Hfound.
    + right.
      destruct (on_data_parsed _ c i Hwhole Hc Hfound) as (Href & Href' & Hparsed').
      assert (Hst : Requester.headersParsed (Requester.feed chunks) = true /\
                    parsed (Requester.feed chunks)
                    = parsed (Requester.on_data Requester.start (concat chunks))).
      { destruct (IH Hchunks) as [-> | (Hst & _ & Heq)]; [now split | now split]. }
      destruct Hst as [Hst Heq].
      destruct (on_data_body _ c Hst) as [Hst' ->].
      split; [exact Hst' | split; [exact Href'|]].
      rewrite Hparsed'. unfold parsed in Heq. now injection Heq as -> -> -> ->.
    + destruct (IH Hchunks) as [-> | (_ & Href & _)].
      * left. now apply on_data_waiting.
      * rewrite headersParsed_found, Hfound in Href. discriminate.
Qed.

(** The parser is indifferent to how a response of ASCII bytes is cut into
    chunks, and to how many: status, status text, headers and body bytes
    are those of the response fed whole. *)
Theorem ascii_response_chunk_law (chunks : list (list byte)) :
  Forall (fun b => is_ascii b = true) (concat chunks) ->
  parsed (Requester.feed chunks) = parsed (Requester.feed [concat chunks]).
Proof.
  intros Hascii.
  assert (Hchunks : Forall (fun chunk => ascii_bytes chunk) chunks).
  { induction chunks as [|chunk chunks IH]; [constructor|].
    cbn [concat] in Hascii. apply Forall_app in Hascii as [Hchunk Hrest].
    constructor; [exact Hchunk | now apply IH]. }
  destruct (feed_ascii_chunks chunks Hchunks) as [-> | (_ & _ & Heq)]; [reflexivity | exact Heq].
Qed.

End AsciiChunks.

(** ** A gzip body that does not inflate *)

Section GzipFallback.
Context `{JsRuntime} `{Requester.Zlib}.

Lemma decode_from_pending st bs : needed st <> 0%nat -> decode_from st bs <> [].
Proof.
  revert st. induction bs as [|b bs IH]; intros st Hneeded; cbn [decode_from].
  - destruct (needed st); [congruence | discriminate].
  - destruct (needed st) as [|k]; [congruence|].
    destruct ((lower st <=? Byte.to_N b) && (Byte.to_N b <=? upper st)).
    + destruct k as [|k]; [|now apply IH].
      unfold units_of_code_point. now destruct (_ <? 0x10000).
    + now destruct (decode_lead (Byte.to_N b)).
Qed.

Lemma toString_nil bs : toString bs = [] -> bs = [].
Proof.
  destruct bs as [|b bs]; [reflexivity|]. unfold toString. cbn [decode_from needed idle].
  unfold decode_lead.
  repeat match goal with
         | |- context [if ?c then _ else _] => destruct c
         end; try discriminate;
    intros Hnil; exfalso; revert Hnil; apply decode_from_pending; discriminate.
Qed.

Lemma head_text_nil chunks : head_text chunks = [] -> concat chunks = [].
Proof.
  unfold head_text. induction chunks as [|chunk chunks IH]; [reflexivity|].
  cbn [map concat]. intros Hnil. apply app_eq_nil in Hnil as [Hchunk Hrest].
  now rewrite (toString_nil _ Hchunk), (IH Hrest).
Qed.

(** Chunks that arrive after the head leave status and headers as they
    are and are added to the body. *)
Lemma body_chunks_read st chunks :
  Requester.headersParsed st = true ->
  let st' := fold_left Requester.on_data chunks st in
  Requester.headersParsed st' = true /\
  Requester.responseStatus st' = Requester.responseStatus st /\
  Requester.responseHeaders st' = Requester.responseHeaders st /\
  concat (Requester.bodyChunks st') = concat (Requester.bodyChunks st) ++ concat chunks.
Proof.
  revert st. induction chunks as [|chunk chunks IH]; intros st Hparsed; cbn [fold_left concat].
  - now rewrite app_nil_r.
  - assert (Hstep : Requester.on_data st chunk
                    = {| Requester.headersParsed := true;
                         Requester.responseHeaders := Requester.responseHeaders st;
                         Requester.responseStatus := Requester.responseStatus st;
                         Requester.responseStatusText := Requester.responseStatusText st;
                         Requester.headerBuffer := Requester.headerBuffer st;
                         Requester.bodyChunks := Requester.bodyChunks st ++ [chunk];
                         Requester.totalLoaded := Requester.totalLoaded st + length chunk |})
      by (unfold Requester.on_data; now rewrite Hparsed).
    destruct (IH (Requester.on_data st chunk)) as (Hparsed' & Hstatus & Hheaders & Hbody).
    { now rewrite Hstep. }
    cbv zeta. split; [exact Hparsed'|]. rewrite Hstatus, Hheaders, Hbody, Hstep.
    cbn [Requester.responseStatus Requester.responseHeaders Requester.bodyChunks].
    rewrite concat_snoc, <- app_assoc. auto.
Qed.

(** Chunks that end with the head get it parsed and leave the body empty,
    from a state in which the head is being read. *)
Lemma head_chunks_read st chunks i :
  Requester.headersParsed st = false ->
  indexOf (Requester.headerBuffer st) Requester.CRLFCRLF = None ->
  concat (Requester.bodyChunks st) = [] ->
  indexOf (Requester.headerBuffer st ++ head_text chunks) Requester.CRLFCRLF = Some i ->
  (i + 4 = length (Requester.headerBuffer st ++ head_text chunks))%nat ->
  Requester.headersParsed (fold_left Requester.on_data chunks st) = true /\
  concat (Requester.bodyChunks (fold_left Requester.on_data chunks st)) = [].
Proof.
  revert st. induction chunks as [|chunk chunks IH]; intros st Hparsed Hnone Hbody Hfound Hend.
  - unfold head_text in Hfound. cbn [map concat] in Hfound. rewrite app_nil_r in Hfound.
    congruence.
  - cbn [fold_left].
    change (head_text (chunk :: chunks)) with (toString chunk ++ head_text chunks) in *.
    rewrite app_assoc in Hfound, Hend.
    destruct (indexOf (Requester.headerBuffer st ++ toString chunk) Requester.CRLFCRLF)
      as [j|] eqn:Hhere.
    + pose proof (indexOf_app _ (head_text chunks) _ _ Hhere) as Hwhole.
      pose proof (indexOf_bound _ _ _ Hhere) as Hbound.
      cbn [length Requester.CRLFCRLF] in Hbound.
      rewrite Hwhole in Hfound. injection Hfound as ->.
      rewrite length_app in Hend.
      assert (Hrest : head_text chunks = []) by (apply length_zero_iff_nil; lia).
      assert (Hstep : Requester.headersParsed (Requester.on_data st chunk) = true /\
                      Requester.bodyChunks (Requester.on_data st chunk)
                      = Requester.bodyChunks st).
      { unfold Requester.on_data. rewrite Hparsed, Hhere.
        cbn [Requester.headersParsed Requester.bodyChunks].
        rewrite drop_ge by lia. now split. }
      destruct Hstep as [Hparsed' Hbody'].
      destruct (body_chunks_read _ chunks Hparsed') as (Hdone & _ & _ & Hchunks).
      split; [exact Hdone|].
      rewrite Hchunks, Hbody', Hbody, (head_text_nil _ Hrest). reflexivity.
    + assert (Hstep : Requester.on_data st chunk
                      = {| Requester.headersParsed := false;
                           Requester.responseHeaders := Requester.responseHeaders st;
                           Requester.responseStatus := Requester.responseStatus st;
                           Requester.responseStatusText := Requester.responseStatusText st;
                           Requester.headerBuffer := Requester.headerBuffer st ++ toString chunk;
                           Requester.bodyChunks := Requester.bodyChunks st;
                           Requester.totalLoaded := Requester.totalLoaded st |})
        by (unfold Requester.on_data; now rewrite Hparsed, Hhere).
      apply (IH (Requester.on_data st chunk)); rewrite Hstep;
        cbn [Requester.headersParsed Requester.headerBuffer Requester.bodyChunks];
        first [assumption | reflexivity].
Qed.


End GzipFallback.

(** ** Streamed calls *)

Section Streams.
Context `{JsRuntime} `{Requester.Zlib}.

Lemma stream_data_step st (h : Requester.StreamResponse) chunk :
  exists status',
    Requester.stream_data (st, h) chunk
    = (Requester.on_data st chunk,
       {| Requester.stream_status := status';
          Requester.stream_headers := Requester.stream_headers h;
          Requester.chunks := Requester.chunks h ++ map fst (progress_events st [chunk]);
          Requester._onStart := Requester._onStart h;
          Requester._onData := Requester._onData h;
          Requester._onEnd := Requester._onEnd h;
          Requester._onError := Requester._onError h;
          Requester._ended := Requester._ended h;
          Requester._error := Requester._error h;
          Requester._started :=
            Requester._started h
            || match progress_events st [chunk] with [] => false | _ => true end;
          Requester._textPromise := Requester._textPromise h;
          Requester._finalText := Requester._finalText h;
          Requester.calls :=
            Requester.calls h ++ stream_calls h (progress_events st [chunk]) |}).
Proof.
  unfold Requester.stream_data, stream_calls. cbn [progress_events]. rewrite app_nil_r.
  destruct h as [status0 headers0 chunks0 onStart onData onEnd onError ended error started
                   textPromise finalText calls0].
  unfold Requester.stream_validateStatus, Requester.stream_onDownloadProgress.
  destruct (Requester.announced st chunk) as [announced|];
    destruct (Requester.progress st chunk) as [[text status_]|];
    cbn [Requester.stream_status Requester.stream_headers Requester.chunks
         Requester._onStart Requester._onData Requester._onEnd Requester._onError
         Requester._ended Requester._error Requester._started Requester._textPromise
         Requester._finalText Requester.calls map fst];
    eexists; f_equal; f_equal;
    first [ reflexivity
          | now rewrite app_nil_r
          | now rewrite orb_false_r
          | now rewrite orb_true_r
          | destruct started, onStart, onData; cbn; rewrite ?app_nil_r; reflexivity ].
Qed.

Lemma stream_calls_app (h h1 : Requester.StreamResponse) events1 events :
  Requester._onStart h1 = Requester._onStart h ->
  Requester._onData h1 = Requester._onData h ->
  Requester.stream_headers h1 = Requester.stream_headers h ->
  Requester._started h1
  = Requester._started h || match events1 with [] => false | _ => true end ->
  stream_calls h events1 ++ stream_calls h1 events = stream_calls h (events1 ++ events).
Proof.
  intros HonStart HonData Hheaders Hstarted. unfold stream_calls.
  rewrite HonStart, HonData, Hheaders, Hstarted.
  destruct (Requester._started h), (Requester._onStart h), (Requester._onData h),
    events1 as [|[text1 status1] events1]; cbn [orb negb app map fst];
    rewrite ?app_nil_r, ?map_app; reflexivity.
Qed.

(** The chunks of a response seen through the stream handle. *)
Lemma stream_data_run output st (h : Requester.StreamResponse) :
  exists status',
    fold_left Requester.stream_data output (st, h)
    = (fold_left Requester.on_data output st,
       {| Requester.stream_status := status';
          Requester.stream_headers := Requester.stream_headers h;
          Requester.chunks := Requester.chunks h ++ map fst (progress_events st output);
          Requester._onStart := Requester._onStart h;
          Requester._onData := Requester._onData h;
          Requester._onEnd := Requester._onEnd h;
          Requester._onError := Requester._onError h;
          Requester._ended := Requester._ended h;
          Requester._error := Requester._error h;
          Requester._started :=
            Requester._started h
            || match progress_events st output with [] => false | _ => true end;
          Requester._textPromise := Requester._textPromise h;
          Requester._finalText := Requester._finalText h;
          Requester.calls := Requester.calls h ++ stream_calls h (progress_events st output) |}).
Proof.
  revert st h. induction output as [|chunk rest IH]; intros st h.
  - exists (Requester.stream_status h). cbn [fold_left progress_events map].
    unfold stream_calls.
    destruct h as [status0 headers0 chunks0 onStart onData onEnd onError ended error started
                     textPromise finalText calls0].
    cbn [Requester.stream_status Requester.stream_headers Requester.chunks
         Requester._onStart Requester._onData Requester._onEnd Requester._onError
         Requester._ended Requester._error Requester._started Requester._textPromise
         Requester._finalText Requester.calls map fst].
    f_equal; f_equal;
      first [ reflexivity
            | now rewrite app_nil_r
            | now rewrite orb_false_r
            | destruct started, onStart, onData; cbn; rewrite ?app_nil_r; reflexivity ].
  - cbn [fold_left]. destruct (stream_data_step st h chunk) as [status1 ->].
    match goal with |- context [fold_left _ rest (_, ?h1)] => set (next := h1) end.
    destruct (IH (Requester.on_data st chunk) next) as [status' ->].
    exists status'. f_equal. subst next.
    cbn [Requester.stream_headers Requester.chunks Requester._onStart Requester._onData
         Requester._onEnd Requester._onError Requester._ended Requester._error
         Requester._started Requester._textPromise Requester._finalText Requester.calls].
    cbn [progress_events]. rewrite !app_nil_r.
    f_equal.
    + now rewrite <- app_assoc, map_app.
    + rewrite <- orb_assoc. f_equal.
      now destruct (Requester.progress st chunk), (progress_events _ rest).
    + rewrite <- app_assoc. f_equal.
      match goal with
      | |- _ ++ stream_calls ?h1 _ = _ => apply (stream_calls_app h h1); reflexivity
      end.
Qed.

End Streams.

Section StreamOutcomes.
Context `{JsRuntime} `{Requester.Zlib}.

Lemma join_nil (pieces : list jsstring) : join [] pieces = concat pieces.
Proof.
  induction pieces as [|p pieces IH]; [reflexivity|].
  destruct pieces as [|q pieces]; [cbn; now rewrite app_nil_r|].
  change (join [] (p :: q :: pieces)) with (p ++ [] ++ join [] (q :: pieces)).
  now rewrite IH.
Qed.

Lemma status_is_kept output st :
  Requester.headersParsed st = true ->
  Requester.headersParsed (fold_left Requester.on_data output st) = true /\
  Requester.responseStatus (fold_left Requester.on_data output st)
  = Requester.responseStatus st.
Proof.
  revert st. induction output as [|chunk rest IH]; intros st Hparsed; [now split|].
  cbn [fold_left].
  assert (Hstep : Requester.headersParsed (Requester.on_data st chunk) = true /\
                  Requester.responseStatus (Requester.on_data st chunk)
                  = Requester.responseStatus st).
  { unfold Requester.on_data. now rewrite Hparsed. }
  destruct Hstep as [Hparsed' Hstatus]. destruct (IH _ Hparsed') as [Hend Hsame].
  split; [exact Hend | now rewrite Hsame].
Qed.

Lemma progress_status st chunk text status_ :
  Requester.progress st chunk = Some (text, status_) ->
  Requester.headersParsed (Requester.on_data st chunk) = true /\
  status_ = Requester.responseStatus (Requester.on_data st chunk).
Proof.
  unfold Requester.progress.
  destruct (Requester.headersParsed st) eqn:Hparsed.
  - intros [= <- <-]. unfold Requester.on_data. now rewrite Hparsed.
  - destruct (indexOf _ Requester.CRLFCRLF) as [i|] eqn:Hfound; [|discriminate].
    destruct (drop (i + 4) _); [discriminate|]. intros [= <- <-].
    split; [|reflexivity]. unfold Requester.on_data. now rewrite Hparsed, Hfound.
Qed.

(** Every progress event of a response carries the status of the
    response. *)
Lemma first_event_status output st :
  match progress_events st output with
  | (_, status_) :: _ =>
      status_ = Requester.responseStatus (fold_left Requester.on_data output st)
  | [] => True
  end.
Proof.
  revert st. induction output as [|chunk rest IH]; intros st; [exact I|].
  cbn [progress_events fold_left].
  destruct (Requester.progress st chunk) as [[text status_]|] eqn:Hprogress.
  - cbn [app]. destruct (progress_status _ _ _ _ Hprogress) as [Hparsed ->].
    symmetry. now apply status_is_kept.
  - cbn [app]. apply IH.
Qed.

Lemma listening_calls (events : list (jsstring * Z)) :
  stream_calls listening events
  = match events with
    | (_, status_) :: _ => [Requester.OnStart status_ ∅]
    | [] => []
    end ++ map (fun event => Requester.OnData (fst event)) events.
Proof. reflexivity. Qed.

Lemma stream_run output stderrData exit :
  exists status',
    Requester.antigravity_fetchStream listening output stderrData exit
    = Requester.stream_close
        (Requester.feed output,
         {| Requester.stream_status := status';
            Requester.stream_headers := ∅;
            Requester.chunks := map fst (progress_events Requester.start output);
            Requester._onStart := true;
            Requester._onData := true;
            Requester._onEnd := true;
            Requester._onError := true;
            Requester._ended := false;
            Requester._error := None;
            Requester._started :=
              match progress_events Requester.start output with [] => false | _ => true end;
            Requester._textPromise := false;
            Requester._finalText := None;
            Requester.calls := stream_calls listening (progress_events Requester.start output) |})
        stderrData exit.
Proof.
  unfold Requester.antigravity_fetchStream.
  destruct (stream_data_run output Requester.start listening) as [status' ->].
  exists status'. reflexivity.
Qed.

Lemma stream_success output stderrData :
  let h := Requester.antigravity_fetchStream listening output stderrData (Some 0%Z) in
  let events := progress_events Requester.start output in
  Requester.calls h
  = match events with
    | _ :: _ => [Requester.OnStart (Requester.responseStatus (Requester.feed output)) ∅]
    | [] => []
    end ++ map Requester.OnData (map fst events) ++ [Requester.OnEnd] /\
  fst (Requester.stream_text h) = Requester.TextReturns (concat (map fst events)) /\
  Requester.stream_status h = Some (Requester.responseStatus (Requester.feed output)) /\
  Requester._error h = None.
Proof.
  intros h events. subst h. destruct (stream_run output stderrData (Some 0%Z)) as [status' ->].
  unfold Requester.stream_close, Requester.on_close, Requester.close_succeeded.
  cbn [Requester.stream_config Requester.skipGzipDecompress Requester.validateStatus
       Requester.responseType negb andb Requester.settlement].
  unfold Requester.stream_resolved, Requester.stream_validateStatus, Requester.stream_text.
  cbn [Requester.stream_status Requester.stream_headers Requester.chunks
       Requester._onStart Requester._onData Requester._onEnd Requester._onError
       Requester._ended Requester._error Requester._started Requester._textPromise
       Requester._finalText Requester.calls fst].
  rewrite join_nil, listening_calls. fold events.
  pose proof (first_event_status output Requester.start) as Hstatus. fold events in Hstatus.
  fold (Requester.feed output) in Hstatus.
  repeat split.
  rewrite map_map, <- app_assoc. f_equal.
  destruct events as [|[text status_] events']; [reflexivity | now rewrite Hstatus].
Qed.

(** A streamed call whose subprocess exits with code 0 ends without an
    error whatever the status of the response. The callbacks are called in
    order: the start callback once, before the first data, with the status
    of the response and the header map still empty, and not at all for a
    response without body; the data callback for every progress event;
    the end callback last. [text()] then returns the texts of the events,
    concatenated. *)
Theorem stream_callbacks_in_order (output : list (list byte)) (stderrData : jsstring) :
  let h := Requester.antigravity_fetchStream listening output stderrData (Some 0%Z) in
  let events := progress_events Requester.start output in
  Requester.calls h
  = match events with
    | _ :: _ => [Requester.OnStart (Requester.responseStatus (Requester.feed output)) ∅]
    | [] => []
    end ++ map Requester.OnData (map fst events) ++ [Requester.OnEnd] /\
  fst (Requester.stream_text h) = Requester.TextReturns (concat (map fst events)) /\
  Requester.stream_status h = Some (Requester.responseStatus (Requester.feed output)) /\
  Requester._error h = None.
Proof. apply stream_success. Qed.

(** A streamed call whose subprocess fails delivers the events it had and
    then the error: the error callback is the last call, the end callback
    is not called, and [text()] throws the error. *)
Theorem stream_failure_ends_in_the_error_callback (output : list (list byte))
    (stderrData : jsstring) (exit : option Z) (error : Requester.RequestError) :
  exit <> Some 0%Z ->
  Requester.close_failed exit stderrData = Requester.Rejected error ->
  let h := Requester.antigravity_fetchStream listening output stderrData exit in
  let events := progress_events Requester.start output in
  Requester.calls h
  = match events with
    | _ :: _ => [Requester.OnStart (Requester.responseStatus (Requester.feed output)) ∅]
    | [] => []
    end ++ map Requester.OnData (map fst events) ++ [Requester.OnError error] /\
  fst (Requester.stream_text h) = Requester.TextThrows error.
Proof.
  intros Hexit Hfailed h events. subst h.
  destruct (stream_run output stderrData exit) as [status' ->].
  assert (Hclose : Requester.settlement
                     (Requester.on_close Requester.stream_config (Requester.feed output)
                        stderrData exit) = Requester.Rejected error).
  { unfold Requester.on_close. destruct exit as [[|p|p]|]; try exact Hfailed. congruence. }
  unfold Requester.stream_close. rewrite Hclose.
  assert (Hhandle : forall h0 : Requester.StreamResponse,
            match exit with
            | Some 0%Z => Requester.stream_validateStatus h0
                            (Requester.responseStatus (Requester.feed output))
            | _ => h0
            end = h0).
  { intros h0. destruct exit as [[|p|p]|]; try reflexivity. congruence. }
  rewrite Hhandle.
  unfold Requester.stream_rejected, Requester.stream_text.
  cbn [Requester.stream_status Requester.stream_headers Requester.chunks
       Requester._onStart Requester._onData Requester._onEnd Requester._onError
       Requester._ended Requester._error Requester._started Requester._textPromise
       Requester._finalText Requester.calls fst].
  rewrite listening_calls. fold events.
  pose proof (first_event_status output Requester.start) as Hstatus. fold events in Hstatus.
  fold (Requester.feed output) in Hstatus.
  split; [|reflexivity].
  rewrite map_map, <- app_assoc. f_equal.
  destruct events as [|[text status_] events']; [reflexivity | now rewrite Hstatus].
Qed.

End StreamOutcomes.

Section StreamText.
Context `{JsRuntime} `{Requester.Zlib}.

Local Abbreviation ascii_bytes bs := (Forall (fun b => is_ascii b = true) bs).

(** The body received so far is ASCII and the head buffered so far is the
    text of ASCII bytes. *)
Local Abbreviation ascii_state st :=
  (ascii_bytes (concat (Requester.bodyChunks st)) /\
   exists head, ascii_bytes head /\ Requester.headerBuffer st = map Byte.to_N head).

Lemma on_data_ascii st chunk :
  ascii_bytes chunk -> ascii_state st ->
  ascii_state (Requester.on_data st chunk) /\
  toString (concat (Requester.bodyChunks (Requester.on_data st chunk)))
  = toString (concat (Requester.bodyChunks st))
    ++ concat (map fst (progress_events st [chunk])).
Proof.
  intros Hchunk [Hbody (head & Hhead & Hbuffer)].
  cbn [progress_events]. rewrite app_nil_r.
  unfold Requester.on_data, Requester.progress.
  destruct (Requester.headersParsed st) eqn:Hparsed.
  - cbn [Requester.bodyChunks Requester.headerBuffer map fst concat].
    rewrite concat_snoc, app_nil_r. split.
    + split; [now apply Forall_app | now exists head].
    + now apply toString_ascii_app.
  - rewrite Hbuffer, (toString_ascii chunk Hchunk), <- map_app.
    assert (Hall : ascii_bytes (head ++ chunk)) by now apply Forall_app.
    destruct (indexOf (map Byte.to_N (head ++ chunk)) Requester.CRLFCRLF) as [i|] eqn:Hfound.
    + rewrite !skipn_map.
      assert (Htail : ascii_bytes (drop (i + 4) (head ++ chunk))) by now apply Forall_drop.
      destruct (drop (i + 4) (head ++ chunk)) as [|b rest] eqn:Hdrop.
      * cbn [map Requester.bodyChunks Requester.headerBuffer fst concat].
        rewrite app_nil_r. split; [|reflexivity].
        split; [exact Hbody | now exists (head ++ chunk)].
      * cbn [map Requester.bodyChunks Requester.headerBuffer fst concat].
        change (Byte.to_N b :: map Byte.to_N rest) with (map Byte.to_N (b :: rest)).
        rewrite bufferFrom_ascii by exact Htail.
        rewrite concat_snoc, app_nil_r. split.
        -- split; [now apply Forall_app | now exists (head ++ chunk)].
        -- rewrite (toString_ascii_app _ _ Hbody Htail). f_equal.
           now apply toString_ascii.
    + cbn [Requester.bodyChunks Requester.headerBuffer map fst concat].
      rewrite app_nil_r. split; [|reflexivity].
      split; [exact Hbody | now exists (head ++ chunk)].
Qed.

Lemma progress_texts_ascii output st :
  Forall (fun chunk => ascii_bytes chunk) output -> ascii_state st ->
  toString (concat (Requester.bodyChunks (fold_left Requester.on_data output st)))
  = toString (concat (Requester.bodyChunks st))
    ++ concat (map fst (progress_events st output)).
Proof.
  intros Houtput. revert st.
  induction Houtput as [|chunk rest Hchunk _ IH]; intros st Hst.
  - cbn. now rewrite app_nil_r.
  - cbn [fold_left]. destruct (on_data_ascii st chunk Hchunk Hst) as [Hst' Hstep].
    rewrite (IH _ Hst'), Hstep. cbn [progress_events].
    rewrite !app_nil_r, map_app, concat_app. now rewrite app_assoc.
Qed.

Lemma ascii_chunks output :
  ascii_bytes (concat output) -> Forall (fun chunk => ascii_bytes chunk) output.
Proof.
  induction output as [|chunk rest IH]; [constructor|].
  cbn [concat]. intros Hall. apply Forall_app in Hall as [Hchunk Hrest].
  constructor; [exact Hchunk | now apply IH].
Qed.

(** The text of a streamed response of ASCII bytes is the text of its
    body, however the subprocess output is cut into chunks: what [text()]
    returns is what it returns when the output arrives as one chunk. *)
Theorem streamed_ascii_text_ignores_chunking (output : list (list byte))
    (stderrData : jsstring) :
  Forall (fun b => is_ascii b = true) (concat output) ->
  fst (Requester.stream_text
         (Requester.antigravity_fetchStream listening output stderrData (Some 0%Z)))
  = Requester.TextReturns
      (toString (concat (Requester.bodyChunks (Requester.feed [concat output])))) /\
  fst (Requester.stream_text
         (Requester.antigravity_fetchStream listening output stderrData (Some 0%Z)))
  = fst (Requester.stream_text
           (Requester.antigravity_fetchStream listening [concat output] stderrData
              (Some 0%Z))).
Proof.
  intros Hascii.
  assert (Hstart : ascii_state Requester.start).
  { split; [constructor | exists []; split; [constructor | reflexivity]]. }
  assert (Htext : forall chunks,
            ascii_bytes (concat chunks) ->
            fst (Requester.stream_text
                   (Requester.antigravity_fetchStream listening chunks stderrData (Some 0%Z)))
            = Requester.TextReturns
                (toString (concat (Requester.bodyChunks (Requester.feed chunks))))).
  { intros chunks Hchunks.
    destruct (stream_success chunks stderrData) as (_ & -> & _). f_equal.
    unfold Requester.feed.
    now rewrite (progress_texts_ascii chunks Requester.start (ascii_chunks _ Hchunks) Hstart). }
  assert (Hbody : concat (Requester.bodyChunks (Requester.feed output))
                  = concat (Requester.bodyChunks (Requester.feed [concat output]))).
  { destruct (feed_ascii_chunks output (ascii_chunks _ Hascii)) as [-> | (_ & _ & Heq)];
      [reflexivity|]. unfold parsed in Heq. now injection Heq. }
  assert (Hone : concat [concat output] = concat output) by apply app_nil_r.
  rewrite (Htext output Hascii), Hbody. split; [reflexivity|].
  rewrite (Htext [concat output]) by now rewrite Hone.
  reflexivity.
Qed.

End StreamText.

(** ** Timeouts *)

Section Timeouts.

Lemma seconds_of_timeout_ms (defaults_timeout ms : Z) :
  (0 < ms)%Z ->
  let seconds :=
    Requester.timeoutSec defaults_timeout
      (Requester.fetch_timeout defaults_timeout (Some ms)) in
  (ms <= 1000 * seconds < ms + 1000)%Z.
Proof.
  intros Hms. unfold Requester.fetch_timeout, Requester.timeoutSec, Requester.ceil_seconds.
  destruct (Z.eqb_spec ms 0) as [->|_]; [lia|].
  pose proof (Z.div_mod (- ms) 1000 ltac:(lia)) as Hdiv.
  pose proof (Z.mod_pos_bound (- ms) 1000 ltac:(lia)) as Hmod.
  destruct (Z.eqb_spec (- (- ms / 1000)) 0) as [Hzero|_]; cbv zeta; lia.
Qed.

(** An integer [timeout_ms] from 1 to 2147483000 is rounded up to whole
    seconds, and the timer that kills the subprocess runs that long: not
    shorter than asked for, and less than a second longer. From 2147483001
    on (and below 2^53) the delay asked of the timer is above what a timer
    takes, and the timer runs for one millisecond. The default is used in
    neither case. *)
Theorem fetch_timeout_is_rounded_up (defaults_timeout ms : Z) :
  (0 < ms < 9007199254740992)%Z ->
  let seconds :=
    Requester.timeoutSec defaults_timeout
      (Requester.fetch_timeout defaults_timeout (Some ms)) in
  (ms <= 1000 * seconds < ms + 1000)%Z /\
  ((ms <= 2147483000)%Z ->
   Requester.kill_timer_delay seconds = (1000 * seconds)%Z /\
   (ms <= Requester.kill_timer_delay seconds < ms + 1000)%Z) /\
  ((2147483000 < ms)%Z -> Requester.kill_timer_delay seconds = 1%Z).
Proof.
  intros [Hms _] seconds.
  pose proof (seconds_of_timeout_ms defaults_timeout ms Hms) as Hseconds.
  cbv zeta in Hseconds. fold seconds in Hseconds.
  split; [exact Hseconds|].
  unfold Requester.kill_timer_delay, Requester.setTimeout_delay, Requester.TIMEOUT_MAX.
  split; intros Hrange.
  - destruct (Z.leb_spec 1 (seconds * 1000)), (Z.leb_spec (seconds * 1000) 2147483647);
      cbn [andb]; lia.
  - destruct (Z.leb_spec 1 (seconds * 1000)), (Z.leb_spec (seconds * 1000) 2147483647);
      cbn [andb]; lia.
Qed.

End Timeouts.

(** ** The model list *)

Section ModelList.
Context `{ApiClient.Upstream}.

Lemma model_ids created_ (ids : list jsstring) :
  map ApiClient.id (map (ApiClient.model_entry created_) ids) = ids.
Proof. induction ids as [|i ids IH]; [reflexivity|]. cbn [map]. now rewrite IH. Qed.

Lemma existsb_eqb_In (x : jsstring) (l : list jsstring) :
  existsb (eqb x) l = true <-> In x l.
Proof.
  rewrite existsb_exists. split.
  - intros (y & Hy & Heq). apply eqb_eq in Heq. now subst.
  - intros Hin. exists x. split; [exact Hin | apply truthy_eqb_refl].
Qed.

Lemma default_models_distinct : NoDup ApiClient.DEFAULT_MODELS.
Proof.
  apply NoDup_ListNoDup. unfold ApiClient.DEFAULT_MODELS.
  repeat (constructor; [vm_compute; intuition discriminate|]). constructor.
Qed.

Lemma getAvailableModels_fetched (now later ttl : Z) (token : ApiClient.Token)
    (keys : list jsstring) (cache : ApiClient.ModelCache) :
  cache_is_fresh now ttl cache = false ->
  let modelList :=
    map (ApiClient.model_entry (later / 1000)) keys
    ++ map (ApiClient.model_entry (later / 1000))
         (filter (fun defaultModel => negb (existsb (eqb defaultModel) keys))
            ApiClient.DEFAULT_MODELS) in
  ApiClient.getAvailableModels now later ttl (Some token) (inr (Some keys)) cache
  = (inr modelList,
     {| ApiClient.modelListCache := Some modelList; ApiClient.modelListCacheTime := now |}).
Proof.
  intros Hstale. unfold ApiClient.getAvailableModels, cache_is_fresh in *.
  destruct (ApiClient.modelListCache cache); [now rewrite Hstale | reflexivity].
Qed.

(** A list fetched from the API is returned with the default models it
    lacks added at its end: the identifiers are those of the API in
    their order, then defaults; every default model is among them; and no
    identifier is repeated. The list is stored in the cache with the
    time of the call. *)
Theorem fetched_model_list_has_every_default (now later ttl : Z) (token : ApiClient.Token)
    (keys : list jsstring) (cache : ApiClient.ModelCache) :
  cache_is_fresh now ttl cache = false ->
  NoDup keys ->
  exists modelList added,
    ApiClient.getAvailableModels now later ttl (Some token) (inr (Some keys)) cache
    = (inr modelList,
       {| ApiClient.modelListCache := Some modelList;
          ApiClient.modelListCacheTime := now |}) /\
    map ApiClient.id modelList = keys ++ added /\
    (forall defaultModel,
       In defaultModel ApiClient.DEFAULT_MODELS -> In defaultModel (map ApiClient.id modelList)) /\
    NoDup (map ApiClient.id modelList).
Proof.
  intros Hstale Hkeys.
  rewrite (getAvailableModels_fetched now later ttl token keys cache Hstale).
  set (added := filter (fun defaultModel => negb (existsb (eqb defaultModel) keys))
                  ApiClient.DEFAULT_MODELS).
  exists (map (ApiClient.model_entry (later / 1000)) keys
          ++ map (ApiClient.model_entry (later / 1000)) added), added.
  split; [|split; [|split]].
  - reflexivity.
  - now rewrite map_app, !model_ids.
  - intros defaultModel Hdefault. rewrite map_app, !model_ids. apply in_app_iff.
    destruct (existsb (eqb defaultModel) keys) eqn:Hknown.
    + left. now apply existsb_eqb_In.
    + right. subst added. apply list_elem_of_In, list_elem_of_filter.
      split; [now rewrite Hknown | now apply list_elem_of_In].
  - rewrite map_app, !model_ids. apply NoDup_app. split; [|split].
    + exact Hkeys.
    + intros x Hx Hadded. subst added. apply list_elem_of_filter in Hadded as [Hfresh _].
      apply list_elem_of_In, existsb_eqb_In in Hx. now rewrite Hx in Hfresh.
    + subst added. apply NoDup_filter, default_models_distinct.
Qed.

(** A list fetched from the API is served from the cache for the time to
    live that follows: a later call within it returns the list and reads
    neither the token nor the API. *)
Theorem cached_model_list_is_served (now later ttl : Z) (token : ApiClient.Token)
    (keys : list jsstring) (cache : ApiClient.ModelCache)
    (now' later' : Z) (token' : option ApiClient.Token)
    (fetched' : ApiClient.ApiError + option (list jsstring)) :
  cache_is_fresh now ttl cache = false ->
  (now' - now < ttl)%Z ->
  let first := ApiClient.getAvailableModels now later ttl (Some token) (inr (Some keys)) cache in
  ApiClient.getAvailableModels now' later' ttl token' fetched' (snd first)
  = (fst first, snd first).
Proof.
  intros Hstale Hwithin first. subst first.
  rewrite (getAvailableModels_fetched now later ttl token keys cache Hstale).
  cbn [fst snd]. unfold ApiClient.getAvailableModels.
  cbn [ApiClient.modelListCache ApiClient.modelListCacheTime].
  now apply Z.ltb_lt in Hwithin as ->.
Qed.

(** A default list, returned for want of a token or of data, and an
    error of the API leave the cache as it is. *)
Theorem fallback_model_list_is_not_cached (now later ttl : Z)
    (token : option ApiClient.Token) (fetched : ApiClient.ApiError + option (list jsstring))
    (cache : ApiClient.ModelCache) :
  token = None \/ (forall keys, fetched <> inr (Some keys)) ->
  snd (ApiClient.getAvailableModels now later ttl token fetched cache) = cache /\
  (cache_is_fresh now ttl cache = false ->
   fst (ApiClient.getAvailableModels now later ttl token fetched cache)
   = match token, fetched with
     | Some _, inl error => inl error
     | _, _ => inr (ApiClient.getDefaultModelList later)
     end).
Proof.
  intros Hfallback. unfold ApiClient.getAvailableModels, cache_is_fresh.
  destruct Hfallback as [-> | Hfetched].
  - split.
    + destruct (ApiClient.modelListCache cache); [destruct (_ <? _)%Z|]; reflexivity.
    + destruct (ApiClient.modelListCache cache); [intros ->|]; reflexivity.
  - destruct fetched as [error | [keys|]]; [| now destruct (Hfetched keys) |].
    + split.
      * destruct (ApiClient.modelListCache cache); [destruct (_ <? _)%Z|]; now destruct token.
      * destruct (ApiClient.modelListCache cache); [intros ->|]; now destruct token.
    + split.
      * destruct (ApiClient.modelListCache cache); [destruct (_ <? _)%Z|]; now destruct token.
      * destruct (ApiClient.modelListCache cache); [intros ->|]; now destruct token.
Qed.

(** The memory cleanup only drops a list that is no longer served: what
    [getAvailableModels] returns is the same with and without it. *)
Theorem model_cache_cleanup_is_invisible (now later ttl : Z) (token : option ApiClient.Token)
    (fetched : ApiClient.ApiError + option (list jsstring)) (cache : ApiClient.ModelCache) :
  fst (ApiClient.getAvailableModels now later ttl token fetched
         (ApiClient.cleanup now ttl cache))
  = fst (ApiClient.getAvailableModels now later ttl token fetched cache).
Proof.
  unfold ApiClient.cleanup.
  destruct (ApiClient.modelListCache cache) as [cached|] eqn:Hcache; [|reflexivity].
  destruct (Z.ltb_spec ttl (now - ApiClient.modelListCacheTime cache)) as [Hold|_];
    [|reflexivity].
  unfold ApiClient.getAvailableModels. rewrite Hcache.
  cbn [ApiClient.no_cache ApiClient.modelListCache].
  destruct (Z.ltb_spec (now - ApiClient.modelListCacheTime cache) ttl) as [Hfresh|_]; [lia|].
  destruct token as [token_|]; [|reflexivity].
  now destruct fetched as [error | [keys|]].
Qed.

End ModelList.

(** ** The signature cached after a response that is not streamed *)

Section CachedSignature.
Context {ToolCall : Type} (thoughtSignature : ToolCall -> option jsstring).
Context (shouldCacheSignature : bool -> bool -> bool) (isImageModel : jsstring -> bool).

Local Abbreviation unsigned := (fun toolCall => truthy (thoughtSignature toolCall) = false).

Lemma last_signed_Some (reversed : list ToolCall) signature :
  ApiClient.last_signed thoughtSignature reversed = Some signature ->
  exists later toolCall earlier,
    reversed = later ++ toolCall :: earlier /\
    Forall unsigned later /\
    thoughtSignature toolCall = Some signature /\ signature <> [].
Proof.
  induction reversed as [|toolCall reversed IH]; cbn [ApiClient.last_signed]; [discriminate|].
  destruct (truthy (thoughtSignature toolCall)) eqn:Hsigned.
  - intros Hsignature. exists [], toolCall, reversed.
    split; [reflexivity | split; [constructor | split; [exact Hsignature|]]].
    rewrite Hsignature in Hsigned. now destruct signature.
  - intros Hrest. destruct (IH Hrest) as (later & found & earlier & -> & Hlater & Hfound).
    exists (toolCall :: later), found, earlier.
    split; [reflexivity | split; [now constructor | exact Hfound]].
Qed.

Lemma last_signed_None (reversed : list ToolCall) :
  ApiClient.last_signed thoughtSignature reversed = None -> Forall unsigned reversed.
Proof.
  induction reversed as [|toolCall reversed IH]; cbn [ApiClient.last_signed]; [constructor|].
  destruct (truthy (thoughtSignature toolCall)) eqn:Hsigned.
  - intros Hnone. rewrite Hnone in Hsigned. discriminate.
  - intros Hrest. constructor; [exact Hsigned | now apply IH].
Qed.

(** The signature written to the cache after a response that is not
    streamed is never empty: it is the signature of the last tool call
    that has one, and the reasoning signature when no tool call has one.
    The text stored with it is never empty either. *)
Theorem cached_signature_is_the_latest (sessionId model : option jsstring)
    (parsed : ApiClient.Parsed) (written : ApiClient.SetSignature) :
  ApiClient.signature_written thoughtSignature shouldCacheSignature isImageModel sessionId
    model parsed = Some written ->
  ApiClient.set_signature written <> [] /\
  ApiClient.set_content written <> [] /\
  ((exists earlier toolCall later,
      ApiClient.toolCalls parsed = earlier ++ toolCall :: later /\
      thoughtSignature toolCall = Some (ApiClient.set_signature written) /\
      Forall (fun toolCall => truthy (thoughtSignature toolCall) = false) later) \/
   (Forall (fun toolCall => truthy (thoughtSignature toolCall) = false)
      (ApiClient.toolCalls parsed) /\
    ApiClient.reasoningSignature parsed = Some (ApiClient.set_signature written))).
Proof.
  unfold ApiClient.signature_written.
  destruct sessionId as [[|s sessionId]|]; try discriminate.
  destruct model as [[|m model]|]; try discriminate.
  destruct (shouldCacheSignature _ _); [|discriminate].
  destruct (ApiClient.finalSignature thoughtSignature parsed) as [[|u signature]|] eqn:Hfinal;
    try discriminate.
  intros [= <-]. cbn [ApiClient.set_signature ApiClient.set_content].
  split; [discriminate | split; [now destruct (ApiClient.reasoningContent parsed) as [[|c t]|]|]].
  unfold ApiClient.finalSignature in Hfinal.
  destruct (ApiClient.last_signed thoughtSignature (rev (ApiClient.toolCalls parsed)))
    as [signature'|] eqn:Hlast.
  - assert (Hsame : signature' = u :: signature).
    { destruct (ApiClient.toolCalls parsed) as [|toolCall rest]; [discriminate Hlast|].
      cbn [length Nat.eqb negb] in Hfinal. congruence. }
    subst signature'. left.
    destruct (last_signed_Some _ _ Hlast) as (later & toolCall & earlier & Hrev & Hlater & Hsig & _).
    exists (rev earlier), toolCall, (rev later).
    split; [|split; [exact Hsig | now apply Forall_rev]].
    rewrite <- (rev_involutive (ApiClient.toolCalls parsed)), Hrev, rev_app_distr.
    cbn [rev]. now rewrite <- app_assoc.
  - right. split.
    + apply last_signed_None in Hlast. apply Forall_rev in Hlast.
      now rewrite rev_involutive in Hlast.
    + now destruct (negb _) in Hfinal.
Qed.

End CachedSignature.

(** ** The proxy *)

Section Proxy.

(** The proxy is the value of the first of PROXY, HTTPS_PROXY,
    https_proxy, HTTP_PROXY, http_proxy, ALL_PROXY and all_proxy that is
    set to a non-empty text, and none when there is no such variable; the
    choice is logged unless the variable is PROXY. *)
Theorem proxy_precedence (env : gmap jsstring jsstring) :
  fst (ConfigFile.getProxyConfig env)
  = first_available (map (fun variable => env !! variable) proxy_variables) /\
  (snd (ConfigFile.getProxyConfig env) <> [] <->
   truthy (env !! lit "PROXY") = false /\ fst (ConfigFile.getProxyConfig env) <> None).
Proof.
  unfold ConfigFile.getProxyConfig, proxy_variables. cbn [map].
  rewrite first_available_cons.
  destruct (truthy (env !! lit "PROXY")) eqn:Hproxy.
  - cbn [fst snd]. split; [reflexivity|]. split; [congruence | now intros [? _]].
  - rewrite <- (truthy_chain (env !! lit "HTTPS_PROXY")). cbn [fold_left].
    generalize (js_or (js_or (js_or (js_or (js_or (env !! lit "HTTPS_PROXY")
                                              (env !! lit "https_proxy"))
                                       (env !! lit "HTTP_PROXY"))
                                (env !! lit "http_proxy"))
                         (env !! lit "ALL_PROXY"))
                  (env !! lit "all_proxy")).
    intros [[|u t]|]; cbn [truthy fst snd]; split; try reflexivity;
      split; try congruence; try (now intros [_ ?]); try (intros _; split; congruence).
Qed.

End Proxy.

(** ** Upstream errors other than 403 *)

Section OtherUpstreamErrors.
Context `{ApiClient.Upstream}.

Lemma not_forbidden {A : Type} (status_ : option Z) (forbidden other : A) :
  status_ <> Some 403%Z ->
  match status_ with
  | Some 403%Z => forbidden
  | _ => other
  end = other.
Proof.
  destruct status_ as [[|p|p]|]; try reflexivity. intros Hstatus.
  do 9 (destruct p as [p|p|]; try reflexivity). congruence.
Qed.

(** An upstream error whose status is not 403 never disables the token:
    the error thrown carries the status and the body as read, and its
    message gives both. The raw response is dumped exactly when the call
    has a dump id. *)
Theorem other_upstream_errors_keep_the_token (error : ApiClient.RequestFailure)
    (token : ApiClient.Token) (dumpId : option ApiClient.DumpId) (effects : ApiClient.Effects) :
  ApiClient.getUpstreamStatus error <> Some 403%Z ->
  let errorBody := ApiClient.readUpstreamErrorBody error in
  let thrown := fst (ApiClient.handleApiError error token dumpId effects) in
  let effects' := snd (ApiClient.handleApiError error token dumpId effects) in
  ApiClient.message thrown
  = lit "API请求失败 (" ++ ApiClient.status_text (ApiClient.getUpstreamStatus error)
    ++ lit "): " ++ ApiClient.body_text errorBody /\
  ApiClient.status thrown = ApiClient.getUpstreamStatus error /\
  ApiClient.body thrown = errorBody /\
  ApiClient.disabledTokens effects' = ApiClient.disabledTokens effects /\
  ApiClient.rawResponseDumps effects'
  = ApiClient.rawResponseDumps effects
    ++ match dumpId with
       | Some id => [(id, if ApiClient.body_is_nullish errorBody then []
                          else ApiClient.body_text errorBody)]
       | None => []
       end.
Proof.
  intros Hstatus errorBody thrown effects'. subst errorBody thrown effects'.
  unfold ApiClient.handleApiError. rewrite (not_forbidden _ _ _ Hstatus).
  cbn [fst snd ApiClient.message ApiClient.status ApiClient.body].
  repeat split; destruct dumpId; cbn [ApiClient.disabledTokens ApiClient.rawResponseDumps];
    rewrite ?app_nil_r; reflexivity.
Qed.

End OtherUpstreamErrors.

(** ** The further properties on concrete inputs *)

Section ConversationExamples.
#[local] Existing Instance Demo.runtime.
#[local] Existing Instance Demo.stocked.

(** The result of call A after the model message that makes the call. *)
Lemma tool_result_name_is_a_called_name_witness :
  findFunctionNameById (lit "A") [Demo.asked_A] <> [] /\
  exists m args signature,
    In m [Demo.asked_A] /\ role m = model /\
    In (FunctionCallPart (lit "A") (findFunctionNameById (lit "A") [Demo.asked_A]) args
          signature) (parts m).
Proof.
  assert (Hname : findFunctionNameById (lit "A") [Demo.asked_A] <> [])
    by (vm_compute; discriminate).
  split; [exact Hname|].
  exact (proj1 (tool_result_name_is_a_called_name (lit "A") [Demo.asked_A]) Hname).
Defined.

(** A question, the tool call A and its result. *)
Lemma user_messages_are_text_or_results_witness :
  exists contents cache',
    OpenAI.openaiMessageToAntigravity [Demo.question; Demo.turn_A; Demo.result_A] true
      (lit "m") (lit "s") false []
    = Normal (contents, cache') /\
    user_messages_well_formed contents = true.
Proof.
  eexists _, _. split; [vm_compute; reflexivity|].
  exact (proj1 user_messages_are_text_or_results
           [Demo.question; Demo.turn_A; Demo.result_A] true (lit "m") (lit "s") false [] _ _
           eq_refl).
Defined.

(** Turn A calls the tool [get weather], whose name is not safe, and turn
    B the tool [lookup], whose name is: one call is made. *)
Lemma tool_names_are_registered_in_order_witness :
  exists contents cache',
    OpenAI.openaiMessageToAntigravity [Demo.turn_A; Demo.turn_B] true (lit "m") (lit "s")
      false []
    = Normal (contents, cache') /\
    cache' = [] ++ [ {| mapping_model := lit "m"; mapping_safeName := lit "get_weather";
                        mapping_originalName := lit "get weather" |} ].
Proof.
  destruct (OpenAI.openaiMessageToAntigravity [Demo.turn_A; Demo.turn_B] true (lit "m")
              (lit "s") false []) as [[contents cache']|e] eqn:Hrun;
    [|vm_compute in Hrun; discriminate].
  exists contents, cache'. split; [reflexivity|].
  rewrite (proj1 tool_names_are_registered_in_order [Demo.turn_A; Demo.turn_B] true (lit "m")
             (lit "s") false [] contents cache' Hrun).
  vm_compute. reflexivity.
Defined.

(** Turn A and turn B make one message. *)
Lemma encoded_conversation_is_no_longer_witness :
  exists contents cache',
    OpenAI.openaiMessageToAntigravity [Demo.turn_A; Demo.turn_B] true (lit "m") (lit "s")
      false []
    = Normal (contents, cache') /\
    (length contents <= length [Demo.turn_A; Demo.turn_B])%nat.
Proof.
  eexists _, _. split; [vm_compute; reflexivity|].
  exact (proj1 encoded_conversation_is_no_longer [Demo.turn_A; Demo.turn_B] true (lit "m")
           (lit "s") false [] _ _ eq_refl).
Defined.

(** Turn A and an answer with reasoning text, encoded without thinking. *)
Lemma thinking_disabled_means_no_thought_part_witness :
  exists contents cache',
    OpenAI.openaiMessageToAntigravity [Demo.turn_A; Demo.turn_text] false (lit "m") (lit "s")
      false []
    = Normal (contents, cache') /\
    thought_signatures (all_parts contents) = [].
Proof.
  eexists _, _. split; [vm_compute; reflexivity|].
  exact (proj1 thinking_disabled_means_no_thought_part [Demo.turn_A; Demo.turn_text] (lit "m")
           (lit "s") false [] _ _ eq_refl).
Defined.

(** A system message, a question, and a system message again. *)
Lemma leading_system_messages_are_left_out_witness :
  useContextSystemPrompt Demo.with_context = true /\
  Forall (fun message => OpenAI.role message = OpenAI.RoleSystem) [Demo.system_note] /\
  OpenAI.role Demo.question <> OpenAI.RoleSystem /\
  OpenAI.filteredMessages Demo.with_context
    ([Demo.system_note] ++ Demo.question :: [Demo.system_note])
  = Demo.question :: [Demo.system_note].
Proof.
  assert (Hleading : Forall (fun message => OpenAI.role message = OpenAI.RoleSystem)
                       [Demo.system_note]) by (repeat constructor).
  assert (Hfirst : OpenAI.role Demo.question <> OpenAI.RoleSystem) by discriminate.
  split; [reflexivity | split; [exact Hleading | split; [exact Hfirst|]]].
  exact (proj1 (leading_system_messages_are_left_out Demo.with_context _ eq_refl)
           [Demo.system_note] Demo.question [Demo.system_note] eq_refl Hleading Hfirst).
Defined.

(** The configured instruction and a prompt of the client, both with
    white space around them. *)
Lemma merged_instruction_is_trimmed_witness :
  useContextSystemPrompt Demo.with_context = true /\
  prompt_truthy (PromptString (lit "Answer in French. ")) = true /\
  trim (Claude.mergedSystem Demo.with_context (PromptString (lit "Answer in French. ")))
  = Claude.mergedSystem Demo.with_context (PromptString (lit "Answer in French. ")) /\
  (Claude.mergedSystem Demo.with_context (PromptString (lit "Answer in French. ")) = [] <->
   trim (systemInstruction Demo.with_context) = [] /\ trim (lit "Answer in French. ") = []).
Proof.
  assert (Hprompt : prompt_truthy (PromptString (lit "Answer in French. ")) = true)
    by (vm_compute; reflexivity).
  split; [reflexivity | split; [exact Hprompt|]].
  exact (merged_instruction_is_trimmed Demo.with_context (systemInstruction Demo.with_context)
           (PromptString (lit "Answer in French. ")) eq_refl Hprompt).
Defined.

(** A remark and the result of call A in one Claude message. *)
Lemma tool_result_message_keeps_only_results_witness :
  Claude.role Demo.answer_A = Claude.RoleUser /\
  existsb Claude.is_tool_result
    [Claude.TextBlock (Some (lit "here you go"));
     Claude.ToolResultBlock (lit "A") (Claude.ResultString (lit "sunny"))] = true /\
  all_parts (fst (Claude.convert_message true (lit "m") (lit "s") false
                    ([Demo.asked_A], []) Demo.answer_A))
  = all_parts [Demo.asked_A]
    ++ omap (fun item =>
               match item with
               | Claude.ToolResultBlock id c =>
                   Some (FunctionResponsePart id (findFunctionNameById id [Demo.asked_A])
                           (Claude.result_text c))
               | _ => None
               end)
         [Claude.TextBlock (Some (lit "here you go"));
          Claude.ToolResultBlock (lit "A") (Claude.ResultString (lit "sunny"))].
Proof.
  split; [reflexivity | split; [reflexivity|]].
  exact (tool_result_message_keeps_only_results Demo.answer_A _ [Demo.asked_A] [] true
           (lit "m") (lit "s") false eq_refl eq_refl eq_refl).
Defined.

End ConversationExamples.

Section ResponseExamples.
#[local] Existing Instance Demo.runtime.
#[local] Existing Instance Demo.zlib.


(** The head of a plain response in two chunks: its [Content-Type] is
    stored as [content-type]. *)
Lemma header_names_are_lower_case_witness :
  Forall (fun b => is_ascii b = true)
    (concat [take 20 Demo.plain_head; drop 20 Demo.plain_head]) /\
  Requester.responseHeaders (Requester.feed [take 20 Demo.plain_head; drop 20 Demo.plain_head])
    !! lit "content-type" = Some (lit "text/plain") /\
  lit "content-type" <> [] /\ lit "content-type" <> lit "__proto__" /\
  Forall (fun u => u < 128 /\ (65 <=? u) && (u <=? 90) = false) (lit "content-type") /\
  toLowerCase (lit "content-type") = lit "content-type".
Proof.
  assert (Hascii : Forall (fun b => is_ascii b = true)
                     (concat [take 20 Demo.plain_head; drop 20 Demo.plain_head])).
  { apply Forall_forall. intros b Hb. apply list_elem_of_In in Hb.
    revert b Hb. apply forallb_forall. vm_compute. reflexivity. }
  assert (Hlookup : Requester.responseHeaders
                      (Requester.feed [take 20 Demo.plain_head; drop 20 Demo.plain_head])
                      !! lit "content-type" = Some (lit "text/plain"))
    by (vm_compute; reflexivity).
  split; [exact Hascii | split; [exact Hlookup|]].
  exact (header_names_are_lower_case [take 20 Demo.plain_head; drop 20 Demo.plain_head] _ _
           Hascii Hlookup).
Defined.

(** A value with a colon and a space of its own. *)
Lemma header_line_is_stored_whole_witness :
  lit "Date" <> [] /\
  Forall (fun u => u < 128) (lit "Date") /\
  includes (lit "Date") (lit ": ") = false /\
  toLowerCase (lit "Date") <> lit "__proto__" /\
  Requester.add_header ∅ (lit "Date" ++ lit ": " ++ lit "Mon: fine")
  = <[toLowerCase (lit "Date") := lit "Mon: fine"]> ∅ /\
  Requester.add_header ∅ (lit "Date" ++ lit ": " ++ lit "Mon: fine")
    !! toLowerCase (lit "Date") = Some (lit "Mon: fine").
Proof.
  assert (Hname : lit "Date" <> []) by (vm_compute; discriminate).
  assert (Hascii : Forall (fun u => u < 128) (lit "Date")).
  { apply Forall_forall. intros u Hu. apply list_elem_of_In in Hu. apply N.ltb_lt.
    revert u Hu. apply forallb_forall. vm_compute. reflexivity. }
  assert (Hincludes : includes (lit "Date") (lit ": ") = false) by (vm_compute; reflexivity).
  assert (Hproto : toLowerCase (lit "Date") <> lit "__proto__") by (vm_compute; discriminate).
  split; [exact Hname | split; [exact Hascii | split; [exact Hincludes |
    split; [exact Hproto|]]]].
  exact (proj1 (header_line_is_stored_whole ∅ (lit "Date") (lit "Mon: fine") Hname Hascii
                  Hincludes) Hproto).
Defined.


Lemma ascii_response_chunk_law_witness :
  Forall (fun b => is_ascii b = true) (concat Demo.three_chunks) /\
  parsed (Requester.feed Demo.three_chunks)
  = parsed (Requester.feed [concat Demo.three_chunks]).
Proof.
  assert (Hascii : Forall (fun b => is_ascii b = true) (concat Demo.three_chunks)).
  { apply Forall_forall. intros b Hb. apply list_elem_of_In in Hb.
    revert b Hb. apply forallb_forall. vm_compute. reflexivity. }
  split; [exact Hascii|].
  exact (ascii_response_chunk_law Demo.three_chunks Hascii).
Defined.

(** The subprocess is killed by its own timeout after the response has
    arrived in part. *)
Lemma stream_failure_ends_in_the_error_callback_witness :
  Some 3%Z <> Some 0%Z /\
  Requester.close_failed (Some 3%Z) []
  = Requester.Rejected
      {| Requester.message := Requester.exit_message (Some 3%Z);
         Requester.code := Requester.ECONNABORTED;
         Requester.errorType := Some (Requester.DefaultType (lit "UNKNOWN_ERROR"));
         Requester.exitCode := Some (Some 3%Z);
         Requester.response := None |} /\
  let error :=
    {| Requester.message := Requester.exit_message (Some 3%Z);
       Requester.code := Requester.ECONNABORTED;
       Requester.errorType := Some (Requester.DefaultType (lit "UNKNOWN_ERROR"));
       Requester.exitCode := Some (Some 3%Z);
       Requester.response := None |} in
  let h := Requester.antigravity_fetchStream listening Demo.three_chunks [] (Some 3%Z) in
  let events := progress_events Requester.start Demo.three_chunks in
  Requester.calls h
  = match events with
    | _ :: _ =>
        [Requester.OnStart (Requester.responseStatus (Requester.feed Demo.three_chunks)) ∅]
    | [] => []
    end ++ map Requester.OnData (map fst events) ++ [Requester.OnError error] /\
  fst (Requester.stream_text h) = Requester.TextThrows error.
Proof.
  assert (Hexit : Some 3%Z <> Some 0%Z) by discriminate.
  split; [exact Hexit | split; [reflexivity|]].
  exact (stream_failure_ends_in_the_error_callback Demo.three_chunks [] (Some 3%Z) _ Hexit
           eq_refl).
Defined.

Lemma streamed_ascii_text_ignores_chunking_witness :
  Forall (fun b => is_ascii b = true) (concat Demo.three_chunks) /\
  fst (Requester.stream_text
         (Requester.antigravity_fetchStream listening Demo.three_chunks [] (Some 0%Z)))
  = Requester.TextReturns
      (toString (concat (Requester.bodyChunks
                           (Requester.feed [concat Demo.three_chunks])))) /\
  fst (Requester.stream_text
         (Requester.antigravity_fetchStream listening Demo.three_chunks [] (Some 0%Z)))
  = fst (Requester.stream_text
           (Requester.antigravity_fetchStream listening [concat Demo.three_chunks] []
              (Some 0%Z))).
Proof.
  assert (Hascii : Forall (fun b => is_ascii b = true) (concat Demo.three_chunks)).
  { apply Forall_forall. intros b Hb. apply list_elem_of_In in Hb.
    revert b Hb. apply forallb_forall. vm_compute. reflexivity. }
  split; [exact Hascii|].
  exact (streamed_ascii_text_ignores_chunking Demo.three_chunks [] Hascii).
Defined.

(** A timeout of a second and a half: the timer runs for two seconds. *)
Lemma fetch_timeout_is_rounded_up_witness :
  (0 < 1500 < 9007199254740992)%Z /\ (1500 <= 2147483000)%Z /\
  Requester.kill_timer_delay
    (Requester.timeoutSec 30 (Requester.fetch_timeout 30 (Some 1500%Z))) = 2000%Z.
Proof.
  assert (Hms : (0 < 1500 < 9007199254740992)%Z) by lia.
  assert (Hrange : (1500 <= 2147483000)%Z) by lia.
  split; [exact Hms | split; [exact Hrange|]].
  exact (proj1 (proj1 (proj2 (fetch_timeout_is_rounded_up 30 1500 Hms)) Hrange)).
Defined.

End ResponseExamples.

Section ClientExamples.
#[local] Existing Instance Demo.upstream.

(** The API knows one default model and one model that is no default;
    the cache has just been cleared. *)
Lemma fetched_model_list_has_every_default_witness :
  cache_is_fresh 1000 60000
    (ApiClient.clearModelListCache
       {| ApiClient.modelListCache := Some []; ApiClient.modelListCacheTime := 900 |})
  = false /\
  NoDup [lit "gemini-2.5-pro"; lit "new-model"] /\
  exists modelList added,
    ApiClient.getAvailableModels 1000 2000 60000 (Some 7%nat)
      (inr (Some [lit "gemini-2.5-pro"; lit "new-model"]))
      (ApiClient.clearModelListCache
         {| ApiClient.modelListCache := Some []; ApiClient.modelListCacheTime := 900 |})
    = (inr modelList,
       {| ApiClient.modelListCache := Some modelList;
          ApiClient.modelListCacheTime := 1000 |}) /\
    map ApiClient.id modelList = [lit "gemini-2.5-pro"; lit "new-model"] ++ added /\
    (forall defaultModel,
       In defaultModel ApiClient.DEFAULT_MODELS -> In defaultModel (map ApiClient.id modelList)) /\
    NoDup (map ApiClient.id modelList).
Proof.
  assert (Hkeys : NoDup [lit "gemini-2.5-pro"; lit "new-model"]).
  { apply NoDup_ListNoDup. repeat (constructor; [vm_compute; intuition discriminate|]).
    constructor. }
  split; [reflexivity | split; [exact Hkeys|]].
  exact (fetched_model_list_has_every_default 1000 2000 60000 7%nat
           [lit "gemini-2.5-pro"; lit "new-model"]
           (ApiClient.clearModelListCache
              {| ApiClient.modelListCache := Some []; ApiClient.modelListCacheTime := 900 |})
           eq_refl Hkeys).
Defined.

(** Half a minute after the list was fetched, with no token at hand. *)
Lemma cached_model_list_is_served_witness :
  cache_is_fresh 1000 60000 ApiClient.no_cache = false /\
  (31000 - 1000 < 60000)%Z /\
  let first :=
    ApiClient.getAvailableModels 1000 2000 60000 (Some 7%nat)
      (inr (Some [lit "new-model"])) ApiClient.no_cache in
  ApiClient.getAvailableModels 31000 31001 60000 None (inr None) (snd first)
  = (fst first, snd first).
Proof.
  assert (Hwithin : (31000 - 1000 < 60000)%Z) by lia.
  split; [reflexivity | split; [exact Hwithin|]].
  exact (cached_model_list_is_served 1000 2000 60000 7%nat [lit "new-model"] ApiClient.no_cache
           31000 31001 None (inr None) eq_refl Hwithin).
Defined.

(** No token. *)
Lemma fallback_model_list_is_not_cached_witness :
  (@None ApiClient.Token = None \/
   forall keys, @inr ApiClient.ApiError _ (Some [lit "new-model"]) <> inr (Some keys)) /\
  snd (ApiClient.getAvailableModels 1000 2000 60000 None (inr (Some [lit "new-model"]))
         ApiClient.no_cache) = ApiClient.no_cache /\
  (cache_is_fresh 1000 60000 ApiClient.no_cache = false ->
   fst (ApiClient.getAvailableModels 1000 2000 60000 None (inr (Some [lit "new-model"]))
          ApiClient.no_cache)
   = inr (ApiClient.getDefaultModelList 2000)).
Proof.
  assert (Hfallback : @None ApiClient.Token = None \/
                      forall keys, @inr ApiClient.ApiError _ (Some [lit "new-model"])
                                   <> inr (Some keys)) by (left; reflexivity).
  split; [exact Hfallback|].
  exact (fallback_model_list_is_not_cached 1000 2000 60000 None
           (inr (Some [lit "new-model"])) ApiClient.no_cache Hfallback).
Defined.

(** A 500 with a dump id. *)
Lemma other_upstream_errors_keep_the_token_witness :
  ApiClient.getUpstreamStatus (Some 500%Z, lit "boom") <> Some 403%Z /\
  let errorBody := ApiClient.readUpstreamErrorBody (Some 500%Z, lit "boom") in
  let thrown :=
    fst (ApiClient.handleApiError (Some 500%Z, lit "boom") 7%nat (Some 1%nat)
           {| ApiClient.disabledTokens := []; ApiClient.rawResponseDumps := [] |}) in
  let effects' :=
    snd (ApiClient.handleApiError (Some 500%Z, lit "boom") 7%nat (Some 1%nat)
           {| ApiClient.disabledTokens := []; ApiClient.rawResponseDumps := [] |}) in
  ApiClient.message thrown
  = lit "API请求失败 ("
    ++ ApiClient.status_text (ApiClient.getUpstreamStatus (Some 500%Z, lit "boom"))
    ++ lit "): " ++ ApiClient.body_text errorBody /\
  ApiClient.status thrown = ApiClient.getUpstreamStatus (Some 500%Z, lit "boom") /\
  ApiClient.body thrown = errorBody /\
  ApiClient.disabledTokens effects' = [] /\
  ApiClient.rawResponseDumps effects'
  = [] ++ [(1%nat, if ApiClient.body_is_nullish errorBody then []
                   else ApiClient.body_text errorBody)].
Proof.
  assert (Hstatus : ApiClient.getUpstreamStatus (Some 500%Z, lit "boom") <> Some 403%Z)
    by (cbn; discriminate).
  split; [exact Hstatus|].
  exact (other_upstream_errors_keep_the_token (Some 500%Z, lit "boom") 7%nat (Some 1%nat)
           {| ApiClient.disabledTokens := []; ApiClient.rawResponseDumps := [] |} Hstatus).
Defined.

End ClientExamples.

(** The first of two tool calls is signed: its signature is the one
    written, not the reasoning signature. *)
Lemma cached_signature_is_the_latest_witness :
  ApiClient.signature_written (fun toolCall : option jsstring => toolCall)
    (fun _ _ => true) (fun _ => false) (Some (lit "s")) (Some (lit "m")) Demo.two_calls
  = Some Demo.written_S1 /\
  ApiClient.set_signature Demo.written_S1 <> [] /\
  ApiClient.set_content Demo.written_S1 <> [] /\
  ((exists earlier toolCall later,
      ApiClient.toolCalls Demo.two_calls = earlier ++ toolCall :: later /\
      toolCall = Some (ApiClient.set_signature Demo.written_S1) /\
      Forall (fun toolCall => truthy toolCall = false) later) \/
   (Forall (fun toolCall => truthy toolCall = false) (ApiClient.toolCalls Demo.two_calls) /\
    ApiClient.reasoningSignature Demo.two_calls
    = Some (ApiClient.set_signature Demo.written_S1))).
Proof.
  assert (Hwritten : ApiClient.signature_written (fun toolCall : option jsstring => toolCall)
                       (fun _ _ => true) (fun _ => false) (Some (lit "s")) (Some (lit "m"))
                       Demo.two_calls = Some Demo.written_S1) by (vm_compute; reflexivity).
  split; [exact Hwritten|].
  exact (cached_signature_is_the_latest (fun toolCall : option jsstring => toolCall)
           (fun _ _ => true) (fun _ => false) (Some (lit "s")) (Some (lit "m")) Demo.two_calls
           Demo.written_S1 Hwritten).
Defined.
